(** * Customer Feedback System: a shallow embedding of [app2.py]

    The script keeps customer feedback entries in a CSV file through pandas,
    draws a bar chart of the feedback reasons and lays the entries out in a
    paginated PDF report.  The development below follows the script top to
    bottom: text and date formatting, the pandas operations the script calls
    ([read_csv], [concat], [to_csv], [value_counts], [sort_values],
    [to_datetime], boolean masks), the reportlab canvas, and finally the three
    functions and the two button handlers of the script. *)

From Stdlib Require Import List String Ascii Bool Arith ZArith NArith QArith Lia.
From Stdlib Require Import DecimalString Sorted PrimFloat.
From Stdlib Require Import DecimalPos DecimalN.
Import ListNotations.
Local Open Scope string_scope.
Local Open Scope Z_scope.

(** ** Text helpers *)

Module Text.

(** The decimal digit character of [n mod 10]. *)
Definition digit (n : N) : ascii :=
  ascii_of_N (48 + n mod 10).

(** [width] decimal digits of [n], zero padded on the left
    (the ["%02d"], ["%04d"] family). *)
Fixpoint pad_digits (width : nat) (n : N) : string :=
  match width with
  | O => ""
  | S w => pad_digits w (n / 10) ++ String (digit n) ""
  end.

(** Python's [str] of a non-negative integer. *)
Definition N_to_string (n : N) : string :=
  NilEmpty.string_of_uint (N.to_uint n).

(** Python's [str] of an integer. *)
Definition Z_to_string (z : Z) : string :=
  if z <? 0 then "-" ++ N_to_string (Z.to_N (- z)) else N_to_string (Z.to_N z).

Definition digit_val (c : ascii) : option N :=
  let n := N_of_ascii c in
  if ((48 <=? n) && (n <=? 57))%N then Some (n - 48)%N else None.

(** Value of a run of decimal digits, most significant first; [None] as soon
    as a character is not a digit.  The empty run has the value of [acc]. *)
Fixpoint digits_val (s : string) (acc : N) : option N :=
  match s with
  | EmptyString => Some acc
  | String c s' =>
      match digit_val c with
      | Some d => digits_val s' (10 * acc + d)%N
      | None => None
      end
  end.

(** Split at the first occurrence of [sep]: the part before it, and the part
    after it when there is one. *)
Fixpoint split_at (sep : ascii) (s : string) : string * option string :=
  match s with
  | EmptyString => (EmptyString, None)
  | String c s' =>
      if Ascii.eqb c sep then (EmptyString, Some s')
      else let (a, b) := split_at sep s' in (String c a, b)
  end.

(** An optional leading sign: [(negative, rest)]. *)
Definition split_sign (s : string) : bool * string :=
  match s with
  | String "-" s' => (true, s')
  | String "+" s' => (false, s')
  | _ => (false, s)
  end.

Definition mem (s : string) (l : list string) : bool :=
  existsb (String.eqb s) l.

(** Position of the first occurrence of [s] in [l]. *)
Fixpoint index_of (s : string) (l : list string) : option nat :=
  match l with
  | [] => None
  | x :: l' =>
      if String.eqb s x then Some O
      else option_map S (index_of s l')
  end.

End Text.

(** ** Calendar dates ([datetime.date]) *)

Module Dates.

Record date : Type := mkDate { year : N; month : N; day : N }.

Definition is_leap (y : N) : bool :=
  ((y mod 4 =? 0) && (negb (y mod 100 =? 0) || (y mod 400 =? 0)))%N.

Definition days_in_month (y m : N) : N :=
  match m with
  | 2%N => if is_leap y then 29%N else 28%N
  | 4%N | 6%N | 9%N | 11%N => 30%N
  | _ => 31%N
  end.

(** A date [datetime.date] can hold; the year is kept to four digits from
    1000 on, where [strftime("%Y")] prints four digits on every platform. *)
Definition valid_date (d : date) : bool :=
  ((1000 <=? year d) && (year d <=? 9999) &&
   (1 <=? month d) && (month d <=? 12) &&
   (1 <=? day d) && (day d <=? days_in_month (year d) (month d)))%N.

(** Comparison of dates is the lexicographic comparison of
    (year, month, day). *)
Definition date_ltb (a b : date) : bool :=
  ((year a <? year b) ||
   ((year a =? year b) &&
    ((month a <? month b) ||
     ((month a =? month b) && (day a <? day b)))))%N.

Definition date_eqb (a b : date) : bool :=
  ((year a =? year b) && (month a =? month b) && (day a =? day b))%N.

Definition date_leb (a b : date) : bool := date_ltb a b || date_eqb a b.

(** [d - timedelta(days=1)]. *)
Definition pred_day (d : date) : date :=
  if (1 <? day d)%N then mkDate (year d) (month d) (day d - 1)
  else if (1 <? month d)%N
       then mkDate (year d) (month d - 1) (days_in_month (year d) (month d - 1))
       else mkDate (year d - 1) 12 31.

(** [d + timedelta(days=1)]. *)
Definition succ_day (d : date) : date :=
  if (day d <? days_in_month (year d) (month d))%N
  then mkDate (year d) (month d) (day d + 1)
  else if (month d <? 12)%N
       then mkDate (year d) (month d + 1) 1
       else mkDate (year d + 1) 1 1.

(** [d.strftime("%Y-%m-%d")], which is also [str(d)]. *)
Definition strftime_ymd (d : date) : string :=
  Text.pad_digits 4 (year d) ++ "-" ++ Text.pad_digits 2 (month d) ++ "-" ++
  Text.pad_digits 2 (day d).

(** Reading back the text [strftime_ymd] writes: exactly
    four digits, a dash, two digits, a dash, two digits, naming a valid
    date. *)
Definition parse_ymd (s : string) : option date :=
  match s with
  | String y1 (String y2 (String y3 (String y4 (String "-"
      (String m1 (String m2 (String "-" (String d1 (String d2 EmptyString))))))))) =>
      match Text.digits_val (String y1 (String y2 (String y3 (String y4 ""))))  0,
            Text.digits_val (String m1 (String m2 "")) 0,
            Text.digits_val (String d1 (String d2 "")) 0 with
      | Some y, Some m, Some d =>
          let r := mkDate y m d in
          if valid_date r then Some r else None
      | _, _, _ => None
      end
  | _ => None
  end.

End Dates.

(** ** The pandas operations the script calls *)

Module Pandas.
Import Text Dates.

(** A [float64] read from, or printed as, a plain decimal numeral: sign,
    mantissa and number of fractional digits, with no trailing fractional
    zero.  Decimal numerals of up to fifteen significant digits survive the
    trip through [float64] and its [repr] unchanged, which is the range the
    script works in (weights with three decimals, phone numbers); beyond it
    a double rounds the numeral, and from [1e16] on [repr] prints an
    exponent, neither of which is modelled. *)
Record float64 : Type := mkFloat { fneg : bool; fmant : N; fscale : nat }.

Fixpoint strip_zeros (mant : N) (scale : nat) : N * nat :=
  match scale with
  | O => (mant, O)
  | S k => if (mant mod 10 =? 0)%N then strip_zeros (mant / 10) k
           else (mant, scale)
  end.

Definition normal_float (neg : bool) (mant : N) (scale : nat) : float64 :=
  let (m, k) := strip_zeros mant scale in mkFloat neg m k.

(** [repr] of a float in positional notation: ["5.0"], ["5.25"], ["-0.5"]. *)
Definition float_repr (f : float64) : string :=
  let p := (10 ^ N.of_nat (fscale f))%N in
  (if fneg f then "-" else "") ++
  N_to_string (fmant f / p) ++ "." ++
  match fscale f with
  | O => "0"
  | S _ => pad_digits (fscale f) (fmant f mod p)
  end.

(** One value of a DataFrame. [VDate None] is [NaT]. *)
Inductive cell : Type :=
| VStr (s : string)
| VInt (z : Z)
| VFloat (f : float64)
| VNaN
| VDate (d : option date).

(** A DataFrame: the column labels and the rows, each row holding one cell
    per column.  The row index is positional ([ignore_index=True] and
    [index=False] are what the script uses). *)
Record DataFrame : Type := mkDF { columns : list string; rows : list (list cell) }.

(** The file as [to_csv] writes it and [read_csv] reads it: a header record
    and the data records, each a list of fields.  The quoting of fields that
    contain a delimiter is the CSV layer's business and is inverse on both
    sides; the model starts at the fields. *)
Record csv : Type := mkCsv { header : list string; records : list (list string) }.

(** [df.empty]: no rows or no columns. *)
Definition empty (df : DataFrame) : bool :=
  match rows df, columns df with
  | [], _ => true
  | _, [] => true
  | _, _ => false
  end.

(** [row[c]]: [None] stands for [KeyError]. *)
Definition get (cols : list string) (row : list cell) (c : string) : option cell :=
  match index_of c cols with
  | Some j => nth_error row j
  | None => None
  end.

(** [row.get(c, default)]. *)
Definition get_default (cols : list string) (row : list cell) (c : string)
    (default : cell) : cell :=
  match get cols row c with
  | Some v => v
  | None => default
  end.

(** [df[c]] as a list of cells; [None] stands for [KeyError]. *)
Definition column (df : DataFrame) (c : string) : option (list cell) :=
  match index_of c (columns df) with
  | Some j => Some (map (fun r => nth j r VNaN) (rows df))
  | None => None
  end.

(** *** [read_csv] *)

(** The fields [read_csv] takes for a missing value by default. *)
Definition na_values : list string :=
  [""; "#N/A"; "#N/A N/A"; "#NA"; "-1.#IND"; "-1.#QNAN"; "-NaN"; "-nan";
   "1.#IND"; "1.#QNAN"; "<NA>"; "N/A"; "NA"; "NULL"; "NaN"; "None"; "n/a";
   "nan"; "null"].

Definition is_na (tok : string) : bool := mem tok na_values.

Definition int64_min : Z := - 2 ^ 63.
Definition int64_max : Z := 2 ^ 63 - 1.

(** An integer numeral: an optional sign and at least one digit, within
    [int64]. *)
Definition parse_int (tok : string) : option Z :=
  let (neg, body) := split_sign tok in
  match body with
  | EmptyString => None
  | _ =>
      match digits_val body 0 with
      | Some n =>
          let z := if neg then - Z.of_N n else Z.of_N n in
          if (int64_min <=? z) && (z <=? int64_max) then Some z else None
      | None => None
      end
  end.

(** A decimal numeral: an optional sign, digits, optionally a point and more
    digits, with at least one digit in all. *)
Definition parse_float (tok : string) : option float64 :=
  let (neg, body) := split_sign tok in
  let (ip, rest) := split_at "." body in
  let fp := match rest with Some s => s | None => EmptyString end in
  match (ip ++ fp)%string with
  | EmptyString => None
  | _ =>
      match digits_val (ip ++ fp) 0 with
      | Some m => Some (normal_float neg m (String.length fp))
      | None => None
      end
  end.

(** The type [read_csv] settles on for a column. *)
Inductive dtype : Type := DInt | DFloat | DObject | DString.

(** Type inference over the fields of a column, in the parser's order:
    [int64] when every field is an integer numeral (a missing value rules
    it out), else [float64] when every field is a numeral or missing, else
    [object].  Numerals here are the plain decimal ones; the parser also
    takes exponents, infinities, blanks around a numeral and the words
    for booleans, which the script never writes and which are read as text
    in this model; an integer numeral beyond [int64], which the parser keeps
    as [uint64] or as text, is read here with the floats.  The statements
    below that depend on the type of a column are about the numerals and
    words the form writes. *)
Definition infer_dtype (toks : list string) : dtype :=
  match toks with
  | [] => DObject
  | _ =>
      if forallb (fun t => negb (is_na t) &&
                           match parse_int t with Some _ => true | None => false end) toks
      then DInt
      else if forallb (fun t => is_na t ||
                           match parse_float t with Some _ => true | None => false end) toks
      then DFloat
      else DObject
  end.

(** Conversion of one field at the column's type. *)
Definition convert (dt : dtype) (tok : string) : cell :=
  if is_na tok then VNaN
  else match dt with
       | DInt => match parse_int tok with Some z => VInt z | None => VStr tok end
       | DFloat => match parse_float tok with Some f => VFloat f | None => VStr tok end
       | DObject | DString => VStr tok
       end.

Definition enumerate {A : Type} (l : list A) : list (nat * A) :=
  combine (seq 0 (List.length l)) l.

(** The fields of column [j]; a record that is too short is padded with
    missing values. *)
Definition column_fields (j : nat) (recs : list (list string)) : list string :=
  map (fun r => nth j r EmptyString) recs.

(** [read_csv(path, dtype=forced)]: columns named in [forced] are read at
    the given type, the others at the inferred one. *)
Definition read_csv (f : csv) (forced : list (string * dtype)) : DataFrame :=
  let dts :=
    map (fun '(j, c) =>
           match find (fun p => String.eqb (fst p) c) forced with
           | Some p => snd p
           | None => infer_dtype (column_fields j (records f))
           end) (enumerate (header f)) in
  mkDF (header f)
       (map (fun r => map (fun '(j, dt) => convert dt (nth j r EmptyString))
                          (enumerate dts))
            (records f)).

(** *** [to_csv] *)

(** The text [to_csv] writes for a cell: [NaN] and [NaT] as the empty
    field, a midnight timestamp as its date. *)
Definition csv_field (v : cell) : string :=
  match v with
  | VStr s => s
  | VInt z => Z_to_string z
  | VFloat f => float_repr f
  | VNaN => EmptyString
  | VDate (Some d) => strftime_ymd d
  | VDate None => EmptyString
  end.

(** [df.to_csv(path, index=False)]: the header is the column labels alone,
    with no column for the row index. *)
Definition to_csv (df : DataFrame) : csv :=
  mkCsv (columns df) (map (map csv_field) (rows df)).

(** *** [concat] *)

(** A row laid out for the labels [to_]; a label the row does not have is
    filled with [NaN]. *)
Definition reindex (from to_ : list string) (row : list cell) : list cell :=
  map (fun c => get_default from row c VNaN) to_.

(** [pd.concat([a, b], ignore_index=True)]: the columns of [a] followed by
    the new ones of [b]; the rows of [a] followed by the rows of [b]. *)
Definition concat (a b : DataFrame) : DataFrame :=
  let cols :=
    (columns a ++ filter (fun c => negb (mem c (columns a))) (columns b))%list in
  mkDF cols (map (reindex (columns a) cols) (rows a) ++
             map (reindex (columns b) cols) (rows b))%list.

(** *** [value_counts] and [sort_values] *)

(** What Python's [==] and [hash] see of a cell: an [int] and a [float] of
    the same value are one key, whatever zeros the numeral was written
    with. *)
Inductive key : Type :=
| KStr (s : string)
| KNum (z : Z) (scale : nat)
| KNaN
| KDate (d : option date).

Definition key_of (v : cell) : key :=
  match v with
  | VStr s => KStr s
  | VInt z => KNum z O
  | VFloat f =>
      let (m, k) := strip_zeros (fmant f) (fscale f) in
      KNum (if fneg f then - Z.of_N m else Z.of_N m) k
  | VNaN => KNaN
  | VDate d => KDate d
  end.

Definition date_eq_dec (a b : date) : {a = b} + {a <> b}.
Proof. decide equality; apply N.eq_dec. Defined.

Definition key_eq_dec (a b : key) : {a = b} + {a <> b}.
Proof.
  decide equality;
    try apply string_dec; try apply Z.eq_dec; try apply Nat.eq_dec.
  decide equality; apply date_eq_dec.
Defined.

Definition same_key (a b : cell) : bool :=
  if key_eq_dec (key_of a) (key_of b) then true else false.

(** [isna]: [NaN] and [NaT]. *)
Definition isna (v : cell) : bool :=
  match v with
  | VNaN | VDate None => true
  | _ => false
  end.

(** The values of [l] in order of first appearance, one per key. *)
Fixpoint unique (seen : list key) (l : list cell) : list cell :=
  match l with
  | [] => []
  | v :: l' =>
      if in_dec key_eq_dec (key_of v) seen then unique seen l'
      else v :: unique (key_of v :: seen) l'
  end.

Definition count (v : cell) (l : list cell) : nat :=
  List.length (filter (same_key v) l).

(** A Series of counts indexed by value. *)
Definition counts : Type := list (cell * nat).

Fixpoint insert_by (le : nat -> nat -> bool) (x : cell * nat) (l : counts) : counts :=
  match l with
  | [] => [x]
  | y :: l' => if le (snd x) (snd y) then x :: l else y :: insert_by le x l'
  end.

(** The sort on the counts, by insertion.  The order it gives to entries of
    equal count is this model's own: pandas leaves it to numpy's sort, which
    promises none, and no statement below depends on it. *)
Definition sort_by (le : nat -> nat -> bool) (l : counts) : counts :=
  fold_right (insert_by le) [] l.

(** [s.value_counts()]: missing values dropped, one entry per distinct value
    with its number of occurrences, most frequent first. *)
Definition value_counts (col : list cell) : counts :=
  let present := filter (fun v => negb (isna v)) col in
  sort_by (fun a b => Nat.leb b a)
          (map (fun v => (v, count v present)) (unique [] present)).

(** [s.sort_values()]: ascending. *)
Definition sort_values (s : counts) : counts := sort_by Nat.leb s.

(** *** [to_datetime] and the date mask *)

(** The first and the last day whose midnight a nanosecond timestamp can
    hold ([Timestamp.min] is in the night of 1677-09-21, [Timestamp.max] in
    that of 2262-04-11). *)
Definition timestamp_first_day : date := mkDate 1677 9 22.
Definition timestamp_last_day : date := mkDate 2262 4 11.

(** [pd.to_datetime] on one value of the Date column.  The text the script
    writes is [YYYY-MM-DD], and that is the text modelled: it converts to its
    date, unless the day is outside what a nanosecond timestamp can hold,
    which raises ([None]).  A missing value becomes [NaT].  pandas reads
    other spellings of a date as well; they have no value here ([None]), and
    the statements below use the conversion on the script's own text only.
    Numbers do not occur in a column read with [dtype=str]. *)
Definition to_datetime1 (v : cell) : option cell :=
  match v with
  | VStr s =>
      match parse_ymd s with
      | Some d => if date_leb timestamp_first_day d && date_leb d timestamp_last_day
                  then Some (VDate (Some d)) else None
      | None => None
      end
  | VNaN => Some (VDate None)
  | VDate d => Some (VDate d)
  | VInt _ | VFloat _ => None
  end.

Fixpoint replace_nth {A : Type} (j : nat) (x : A) (l : list A) : list A :=
  match l, j with
  | [], _ => []
  | _ :: l', O => x :: l'
  | y :: l', S j' => y :: replace_nth j' x l'
  end.

(** All of [l] converted, or [None] if one conversion fails. *)
Fixpoint mapM {A B : Type} (f : A -> option B) (l : list A) : option (list B) :=
  match l with
  | [] => Some []
  | x :: l' =>
      match f x, mapM f l' with
      | Some y, Some ys => Some (y :: ys)
      | _, _ => None
      end
  end.

(** [df[c] = pd.to_datetime(df[c])]; [None] when the column is absent or a
    value does not convert. *)
Definition to_datetime_column (df : DataFrame) (c : string) : option DataFrame :=
  match index_of c (columns df) with
  | Some j =>
      option_map (mkDF (columns df))
        (mapM (fun r => option_map (fun v => replace_nth j v r)
                                   (to_datetime1 (nth j r VNaN)))
              (rows df))
  | None => None
  end.

(** [s.min()] of a datetime column: the earliest date, missing values
    skipped; [NaT] ([None]) when every value is missing. *)
Definition min_date (col : list cell) : option date :=
  fold_right (fun v acc =>
                match v, acc with
                | VDate (Some d), Some m => Some (if date_ltb m d then m else d)
                | VDate (Some d), None => Some d
                | _, _ => acc
                end) None col.

(** [v.date()] for a value of a datetime column. *)
Definition dt_date (v : cell) : option date :=
  match v with
  | VDate d => d
  | _ => None
  end.

(** One entry of the mask [(df[c].dt.date >= lo) & (df[c].dt.date <= hi)];
    a comparison with [NaT] is false. *)
Definition in_range (lo hi : date) (v : cell) : bool :=
  match dt_date v with
  | Some d => date_leb lo d && date_leb d hi
  | None => false
  end.

(** [df.loc[mask]] for that mask over column [c]. *)
Definition loc_between (df : DataFrame) (c : string) (lo hi : date) : option DataFrame :=
  match index_of c (columns df) with
  | Some j =>
      Some (mkDF (columns df)
                 (filter (fun r => in_range lo hi (nth j r VNaN)) (rows df)))
  | None => None
  end.

End Pandas.

(** ** The chart ([matplotlib]) and the canvas ([reportlab]) *)

Module Drawing.
Import Text Dates Pandas.

(** The figure saved to the PNG buffer, described by what was plotted: a
    horizontal bar chart with one bar per entry of [bars], in that order. *)
Record Chart : Type := mkChart {
  chart_title : string;
  xlabel : string;
  ylabel : string;
  bars : counts
}.

(** Lengths are in tenths of a point, so that every length of the script is
    a whole number: [inch] is reportlab's 72 points.  The cursor of the script
    is a double; [FloatCursor] repeats its arithmetic and
    [float_cursor_breaks_alike] shows that it breaks the page where the exact
    cursor does. *)
Definition inch : Z := 720.

(** [x * inch] for [x] given in hundredths: [inches 150] is [1.5 * inch]. *)
Definition inches (hundredths : Z) : Z := hundredths * inch / 100.

(** [letter]: 8.5 by 11 inches. *)
Definition width : Z := inches 850.
Definition height : Z := inches 1100.

Inductive op : Type :=
| SetFont (name : string) (size : Z)
| DrawCentredString (x y : Z) (text : string)
| DrawInlineImage (image : Chart) (x y w h : Z)
| DrawString (x y : Z) (text : string)
| Line (x1 y1 x2 y2 : Z).

Definition page : Type := list op.

(** The canvas: the document title, the pages already closed by [showPage]
    and the operations of the page being drawn. *)
Record canvas : Type := mkCanvas {
  doc_title : string;
  finished : list page;
  current : page
}.

Definition new_canvas : canvas := mkCanvas "" [] [].

Definition setTitle (t : string) (c : canvas) : canvas :=
  mkCanvas t (finished c) (current c).

Definition draw (o : op) (c : canvas) : canvas :=
  mkCanvas (doc_title c) (finished c) (current c ++ [o])%list.

Definition showPage (c : canvas) : canvas :=
  mkCanvas (doc_title c) (finished c ++ [current c])%list [].

(** The finished document. *)
Record pdf : Type := mkPdf { pdf_title : string; pages : list page }.

(** [c.save()]: a page with content on it is closed first. *)
Definition save (c : canvas) : pdf :=
  match current c with
  | [] => mkPdf (doc_title c) (finished c)
  | _ => mkPdf (doc_title c) (finished c ++ [current c])%list
  end.

(** [str(v)] as an f-string prints a value of a row. *)
Definition str (v : cell) : string :=
  match v with
  | VStr s => s
  | VInt z => Z_to_string z
  | VFloat f => float_repr f
  | VNaN => "nan"
  | VDate (Some d) => strftime_ymd d ++ " 00:00:00"
  | VDate None => "NaT"
  end.

End Drawing.

(** ** The script *)

Module App.
Import Text Dates Pandas Drawing.

Definition DATA_FILE : string := "customer_data.csv".

Definition COLUMNS : list string :=
  ["Date"; "Customer Name"; "Contact Number"; "Product"; "Weight (grams)";
   "Reason for Feedback"].

(** The one file the script touches: absent, or its content. *)
Definition store : Type := option csv.

(** [load_data()]. *)
Definition load_data (fs : store) : DataFrame :=
  match fs with
  | Some f => read_csv f [("Date", DString)]
  | None => mkDF COLUMNS []
  end.

(** [create_reason_chart(df)].  The outer [None] stands for an exception,
    as elsewhere; [Some None] is the function returning [None] and
    [Some (Some chart)] the buffer with the figure.  [plot(kind='barh')]
    raises [IndexError] on a Series with no entry, which is what
    [value_counts] gives when every reason is missing. *)
Definition create_reason_chart (df : DataFrame) : option (option Chart) :=
  if empty df || negb (mem "Reason for Feedback" (columns df)) then Some None
  else
    match column df "Reason for Feedback" with
    | Some col =>
        let reason_counts := value_counts col in
        match sort_values reason_counts with
        | [] => None
        | bar :: more =>
            Some (Some (mkChart "Summary of Customer Feedback Reasons"
                                "Number of Customers" "Reason"
                                (bar :: more)))
        end
    | None => None
    end.

(** The two f-strings of an entry; [None] when a subscripted column is
    absent ([KeyError]). *)
Definition line1 (cols : list string) (row : list cell) : option string :=
  match get cols row "Date", get cols row "Customer Name" with
  | Some d, Some n =>
      Some ("Date: " ++ str d ++ " | Name: " ++ str n ++ " | Contact: " ++
            str (get_default cols row "Contact Number" (VStr "N/A")))
  | _, _ => None
  end.

Definition line2 (cols : list string) (row : list cell) : option string :=
  match get cols row "Product", get cols row "Weight (grams)",
        get cols row "Reason for Feedback" with
  | Some p, Some w, Some r =>
      Some ("Product: " ++ str p ++ " | Weight: " ++ str w ++ "g | Reason: " ++ str r)
  | _, _, _ => None
  end.

(** The page-break test at the top of the loop body. *)
Definition page_break (st : canvas * Z) : canvas * Z :=
  let (c, y_position) := st in
  if y_position <? inches 150 then
    let c := showPage c in
    let y_position := height - inches 100 in
    let c := draw (SetFont "Helvetica-Bold" 12) c in
    let c := draw (DrawString (inches 100) y_position "Detailed Entries (Continued)") c in
    (c, y_position - inches 25)
  else (c, y_position).

(** One iteration of the loop over [report_df.iterrows()]. *)
Definition draw_entry (cols : list string) (st : canvas * Z) (row : list cell)
    : option (canvas * Z) :=
  let (c, y_position) := page_break st in
  let c := draw (SetFont "Helvetica" 10) c in
  let line_height := inches 20 in
  match line1 cols row, line2 cols row with
  | Some t1, Some t2 =>
      let c := draw (DrawString (inches 120) y_position t1) c in
      let y_position := y_position - line_height in
      let c := draw (DrawString (inches 120) y_position t2) c in
      let y_position := y_position - line_height / 2 in
      let c := draw (Line (inches 110) y_position (width - inches 110) y_position) c in
      let y_position := y_position - inches 25 in
      Some (c, y_position)
  | _, _ => None
  end.

Fixpoint draw_entries (cols : list string) (st : canvas * Z) (rs : list (list cell))
    : option (canvas * Z) :=
  match rs with
  | [] => Some st
  | row :: rs' =>
      match draw_entry cols st row with
      | Some st' => draw_entries cols st' rs'
      | None => None
      end
  end.

(** The part of [create_report_pdf] before the loop: title, optional chart,
    section header; the canvas and the cursor the loop starts with. *)
Definition report_head (chart_image : option Chart) : canvas * Z :=
  let c := setTitle "Customer Feedback Report" new_canvas in
  let c := draw (SetFont "Helvetica-Bold" 16) c in
  let c := draw (DrawCentredString (width / 2) (height - inches 75)
                                   "Customer Feedback Report") c in
  let y_position := height - inches 100 in
  let (c, y_position) :=
    match chart_image with
    | Some image =>
        (draw (DrawInlineImage image (inches 100) (y_position - inches 350)
                               (inches 650) (inches 325)) c,
         y_position - inches 400)
    | None => (c, y_position)
    end in
  let c := draw (SetFont "Helvetica-Bold" 12) c in
  let c := draw (DrawString (inches 100) y_position "Detailed Entries:") c in
  (c, y_position - inches 25).

(** [create_report_pdf(report_df, chart_image)]; [None] when a row lacks a
    column the entry lines subscript. *)
Definition create_report_pdf (report_df : DataFrame) (chart_image : option Chart)
    : option pdf :=
  match draw_entries (columns report_df) (report_head chart_image) (rows report_df) with
  | Some (c, _) => Some (save c)
  | None => None
  end.

(** *** Section 1: the entry form *)

(** What the widgets of the form hold when it is submitted.  The weight is
    the exact value of the float the number input returns. *)
Record Form : Type := mkForm {
  form_date : date;
  form_name : string;
  form_contact : string;
  form_product : string;
  form_weight : Q;
  form_reason : string
}.

(** The options of the two select boxes of the form. *)
Definition PRODUCTS : list string :=
  [""; "Bangle"; "Ring"; "Chain"; "Earring"; "Necklace"; "Bracelet"; "Other"].

Definition REASONS : list string :=
  [""; "VA Problem"; "Model Problem"; "Selection Issue"; "Staff Issue";
   "Live Shopping"; "JPS Card"].

(** [round(x)] to the nearest integer, ties to even, for [x = a / b]
    with [0 <= a] and [0 < b]. *)
Definition round_half_even (a b : Z) : Z :=
  let n := a / b in
  let r := a mod b in
  if 2 * r <? b then n
  else if b <? 2 * r then n + 1
  else if Z.even n then n else n + 1.

(** The f-string [f"{w:.3f}"]: the value rounded to thousandths and printed
    with exactly three decimals. *)
Definition format_3f (w : Q) : string :=
  let n := Z.to_N (round_half_even (1000 * Z.abs (Qnum w)) (Zpos (Qden w))) in
  (if Qnum w <? 0 then "-" else "") ++
  N_to_string (n / 1000) ++ "." ++ pad_digits 3 (n mod 1000).

(** The values of the one-row frame built from the form. *)
Definition entry_fields (f : Form) : list string :=
  [strftime_ymd (form_date f); form_name f; form_contact f; form_product f;
   format_3f (form_weight f); form_reason f].

Definition new_entry (f : Form) : DataFrame :=
  mkDF COLUMNS [map VStr (entry_fields f)].

(** What a run shows or does, in order. *)
Inductive event : Type :=
| StInfo (msg : string)
| StWarning (msg : string)
| StError (msg : string)
| StSuccess (msg : string)
| FileWritten (path : string) (content : csv)
| DownloadButton (label : string) (data : pdf) (file_name mime : string)
| Uncaught.

(** Python's [not s] for a string. *)
Definition falsy (s : string) : bool :=
  match s with
  | EmptyString => true
  | _ => false
  end.

(** The body of [if st.form_submit_button("Save Entry")]: the frame and the
    file after it, and what it showed. *)
Definition save_entry (df : DataFrame) (fs : store) (f : Form)
    : DataFrame * store * list event :=
  if falsy (form_name f) || falsy (form_product f) || falsy (form_reason f) then
    (df, fs, [StWarning "Please fill in Name, Product, and Reason."])
  else
    let df := concat df (new_entry f) in
    let content := to_csv df in
    (df, Some content,
     [FileWritten DATA_FILE content;
      StSuccess ("✅ Entry for '" ++ form_name f ++ "' saved successfully!")]).

(** *** Section 2: the report *)

(** The body of [if st.button("Generate PDF Report")], over the frame whose
    Date column was converted by [to_datetime]. *)
Definition generate_report (df : DataFrame) (start_date end_date : date)
    (include_chart : bool) : list event :=
  if date_ltb end_date start_date then
    [StError "Error: Start Date cannot be after End Date."]
  else
    match loc_between df "Date" start_date end_date with
    | None => [Uncaught]
    | Some filtered_df =>
        if empty filtered_df then
          [StWarning "No entries found for the selected date range."]
        else
          match (if include_chart then create_reason_chart filtered_df
                 else Some None) with
          | None => [Uncaught]
          | Some chart_image_buffer =>
              match create_report_pdf filtered_df chart_image_buffer with
              | None => [Uncaught]
              | Some pdf_buffer =>
                  [StSuccess ("✅ PDF report generated with " ++
                              N_to_string (N.of_nat (List.length (rows filtered_df))) ++
                              " entries!");
                   DownloadButton "Download PDF Report" pdf_buffer
                     ("Report_" ++ strftime_ymd start_date ++ "_to_" ++
                      strftime_ymd end_date ++ ".pdf")
                     "application/pdf"]
              end
          end
    end.

(** [df['Date'].min().date()], the default value of the start date widget,
    computed in every run that has data; [None] when the minimum is [NaT],
    whose [date()] raises. *)
Definition default_start_date (df : DataFrame) : option date :=
  match column df "Date" with
  | Some col => min_date col
  | None => None
  end.

(** What the user did to cause the run: at most one button is down in a
    run. *)
Inductive action : Type :=
| Browse
| SaveEntry (f : Form)
| GenerateReport (start_date end_date : date) (include_chart : bool).

(** One run of the script, top to bottom: the file after the run and what
    the run showed.  The date widgets and the table of all saved data are
    display only and are left out, but for the default of the start date,
    whose computation can raise before the button is reached. *)
Definition script (fs : store) (a : action) : store * list event :=
  let df := load_data fs in
  let '(df, fs, shown1) :=
    match a with
    | SaveEntry f => save_entry df fs f
    | _ => (df, fs, [])
    end in
  let shown2 :=
    if empty df then [StInfo "No data has been saved yet."]
    else
      match to_datetime_column df "Date" with
      | None => [Uncaught]
      | Some df =>
          match default_start_date df with
          | None => [Uncaught]
          | Some _ =>
              match a with
              | GenerateReport start_date end_date include_chart =>
                  generate_report df start_date end_date include_chart
              | _ => []
              end
          end
      end in
  (fs, shown1 ++ shown2)%list.

End App.

(** ** The cursor in floating point *)

Module FloatCursor.

Set Warnings "-inexact-float".

(** The script computes the cursor in IEEE double precision, in points.  The
    definitions here repeat its arithmetic on doubles, operation by
    operation, so that the page-break decisions of the exact cursor of
    [App] can be compared with those the script takes. *)
Definition inch : float := 72%float.

Definition height : float := (11 * inch)%float.

(** The cursor when the loop starts, with and without a chart. *)
Definition first_cursor (with_chart : bool) : float :=
  let y_position := (height - 1 * inch)%float in
  let y_position :=
    if with_chart then (y_position - 4 * inch)%float else y_position in
  (y_position - 0.25 * inch)%float.

(** The cursor under the header of a page opened by a page break. *)
Definition continued_cursor : float :=
  (height - 1 * inch - 0.25 * inch)%float.

(** The test [y_position < 1.5 * inch]. *)
Definition breaks (y_position : float) : bool :=
  (y_position <? 1.5 * inch)%float.

(** The cursor after one entry drawn at [y_position]. *)
Definition after_entry (y_position : float) : float :=
  let line_height := (0.2 * inch)%float in
  let y_position := (y_position - line_height)%float in
  let y_position := (y_position - line_height / 2)%float in
  (y_position - 0.25 * inch)%float.

(** The number of entries drawn from [y_position] on before the test asks
    for a new page (at most [fuel]). *)
Fixpoint entries_on_page (fuel : nat) (y_position : float) : nat :=
  match fuel with
  | O => O
  | S k => if breaks y_position then O
           else S (entries_on_page k (after_entry y_position))
  end.

End FloatCursor.


(** ** Properties of saved entries and reports *)

Module Observations.
Import Text Dates Pandas Drawing App.

(** The store holds no file yet, or a file with the six columns of the
    script as its header. *)
Definition has_schema (fs : store) : Prop :=
  match fs with
  | Some f => header f = COLUMNS
  | None => True
  end.

(** The three required fields of the form are filled in. *)
Definition required_filled (f : Form) : Prop :=
  form_name f <> "" /\ form_product f <> "" /\ form_reason f <> "".

(** The frame a fresh run loads after the form was submitted on the store
    [fs]. *)
Definition reload_after_save (fs : store) (f : Form) : DataFrame :=
  let '(_, fs', _) := save_entry (load_data fs) fs f in load_data fs'.

(** The six fields of the last row read back equal to the submitted values:
    the text of the name, contact, product and reason, the weight with three
    decimals and the date as [YYYY-MM-DD]. *)
Definition round_trip (fs : store) (f : Form) : Prop :=
  last (rows (reload_after_save fs f)) [] = map VStr (entry_fields f).

(** Python's [str.isspace] on the ASCII range. *)
Definition is_space (c : ascii) : bool :=
  let n := N_of_ascii c in
  ((n =? 32) || ((9 <=? n) && (n <=? 13)) || ((28 <=? n) && (n <=? 31)))%N.

Fixpoint all_space (s : string) : bool :=
  match s with
  | EmptyString => true
  | String c s' => is_space c && all_space s'
  end.

(** A name made of blanks only, with at least one of them. *)
Definition whitespace_only (s : string) : bool :=
  match s with
  | EmptyString => false
  | _ => all_space s
  end.

(** The lowest point an operation draws at. *)
Definition lowest (o : op) : option Z :=
  match o with
  | SetFont _ _ => None
  | DrawCentredString _ y _ => Some y
  | DrawInlineImage _ _ y _ _ => Some y
  | DrawString _ y _ => Some y
  | Line _ y1 _ y2 => Some (Z.min y1 y2)
  end.

(** Nothing on any page is drawn below [margin]. *)
Definition within_margin (margin : Z) (p : pdf) : Prop :=
  forall pg o y, In pg (pages p) -> In o pg -> lowest o = Some y -> margin <= y.

(** The operations that draw one entry with its first line at height [y]. *)
Definition entry_block (t1 t2 : string) (y : Z) : page :=
  [SetFont "Helvetica" 10;
   DrawString (inches 120) y t1;
   DrawString (inches 120) (y - inches 20) t2;
   Line (inches 110) (y - inches 20 - inches 20 / 2)
        (width - inches 110) (y - inches 20 - inches 20 / 2)].

(** What a page opened by a page break starts with. *)
Definition continued_header : page :=
  [SetFont "Helvetica-Bold" 12;
   DrawString (inches 100) (height - inches 100) "Detailed Entries (Continued)"].

(** [pg] has the operations [b] in a row somewhere. *)
Definition contains (b pg : page) : Prop :=
  exists before after, pg = (before ++ b ++ after)%list.

(** The text lines of the entries, which are the strings drawn at the entry
    indent, in drawing order. *)
Definition entry_texts (pg : page) : list string :=
  flat_map (fun o => match o with
                     | DrawString x _ t => if x =? inches 120 then [t] else []
                     | _ => []
                     end) pg.

Definition is_image (o : op) : bool :=
  match o with
  | DrawInlineImage _ _ _ _ _ => true
  | _ => false
  end.

(** The five columns the entry lines subscript are there and every row has a
    value for each column. *)
Definition report_fields (df : DataFrame) : Prop :=
  (forall c, In c ["Date"; "Customer Name"; "Product"; "Weight (grams)";
                   "Reason for Feedback"] -> mem c (columns df) = true) /\
  Forall (fun r => List.length r = List.length (columns df)) (rows df).

(** The number of entries the cursor rule lets onto a page whose first entry
    is drawn at height [y]. *)
Definition capacity (y : Z) : Z :=
  if y <? inches 150 then 0 else (y - inches 150) / (inches 55) + 1.

(** The pages of a canvas so far, the one being drawn last. *)
Definition pages_so_far (c : canvas) : list page :=
  (finished c ++ [current c])%list.

(** Where the first line of an entry goes when the cursor is at [y]: at the
    cursor, or at the top of a new page, under its header. *)
Definition first_line_at (y : Z) : Z :=
  if y <? inches 150 then height - inches 100 - inches 25 else y.

(** The loop body in one piece, for an entry whose two lines are [t1] and
    [t2]: after a page break the entry opens a new page under the header,
    otherwise it goes on the current page at the cursor. *)
Definition place (st : canvas * Z) (t1 t2 : string) : canvas * Z :=
  let (c, y) := st in
  (if y <? inches 150
   then mkCanvas (doc_title c) (finished c ++ [current c])
                 (continued_header ++ entry_block t1 t2 (first_line_at y))
   else mkCanvas (doc_title c) (finished c)
                 (current c ++ entry_block t1 t2 (first_line_at y)),
   first_line_at y - inches 55)%list.

(** The two text lines of a row, when its columns are there. *)
Definition entry_lines (cols : list string) (row : list cell) : list string :=
  match line1 cols row, line2 cols row with
  | Some t1, Some t2 => [t1; t2]
  | _, _ => []
  end.

Definition place_row (cols : list string) (st : canvas * Z) (row : list cell)
    : canvas * Z :=
  match line1 cols row, line2 cols row with
  | Some t1, Some t2 => place st t1 t2
  | _, _ => st
  end.

(** Pages opened by a page break start with the header. *)
Definition continued_pages (ps : list page) : Prop :=
  Forall (fun pg => exists rest, pg = (continued_header ++ rest)%list) (tl ps).

(** One entry as it is laid out: its two lines and the height of the first;
    and the operations that draw it. *)
Definition block (e : string * string * Z) : page :=
  entry_block (fst (fst e)) (snd (fst e)) (snd e).

(** The pages that show the entries of [layout], which has one list of
    entries per page: the first page under [head], each of the others under
    the header of a continued page, and on every page the blocks of its
    entries one after the other and nothing else. *)
Definition laid_out (head : page) (layout : list (list (string * string * Z)))
    : list page :=
  match layout with
  | [] => []
  | first :: more =>
      (head ++ flat_map block first)%list ::
      map (fun es => (continued_header ++ flat_map block es)%list) more
  end.

(** Every operation on every page satisfies [ok]. *)
Definition all_ops (ok : op -> Prop) (ps : list page) : Prop :=
  Forall (Forall ok) ps.

(** The order of the bars: by count, ascending. *)
Definition by_count (a b : cell * nat) : Prop := (snd a <= snd b)%nat.

End Observations.

(** ** Sample inputs *)

Module Samples.
Import Text Dates Pandas Drawing App Observations.

(** Ann, who leaves no contact number, brings back a ring of 5 grams. *)
Definition ann_form : Form :=
  mkForm (mkDate 2024 1 15) "Ann" "" "Ring" (5 # 1) "VA Problem".

(** The same form with the name left empty, and with a blank for a name. *)
Definition nameless_form : Form :=
  mkForm (mkDate 2024 1 15) "" "98765" "Ring" (5 # 1) "VA Problem".

Definition blank_form : Form :=
  mkForm (mkDate 2024 1 15) " " "98765" "Ring" (5 # 1) "VA Problem".

(** Bob's entry, and a store that already holds one entry. *)
Definition bob_form : Form :=
  mkForm (mkDate 2024 2 29) "Bob" "" "Chain" (1235 # 1000) "JPS Card".

Definition one_entry_store : store :=
  Some (mkCsv COLUMNS
          [["2024-01-15"; "Ann"; "98765"; "Ring"; "5.000"; "VA Problem"]]).

(** Ann again, this time leaving a phone number that starts with a zero, and
    the file the script writes for her entry on an empty store. *)
Definition ann_phone_form : Form :=
  mkForm (mkDate 2024 1 15) "Ann" "0987654321" "Ring" (5 # 1) "VA Problem".

Definition phone_store : store :=
  Some (mkCsv COLUMNS
          [["2024-01-15"; "Ann"; "0987654321"; "Ring"; "5.000"; "VA Problem"]]).

(** The row of Ann's entry as a later run has it when it builds the report:
    loaded from the file, the Date converted by [to_datetime]. *)
Definition ann_row : list cell :=
  [VDate (Some (mkDate 2024 1 15)); VStr "Ann"; VNaN; VStr "Ring";
   VFloat (mkFloat false 5 0); VStr "VA Problem"].

(** Sixteen entries to report on. *)
Definition sixteen_entries : DataFrame := mkDF COLUMNS (repeat ann_row 16).

(** Thirty-three entries, no two alike, to report on. *)
Definition numbered_row (i : nat) : list cell :=
  [VDate (Some (mkDate 2024 1 15)); VStr ("Customer " ++ N_to_string (N.of_nat i));
   VNaN; VStr "Ring"; VFloat (mkFloat false 5 0); VStr "VA Problem"].

Definition thirty_three_entries : DataFrame :=
  mkDF COLUMNS (map numbered_row (seq 1 33)).

(** A frame from a file whose one record has an empty reason field. *)
Definition reasons_missing_frame : DataFrame :=
  mkDF COLUMNS
       [[VDate (Some (mkDate 2024 1 15)); VStr "Ann"; VNaN; VStr "Ring";
         VFloat (mkFloat false 5 0); VNaN]].

(** A frame from a file that has no reason column. *)
Definition no_reason_frame : DataFrame :=
  mkDF ["Date"; "Customer Name"; "Contact Number"; "Product"; "Weight (grams)"]
       [[VDate (Some (mkDate 2024 1 15)); VStr "Ann"; VNaN; VStr "Ring";
         VFloat (mkFloat false 5 0)]].

End Samples.

(** ** Stores, totals and page counts *)

Module Derived.
Import Text Dates Pandas Drawing App Observations.

(** The number of records in the file. *)
Definition record_count (fs : store) : nat :=
  match fs with
  | Some f => List.length (records f)
  | None => O
  end.

(** A valid date of the years 1678 to 2261, every day of which a nanosecond
    timestamp can hold. *)
Definition timestamp_date (d : date) : bool :=
  (valid_date d && (1678 <=? year d) && (year d <=? 2261))%N.

(** Every Date field of the file is the text the form writes for such a
    date. *)
Definition form_dates (fs : store) : Prop :=
  match fs with
  | Some f =>
      Forall (fun rec => exists d, timestamp_date d = true /\
                                   nth 0 rec EmptyString = strftime_ymd d)
             (records f)
  | None => True
  end.

(** Whether the run is a submission that passes the check of the required
    fields. *)
Definition saves (a : action) : bool :=
  match a with
  | SaveEntry f =>
      negb (falsy (form_name f) || falsy (form_product f) || falsy (form_reason f))
  | _ => false
  end.

(** Every character of the text is a decimal digit. *)
Fixpoint all_digits (s : string) : bool :=
  match s with
  | EmptyString => true
  | String c s' =>
      match digit_val c with
      | Some _ => all_digits s'
      | None => false
      end
  end.

(** Every weight field of the file is the text the form writes for a weight
    that is not negative (the number input has [min_value=0.0]). *)
Definition form_weights (f : csv) : Prop :=
  Forall (fun rec => exists w, 0 <= Qnum w /\
                               nth 4 rec EmptyString = format_3f w)
         (records f).

(** The sum of the bar lengths of a chart. *)
Definition total (s : counts) : nat :=
  fold_right (fun b n => (snd b + n)%nat) O s.

(** The pages after the first that [n] entries take when [cap] of them go on
    the first page: sixteen on each. *)
Definition extra_pages (n cap : Z) : Z :=
  if n <=? cap then 0 else (n - cap + 15) / 16.

(** The images drawn in a document, in drawing order. *)
Definition images (ps : list page) : list op :=
  flat_map (filter is_image) ps.

(** What the first page of a report with a chart starts with: the title, the
    chart in its box, the section header. *)
Definition chart_page_head (image : Chart) : page :=
  [SetFont "Helvetica-Bold" 16;
   DrawCentredString (width / 2) (height - inches 75) "Customer Feedback Report";
   DrawInlineImage image (inches 100) (height - inches 100 - inches 350)
                   (inches 650) (inches 325);
   SetFont "Helvetica-Bold" 12;
   DrawString (inches 100) (height - inches 100 - inches 400) "Detailed Entries:"].

(** A frame from a file without a contact column, its Date converted. *)
Definition no_contact_frame : DataFrame :=
  mkDF ["Date"; "Customer Name"; "Product"; "Weight (grams)"; "Reason for Feedback"]
       [[VDate (Some (mkDate 2024 1 15)); VStr "Ann"; VStr "Ring";
         VFloat (mkFloat false 5 0); VStr "VA Problem"]].

(** A file some other tool wrote: two columns, one record. *)
Definition foreign_store : store :=
  Some (mkCsv ["Customer Name"; "Notes"] [["Zed"; "called twice"]]).

End Derived.

Import Text Dates Pandas Drawing App Observations Samples.

(** ** Dates *)

Ltac date_bools :=
  unfold date_leb, date_ltb, date_eqb, valid_date in *; simpl in *;
  repeat (rewrite ?Bool.orb_true_iff, ?Bool.andb_true_iff, ?Bool.orb_false_iff,
            ?Bool.andb_false_iff, ?N.ltb_lt, ?N.leb_le, ?N.eqb_eq, ?N.ltb_ge,
            ?N.leb_gt, ?N.eqb_neq in * ).

Lemma date_leb_refl (d : date) : date_leb d d = true.
Proof. destruct d; date_bools; lia. Qed.

Lemma date_ltb_not_leb (a b : date) :
  date_ltb a b = true -> date_leb b a = false.
Proof. destruct a, b; intros H; date_bools; lia. Qed.

Lemma date_leb_not_ltb (a b : date) :
  date_leb a b = true -> date_ltb b a = false.
Proof. destruct a, b; intros H; date_bools; lia. Qed.

Lemma pred_day_before (d : date) :
  valid_date d = true -> date_ltb (pred_day d) d = true.
Proof.
  destruct d as [y m dd]; intros H. unfold pred_day; simpl.
  destruct (1 <? dd)%N eqn:E1; [|destruct (1 <? m)%N eqn:E2]; date_bools; lia.
Qed.

Lemma succ_day_after (d : date) : date_ltb d (succ_day d) = true.
Proof.
  destruct d as [y m dd]. unfold succ_day; simpl.
  destruct (dd <? days_in_month y m)%N eqn:E1; [|destruct (m <? 12)%N eqn:E2];
    date_bools; lia.
Qed.

(** The date text reads back as the date. *)
Lemma digit_val_digit (n : N) : digit_val (digit n) = Some (n mod 10)%N.
Proof.
  unfold digit_val, digit.
  assert (H : (n mod 10 < 10)%N) by (apply N.mod_lt; discriminate).
  generalize dependent (n mod 10)%N. intros k H.
  rewrite N_ascii_embedding by lia.
  replace ((48 <=? 48 + k)%N) with true by (symmetry; apply N.leb_le; lia).
  replace ((48 + k <=? 57)%N) with true by (symmetry; apply N.leb_le; lia).
  cbn [andb]. f_equal. lia.
Qed.

Lemma parse_strftime (d : date) :
  valid_date d = true -> parse_ymd (strftime_ymd d) = Some d.
Proof.
  intros Hv. destruct d as [y m dd].
  unfold strftime_ymd. cbn [year month day pad_digits append].
  unfold parse_ymd. cbn [digits_val].
  rewrite !digit_val_digit.
  assert (Hy : (y < 10000)%N /\ (m < 100)%N /\ (dd < 100)%N).
  { unfold valid_date in Hv. cbn [year month day] in Hv.
    rewrite !Bool.andb_true_iff, !N.leb_le in Hv.
    assert (days_in_month y m <= 31)%N.
    { unfold days_in_month. destruct m as [|[[[[]|[]|]|[[]|[]|]|]|[[[]|[]|]|[[]|[]|]|]|]];
        try destruct (is_leap y); lia. }
    lia. }
  replace (10 * (10 * (10 * (10 * 0 + (y / 10 / 10 / 10) mod 10) +
                        (y / 10 / 10) mod 10) + (y / 10) mod 10) + y mod 10)%N
    with y
    by (zify; Z.to_euclidean_division_equations; lia).
  replace (10 * (10 * 0 + (m / 10) mod 10) + m mod 10)%N with m
    by (zify; Z.to_euclidean_division_equations; lia).
  replace (10 * (10 * 0 + (dd / 10) mod 10) + dd mod 10)%N with dd
    by (zify; Z.to_euclidean_division_equations; lia).
  rewrite Hv. reflexivity.
Qed.

(** The text the form writes for a date converts back to that date. *)
Lemma to_datetime_strftime (d : date) :
  valid_date d = true -> (1678 <= year d)%N -> (year d <= 2261)%N ->
  to_datetime1 (VStr (strftime_ymd d)) = Some (VDate (Some d)).
Proof.
  intros Hv Hlo Hhi. unfold to_datetime1. rewrite (parse_strftime d Hv).
  assert (H1 : date_leb timestamp_first_day d = true).
  { destruct d as [y m dd]. unfold timestamp_first_day. clear Hv.
    date_bools. lia. }
  assert (H2 : date_leb d timestamp_last_day = true).
  { destruct d as [y m dd]. unfold timestamp_last_day. clear Hv.
    date_bools. lia. }
  now rewrite H1, H2.
Qed.

(** ** The entry form: rejected submissions *)

Lemma falsy_empty (s : string) : falsy s = true <-> s = "".
Proof. destruct s; simpl; split; congruence. Qed.

Lemma falsy_filled (s : string) : s <> "" -> falsy s = false.
Proof. destruct s; simpl; congruence. Qed.

Lemma save_entry_rejected (df : DataFrame) (fs : store) (f : Form) :
  form_name f = "" \/ form_product f = "" \/ form_reason f = "" ->
  save_entry df fs f =
    (df, fs, [StWarning "Please fill in Name, Product, and Reason."]).
Proof.
  intros H. unfold save_entry.
  assert (E : falsy (form_name f) || falsy (form_product f) || falsy (form_reason f)
              = true).
  { destruct H as [H | [H | H]]; rewrite H; simpl;
      rewrite ?Bool.orb_true_r; reflexivity. }
  rewrite E. reflexivity.
Qed.

Lemma script_store (fs : store) (a : action) :
  fst (script fs a) =
    match a with
    | SaveEntry f => snd (fst (save_entry (load_data fs) fs f))
    | _ => fs
    end.
Proof.
  unfold script. destruct a; try reflexivity.
  destruct (save_entry (load_data fs) fs f) as [[df' fs'] sh]. reflexivity.
Qed.

(** C4.  A submission whose name, product or reason is empty leaves the
    frame and the file as they were and shows the warning: the handler
    returns its inputs unchanged, and the whole run writes no file, shows no
    confirmation and shows the warning. *)
Theorem incomplete_form_is_rejected :
  forall (df : DataFrame) (fs : store) (f : Form),
    form_name f = "" \/ form_product f = "" \/ form_reason f = "" ->
    save_entry df fs f =
      (df, fs, [StWarning "Please fill in Name, Product, and Reason."]) /\
    fst (script fs (SaveEntry f)) = fs /\
    In (StWarning "Please fill in Name, Product, and Reason.")
       (snd (script fs (SaveEntry f))) /\
    (forall path content,
        ~ In (FileWritten path content) (snd (script fs (SaveEntry f)))) /\
    (forall msg, ~ In (StSuccess msg) (snd (script fs (SaveEntry f)))).
Proof.
  intros df fs f H.
  split; [apply save_entry_rejected; exact H|].
  split; [rewrite script_store, save_entry_rejected by exact H; reflexivity|].
  clear df. set (df := load_data fs). unfold script. fold df.
  rewrite save_entry_rejected by exact H.
  destruct (empty df);
    [|destruct (to_datetime_column df "Date") as [df'|];
      [destruct (default_start_date df')|]]; simpl;
    (split; [now left|]); split; intros; intros Hin;
    repeat (destruct Hin as [Hin|Hin]; try discriminate); destruct Hin.
Qed.

Lemma incomplete_form_is_rejected_witness :
  save_entry (mkDF COLUMNS []) None nameless_form =
    (mkDF COLUMNS [], None, [StWarning "Please fill in Name, Product, and Reason."]).
Proof.
  apply (incomplete_form_is_rejected (mkDF COLUMNS []) None nameless_form).
  left; reflexivity.
Defined.

(** ** The report handler: the date range *)

(** The default of the start date widget is there as soon as one entry has a
    date. *)
Lemma min_date_some (col : list cell) (d : date) :
  In (VDate (Some d)) col -> exists m, min_date col = Some m.
Proof.
  induction col as [|v col IH]; intros Hin; [destruct Hin|].
  destruct Hin as [-> | Hin].
  - simpl. destruct (min_date col); eauto.
  - destruct (IH Hin) as [m Em]. simpl. rewrite Em.
    destruct v as [| | | |[d'|]]; eauto.
Qed.

Lemma generate_report_bad_range (df : DataFrame) (s e : date) (c : bool) :
  date_ltb e s = true ->
  generate_report df s e c = [StError "Error: Start Date cannot be after End Date."].
Proof. intros H. unfold generate_report. rewrite H. reflexivity. Qed.

(** C6.  With the start date after the end date the handler shows the error
    and nothing else: its branch with the mask, the chart and the PDF builder
    is not entered, no download is offered by the run and the file is left as
    it was.  A run gets as far as the button when there is data, the dates
    convert and the start date widget has its default, which takes one entry
    with a date; such a run shows the error alone.  (Without an entry with a
    date the run stops at the widget, before the button is drawn.) *)
Theorem start_after_end_gives_error :
  forall (df : DataFrame) (fs : store) (start_date end_date : date)
         (include_chart : bool),
    date_ltb end_date start_date = true ->
    generate_report df start_date end_date include_chart =
      [StError "Error: Start Date cannot be after End Date."] /\
    (forall label data name mime,
        ~ In (DownloadButton label data name mime)
             (snd (script fs (GenerateReport start_date end_date include_chart)))) /\
    (forall df', empty (load_data fs) = false ->
                 to_datetime_column (load_data fs) "Date" = Some df' ->
                 (exists d, default_start_date df' = Some d) ->
                 snd (script fs (GenerateReport start_date end_date include_chart)) =
                   [StError "Error: Start Date cannot be after End Date."]) /\
    (forall df', empty (load_data fs) = false ->
                 to_datetime_column (load_data fs) "Date" = Some df' ->
                 default_start_date df' = None ->
                 snd (script fs (GenerateReport start_date end_date include_chart)) =
                   [Uncaught]) /\
    fst (script fs (GenerateReport start_date end_date include_chart)) = fs.
Proof.
  intros df fs s e c H.
  split; [apply generate_report_bad_range; exact H|].
  split; [|split; [|split; [|apply script_store]]].
  - intros l d n m Hin. unfold script in Hin. simpl in Hin.
    destruct (empty (load_data fs)).
    + destruct Hin as [Hin|[]]; discriminate.
    + destruct (to_datetime_column _ _) as [df'|].
      * destruct (default_start_date df').
        -- rewrite generate_report_bad_range in Hin by exact H.
           destruct Hin as [Hin|[]]; discriminate.
        -- destruct Hin as [Hin|[]]; discriminate.
      * destruct Hin as [Hin|[]]; discriminate.
  - intros df' He Hd [d Em]. unfold script. simpl. rewrite He, Hd, Em.
    apply generate_report_bad_range; exact H.
  - intros df' He Hd Em. unfold script. simpl. rewrite He, Hd, Em. reflexivity.
Qed.

Lemma start_after_end_gives_error_witness :
  snd (script one_entry_store
         (GenerateReport (mkDate 2024 3 2) (mkDate 2024 3 1) true)) =
    [StError "Error: Start Date cannot be after End Date."] /\
  fst (script one_entry_store
         (GenerateReport (mkDate 2024 3 2) (mkDate 2024 3 1) true)) = one_entry_store.
Proof.
  destruct (start_after_end_gives_error (mkDF COLUMNS [ann_row]) one_entry_store
              (mkDate 2024 3 2) (mkDate 2024 3 1) true eq_refl)
    as (_ & _ & Hrun & _ & Hfile).
  split; [|exact Hfile].
  eapply Hrun; [reflexivity | reflexivity |].
  exists (mkDate 2024 1 15). reflexivity.
Defined.

Lemma in_range_iff (lo hi : date) (v : cell) :
  in_range lo hi v = true <->
  exists d, dt_date v = Some d /\ date_leb lo d = true /\ date_leb d hi = true.
Proof.
  unfold in_range. destruct (dt_date v) as [d|].
  - rewrite Bool.andb_true_iff. split.
    + intros [H1 H2]. exists d. auto.
    + intros (d' & E & H1 & H2). injection E as <-. auto.
  - split; [discriminate|]. intros (d & E & _). discriminate.
Qed.

Lemma in_range_before (lo hi d : date) (v : cell) :
  dt_date v = Some d -> date_ltb d lo = true -> in_range lo hi v = false.
Proof.
  intros E H. unfold in_range. rewrite E.
  rewrite (date_ltb_not_leb _ _ H). reflexivity.
Qed.

Lemma in_range_after (lo hi d : date) (v : cell) :
  dt_date v = Some d -> date_ltb hi d = true -> in_range lo hi v = false.
Proof.
  intros E H. unfold in_range. rewrite E.
  rewrite (date_ltb_not_leb _ _ H). apply Bool.andb_false_r.
Qed.

(** C3.  For [start <= end] the handler reaches the mask, and the frame it
    reports on holds exactly the rows whose date lies in the closed interval,
    in their stored order: a row dated [start] or [end] is kept, a row dated
    the day before [start] or the day after [end] is dropped.  The date of a
    row is the one the form wrote: its text converts back to it. *)
Theorem report_rows_are_the_closed_interval :
  forall (df : DataFrame) (j : nat) (start_date end_date : date)
         (include_chart : bool),
    index_of "Date" (columns df) = Some j ->
    date_leb start_date end_date = true ->
    exists filtered_df,
      loc_between df "Date" start_date end_date = Some filtered_df /\
      generate_report df start_date end_date include_chart =
        (if empty filtered_df
         then [StWarning "No entries found for the selected date range."]
         else
           match (if include_chart then create_reason_chart filtered_df
                  else Some None) with
           | None => [Uncaught]
           | Some chart_image_buffer =>
               match create_report_pdf filtered_df chart_image_buffer with
               | None => [Uncaught]
               | Some pdf_buffer =>
                   [StSuccess ("✅ PDF report generated with " ++
                               N_to_string (N.of_nat (List.length (rows filtered_df))) ++
                               " entries!");
                    DownloadButton "Download PDF Report" pdf_buffer
                      ("Report_" ++ strftime_ymd start_date ++ "_to_" ++
                       strftime_ymd end_date ++ ".pdf")
                      "application/pdf"]
               end
           end) /\
      columns filtered_df = columns df /\
      rows filtered_df =
        filter (fun r => in_range start_date end_date (nth j r VNaN)) (rows df) /\
      (forall r, In r (rows filtered_df) <->
                 In r (rows df) /\
                 exists d, dt_date (nth j r VNaN) = Some d /\
                           date_leb start_date d = true /\
                           date_leb d end_date = true) /\
      (forall r, In r (rows df) ->
                 dt_date (nth j r VNaN) = Some start_date \/
                 dt_date (nth j r VNaN) = Some end_date ->
                 In r (rows filtered_df)) /\
      (forall r, valid_date start_date = true ->
                 dt_date (nth j r VNaN) = Some (pred_day start_date) \/
                 dt_date (nth j r VNaN) = Some (succ_day end_date) ->
                 ~ In r (rows filtered_df)) /\
      (forall d, valid_date d = true -> (1678 <= year d)%N -> (year d <= 2261)%N ->
                 to_datetime1 (VStr (strftime_ymd d)) = Some (VDate (Some d))).
Proof.
  intros df j s e c Hj Hle.
  unfold generate_report, loc_between.
  rewrite (date_leb_not_ltb _ _ Hle), Hj.
  eexists. split; [reflexivity|]. split; [reflexivity|].
  split; [reflexivity|]. split; [reflexivity|]. simpl.
  split; [|split; [|split; [|exact to_datetime_strftime]]].
  - intros r. rewrite filter_In, in_range_iff. reflexivity.
  - intros r Hr [E|E]; apply filter_In; (split; [exact Hr|]);
      apply in_range_iff; eexists; (split; [exact E|]).
    + split; [apply date_leb_refl | exact Hle].
    + split; [exact Hle | apply date_leb_refl].
  - intros r Hv [E|E] Hin; apply filter_In in Hin; destruct Hin as [_ Hin].
    + rewrite (in_range_before _ _ _ _ E (pred_day_before _ Hv)) in Hin.
      discriminate.
    + rewrite (in_range_after _ _ _ _ E (succ_day_after _)) in Hin.
      discriminate.
Qed.

Lemma report_rows_are_the_closed_interval_witness :
  exists filtered_df,
    loc_between
      (mkDF COLUMNS
         [[VDate (Some (mkDate 2024 2 29)); VStr "Ann"; VNaN; VStr "Ring"; VNaN; VStr "VA Problem"];
          [VDate (Some (mkDate 2024 3 1)); VStr "Bob"; VNaN; VStr "Ring"; VNaN; VStr "JPS Card"];
          [VDate (Some (mkDate 2024 3 5)); VStr "Cy"; VNaN; VStr "Ring"; VNaN; VStr "JPS Card"];
          [VDate (Some (mkDate 2024 3 6)); VStr "Di"; VNaN; VStr "Ring"; VNaN; VStr "JPS Card"]])
      "Date" (mkDate 2024 3 1) (mkDate 2024 3 5) = Some filtered_df /\
    List.length (rows filtered_df) = 2%nat.
Proof.
  destruct (report_rows_are_the_closed_interval
      (mkDF COLUMNS
         [[VDate (Some (mkDate 2024 2 29)); VStr "Ann"; VNaN; VStr "Ring"; VNaN; VStr "VA Problem"];
          [VDate (Some (mkDate 2024 3 1)); VStr "Bob"; VNaN; VStr "Ring"; VNaN; VStr "JPS Card"];
          [VDate (Some (mkDate 2024 3 5)); VStr "Cy"; VNaN; VStr "Ring"; VNaN; VStr "JPS Card"];
          [VDate (Some (mkDate 2024 3 6)); VStr "Di"; VNaN; VStr "Ring"; VNaN; VStr "JPS Card"]])
      0%nat (mkDate 2024 3 1) (mkDate 2024 3 5) false eq_refl eq_refl)
    as (fd & E & _ & _ & R & _).
  exists fd. split; [exact E|]. rewrite R. reflexivity.
Defined.

(** ** Text and missing-value markers *)

Lemma string_length_app (a b : string) :
  String.length (a ++ b) = (String.length a + String.length b)%nat.
Proof. induction a as [|c a IH]; simpl; [reflexivity | now rewrite IH]. Qed.

Lemma string_app_assoc (a b c : string) : (a ++ b) ++ c = a ++ (b ++ c).
Proof. induction a as [|x a IH]; simpl; [reflexivity | now rewrite IH]. Qed.

Lemma pad_digits_length (w : nat) (n : N) : String.length (pad_digits w n) = w.
Proof.
  revert n. induction w as [|w IH]; intros n; simpl; [reflexivity|].
  rewrite string_length_app, IH. simpl. lia.
Qed.

Lemma strftime_ymd_length (d : date) : String.length (strftime_ymd d) = 10%nat.
Proof.
  unfold strftime_ymd.
  rewrite !string_length_app, !pad_digits_length. reflexivity.
Qed.

Lemma is_na_short (tok : string) :
  is_na tok = true -> (String.length tok <= 8)%nat.
Proof.
  unfold is_na, mem. rewrite existsb_exists.
  intros (x & Hin & E). apply String.eqb_eq in E. subst x.
  unfold na_values in Hin. simpl in Hin.
  repeat (destruct Hin as [<- | Hin]; [simpl; lia|]). destruct Hin.
Qed.

Lemma strftime_ymd_not_na (d : date) : is_na (strftime_ymd d) = false.
Proof.
  destruct (is_na (strftime_ymd d)) eqn:E; [|reflexivity].
  apply is_na_short in E. rewrite strftime_ymd_length in E. lia.
Qed.

(** The weight is written with a point followed by exactly three digits. *)
Lemma format_3f_three_decimals (w : Q) :
  exists int_part decimals,
    format_3f w = int_part ++ "." ++ decimals /\ String.length decimals = 3%nat.
Proof.
  unfold format_3f.
  set (n := Z.to_N _).
  exists ((if Qnum w <? 0 then "-" else "") ++ N_to_string (n / 1000)),
         (pad_digits 3 (n mod 1000)).
  split; [|apply pad_digits_length].
  now rewrite string_app_assoc.
Qed.

(** ** Reading the file *)

Lemma index_of_nth_error (s : string) (l : list string) (j : nat) :
  index_of s l = Some j -> nth_error l j = Some s.
Proof.
  revert j. induction l as [|x l IH]; intros j; simpl; [discriminate|].
  destruct (String.eqb_spec s x) as [->|Hne].
  - intros [= <-]. reflexivity.
  - destruct (index_of s l) as [k|]; simpl; [|discriminate].
    intros [= <-]. simpl. apply IH. reflexivity.
Qed.

Lemma nth_error_combine_seq {A : Type} (l : list A) (s j : nat) :
  nth_error (combine (seq s (List.length l)) l) j =
  option_map (fun x => ((s + j)%nat, x)) (nth_error l j).
Proof.
  revert s j. induction l as [|x l IH]; intros s j; simpl.
  - destruct j; reflexivity.
  - destruct j as [|j]; simpl.
    + now rewrite Nat.add_0_r.
    + rewrite IH. now rewrite Nat.add_succ_r.
Qed.

Lemma nth_error_enumerate {A : Type} (l : list A) (j : nat) :
  nth_error (enumerate l) j = option_map (fun x => (j, x)) (nth_error l j).
Proof. unfold enumerate. apply nth_error_combine_seq. Qed.

Lemma enumerate_length {A : Type} (l : list A) :
  List.length (enumerate l) = List.length l.
Proof.
  unfold enumerate. rewrite length_combine, length_seq. apply Nat.min_id.
Qed.

(** Every row [read_csv] builds has one cell per column of the header. *)
Lemma read_csv_row_length (f : csv) (forced : list (string * dtype)) :
  Forall (fun r => List.length r = List.length (columns (read_csv f forced)))
         (rows (read_csv f forced)).
Proof.
  unfold read_csv; simpl. apply Forall_forall. intros r Hr.
  apply in_map_iff in Hr. destruct Hr as (rec & <- & _).
  now rewrite length_map, enumerate_length, length_map, enumerate_length.
Qed.

(** The cell of a column forced to text is the field itself, or [NaN] for a
    missing-value marker. *)
Lemma read_csv_forced_cell (f : csv) (c : string) (j i : nat) (rec : list string) :
  index_of c (header f) = Some j ->
  nth_error (records f) i = Some rec ->
  exists row,
    nth_error (rows (read_csv f [(c, DString)])) i = Some row /\
    get (header f) row c = Some (convert DString (nth j rec EmptyString)).
Proof.
  intros Hj Hi. unfold read_csv; simpl.
  rewrite nth_error_map, Hi. simpl. eexists. split; [reflexivity|].
  unfold get. rewrite Hj.
  rewrite nth_error_map, nth_error_enumerate, nth_error_map, nth_error_enumerate.
  rewrite (index_of_nth_error _ _ _ Hj). simpl.
  now rewrite String.eqb_refl.
Qed.

(** C5.  With no file, [load_data] returns the empty frame with exactly the
    six columns of the script.  With a file, the Date column is read at type
    text: the cell of every record is the field as it stands in the file (a
    missing-value marker, like every missing field, becomes [NaN]); it is
    never a number and never a parsed date, even for a field that looks like
    one. *)
Theorem load_data_schema_and_raw_dates :
  (load_data None = mkDF COLUMNS [] /\
   empty (load_data None) = true /\
   columns (load_data None) =
     ["Date"; "Customer Name"; "Contact Number"; "Product"; "Weight (grams)";
      "Reason for Feedback"]) /\
  (forall (f : csv) (j i : nat) (rec : list string),
      index_of "Date" (header f) = Some j ->
      nth_error (records f) i = Some rec ->
      exists row v,
        nth_error (rows (load_data (Some f))) i = Some row /\
        get (columns (load_data (Some f))) row "Date" = Some v /\
        (is_na (nth j rec EmptyString) = false -> v = VStr (nth j rec EmptyString)) /\
        (v = VStr (nth j rec EmptyString) \/ v = VNaN) /\
        dt_date v = None).
Proof.
  split; [repeat split|].
  intros f j i rec Hj Hi.
  destruct (read_csv_forced_cell f "Date" j i rec Hj Hi) as (row & Hrow & Hget).
  exists row, (convert DString (nth j rec EmptyString)).
  split; [exact Hrow|]. split; [exact Hget|].
  unfold convert. destruct (is_na (nth j rec EmptyString)).
  - split; [discriminate|]. split; [now right | reflexivity].
  - split; [reflexivity|]. split; [now left | reflexivity].
Qed.

Lemma load_data_schema_and_raw_dates_witness :
  exists row v,
    nth_error (rows (load_data (Some (mkCsv COLUMNS
      [["20240115"; "Ann"; ""; "Ring"; "5.000"; "VA Problem"]])))) 0 = Some row /\
    get COLUMNS row "Date" = Some v /\ v = VStr "20240115".
Proof.
  destruct (proj2 load_data_schema_and_raw_dates
              (mkCsv COLUMNS [["20240115"; "Ann"; ""; "Ring"; "5.000"; "VA Problem"]])
              0%nat 0%nat
              ["20240115"; "Ann"; ""; "Ring"; "5.000"; "VA Problem"]
              eq_refl eq_refl) as (row & v & Hrow & Hget & Htext & _).
  exists row, v. split; [exact Hrow|]. split; [exact Hget|].
  apply Htext. reflexivity.
Defined.

(** ** The entry form: accepted submissions *)

Lemma load_data_row_length (fs : store) :
  Forall (fun r => List.length r = List.length (columns (load_data fs)))
         (rows (load_data fs)).
Proof.
  destruct fs as [f|]; unfold load_data;
    [apply read_csv_row_length | simpl; constructor].
Qed.

Lemma load_data_columns (fs : store) :
  has_schema fs -> columns (load_data fs) = COLUMNS.
Proof. destruct fs as [f|]; simpl; intros H; [exact H | reflexivity]. Qed.

Lemma reindex_schema (r : list cell) :
  List.length r = 6%nat -> reindex COLUMNS COLUMNS r = r.
Proof.
  intros H.
  do 6 (destruct r as [|? r]; [discriminate|]).
  destruct r; [reflexivity | discriminate].
Qed.

Lemma map_id_on {A : Type} (g : A -> A) (l : list A) :
  Forall (fun x => g x = x) l -> map g l = l.
Proof. induction 1 as [|x l Hx _ IH]; simpl; [reflexivity | now rewrite Hx, IH]. Qed.

(** Appending the one-row frame of the form to a frame with the six columns
    keeps the rows and adds the new one at the end. *)
Lemma concat_new_entry (df : DataFrame) (f : Form) :
  columns df = COLUMNS ->
  Forall (fun r => List.length r = List.length (columns df)) (rows df) ->
  concat df (new_entry f) =
    mkDF COLUMNS (rows df ++ [map VStr (entry_fields f)]).
Proof.
  intros Hc Hr. unfold concat. rewrite Hc in *. simpl.
  f_equal. f_equal.
  apply map_id_on. eapply Forall_impl; [|exact Hr].
  intros r Hlen. apply reindex_schema. exact Hlen.
Qed.

Lemma save_entry_accepted (df : DataFrame) (fs : store) (f : Form) :
  required_filled f ->
  save_entry df fs f =
    (concat df (new_entry f), Some (to_csv (concat df (new_entry f))),
     [FileWritten DATA_FILE (to_csv (concat df (new_entry f)));
      StSuccess ("✅ Entry for '" ++ form_name f ++ "' saved successfully!")]).
Proof.
  intros (Hn & Hp & Hr). unfold save_entry.
  rewrite (falsy_filled _ Hn), (falsy_filled _ Hp), (falsy_filled _ Hr).
  reflexivity.
Qed.

Lemma csv_fields_of_text (l : list string) : map csv_field (map VStr l) = l.
Proof. induction l as [|x l IH]; simpl; [reflexivity | now rewrite IH]. Qed.

(** The file written for a frame with the six columns and the new entry. *)
Lemma to_csv_new_entry (df : DataFrame) (f : Form) :
  columns df = COLUMNS ->
  Forall (fun r => List.length r = List.length (columns df)) (rows df) ->
  to_csv (concat df (new_entry f)) =
    mkCsv COLUMNS (map (map csv_field) (rows df) ++ [entry_fields f]).
Proof.
  intros Hc Hr. rewrite (concat_new_entry df f Hc Hr). unfold to_csv; simpl.
  rewrite map_app. simpl. rewrite ?csv_fields_of_text. reflexivity.
Qed.

(** Reading a file with the six columns: the Date cell of a row is read at
    type text, the other five at the types inferred for their columns. *)
Lemma read_csv_schema_rows (f : csv) :
  header f = COLUMNS ->
  exists d1 d2 d3 d4 d5,
    rows (read_csv f [("Date", DString)]) =
      map (fun r => [convert DString (nth 0 r EmptyString);
                     convert d1 (nth 1 r EmptyString);
                     convert d2 (nth 2 r EmptyString);
                     convert d3 (nth 3 r EmptyString);
                     convert d4 (nth 4 r EmptyString);
                     convert d5 (nth 5 r EmptyString)]) (records f).
Proof.
  intros H. unfold read_csv. rewrite H.
  exists (infer_dtype (column_fields 1 (records f))),
         (infer_dtype (column_fields 2 (records f))),
         (infer_dtype (column_fields 3 (records f))),
         (infer_dtype (column_fields 4 (records f))),
         (infer_dtype (column_fields 5 (records f))).
  reflexivity.
Qed.

(** The options of the select boxes are words: no missing-value marker and
    no numeral. *)
Lemma option_is_text (tok : string) :
  In tok PRODUCTS \/ In tok REASONS -> tok <> "" ->
  is_na tok = false /\ parse_int tok = None /\ parse_float tok = None.
Proof.
  intros [H | H] Hne; simpl in H;
    repeat (destruct H as [<- | H];
            [first [congruence | repeat split; reflexivity]|]);
    destruct H.
Qed.

(** A column with a word in it is read as text. *)
Lemma infer_dtype_text (tok : string) (toks : list string) :
  In tok toks ->
  is_na tok = false -> parse_int tok = None -> parse_float tok = None ->
  infer_dtype toks = DObject.
Proof.
  intros Hin Hna Hi Hf. unfold infer_dtype.
  destruct toks as [|t toks]; [reflexivity|].
  match goal with |- context [forallb ?g (t :: toks)] =>
    destruct (forallb g (t :: toks)) eqn:E1 end.
  { rewrite forallb_forall in E1. specialize (E1 tok Hin).
    rewrite Hi, Bool.andb_false_r in E1. discriminate. }
  match goal with |- context [forallb ?g (t :: toks)] =>
    destruct (forallb g (t :: toks)) eqn:E2 end; [|reflexivity].
  rewrite forallb_forall in E2. specialize (E2 tok Hin).
  rewrite Hna, Hf in E2. discriminate.
Qed.

Lemma read_csv_schema_exact (f : csv) :
  header f = COLUMNS ->
  read_csv f [("Date", DString)] =
    mkDF COLUMNS
      (map (fun r => [convert DString (nth 0 r EmptyString);
                      convert (infer_dtype (column_fields 1 (records f)))
                              (nth 1 r EmptyString);
                      convert (infer_dtype (column_fields 2 (records f)))
                              (nth 2 r EmptyString);
                      convert (infer_dtype (column_fields 3 (records f)))
                              (nth 3 r EmptyString);
                      convert (infer_dtype (column_fields 4 (records f)))
                              (nth 4 r EmptyString);
                      convert (infer_dtype (column_fields 5 (records f)))
                              (nth 5 r EmptyString)]) (records f)).
Proof. intros H. unfold read_csv. rewrite H. reflexivity. Qed.




(** C9.  An append rewrites an earlier entry.  Ann's entry, saved by the
    script on an empty store with the phone number 0987654321 and 5 grams,
    stands in the file as she gave it; after Bob's entry is saved, the record
    of Ann's entry has the phone number 987654321 and the weight 5.0: the
    file is written from the numbers the two fields were loaded as. *)
Lemma earlier_record_is_rewritten :
  fst (script None (SaveEntry ann_phone_form)) = phone_store /\
  phone_store =
    Some (mkCsv COLUMNS
            [["2024-01-15"; "Ann"; "0987654321"; "Ring"; "5.000"; "VA Problem"]]) /\
  rows (load_data phone_store) =
    [[VStr "2024-01-15"; VStr "Ann"; VInt 987654321; VStr "Ring";
      VFloat (mkFloat false 5 0); VStr "VA Problem"]] /\
  fst (script phone_store (SaveEntry bob_form)) =
    Some (mkCsv COLUMNS
            [["2024-01-15"; "Ann"; "987654321"; "Ring"; "5.0"; "VA Problem"];
             ["2024-02-29"; "Bob"; ""; "Chain"; "1.235"; "JPS Card"]]) /\
  (exists before after,
      phone_store = Some before /\
      fst (script phone_store (SaveEntry bob_form)) = Some after /\
      nth_error (records before) 0 =
        Some ["2024-01-15"; "Ann"; "0987654321"; "Ring"; "5.000"; "VA Problem"] /\
      nth_error (records after) 0 =
        Some ["2024-01-15"; "Ann"; "987654321"; "Ring"; "5.0"; "VA Problem"] /\
      nth_error (records after) 0 <> nth_error (records before) 0).
Proof.
  split; [reflexivity|]. split; [reflexivity|]. split; [reflexivity|].
  split; [reflexivity|].
  eexists. eexists. split; [reflexivity|]. split; [reflexivity|].
  split; [reflexivity|]. split; [reflexivity|]. discriminate.
Qed.

(** C10.  The check of the required fields is Python's truth value of the
    string, so a name made of blanks only (at least one) passes it: with a
    product and a reason chosen the entry is appended and written, the name
    field of the last record being those blanks. *)
Theorem blank_name_is_saved :
  forall (fs : store) (f : Form),
    has_schema fs ->
    whitespace_only (form_name f) = true ->
    form_product f <> "" ->
    form_reason f <> "" ->
    falsy (form_name f) = false /\
    exists df' content,
      save_entry (load_data fs) fs f =
        (df', Some content,
         [FileWritten DATA_FILE content;
          StSuccess ("✅ Entry for '" ++ form_name f ++ "' saved successfully!")]) /\
      fst (script fs (SaveEntry f)) = Some content /\
      last (rows df') [] = map VStr (entry_fields f) /\
      last (records content) [] = entry_fields f /\
      nth 1 (last (records content) []) EmptyString = form_name f.
Proof.
  intros fs f Hs Hw Hp Hr.
  assert (Hn : form_name f <> "").
  { intros E. rewrite E in Hw. discriminate. }
  split; [apply falsy_filled; exact Hn|].
  pose proof (load_data_columns fs Hs) as Hc.
  pose proof (load_data_row_length fs) as Hl.
  assert (Hf : required_filled f) by (repeat split; assumption).
  exists (concat (load_data fs) (new_entry f)),
         (to_csv (concat (load_data fs) (new_entry f))).
  split; [apply save_entry_accepted; exact Hf|].
  split; [rewrite script_store, save_entry_accepted by exact Hf; reflexivity|].
  rewrite (to_csv_new_entry _ f Hc Hl), (concat_new_entry _ f Hc Hl). simpl.
  rewrite !last_last. repeat split; reflexivity.
Qed.

Lemma blank_name_is_saved_witness :
  exists df' content,
    save_entry (load_data None) None blank_form =
      (df', Some content,
       [FileWritten DATA_FILE content;
        StSuccess ("✅ Entry for '" ++ form_name blank_form ++ "' saved successfully!")]) /\
    last (records content) [] =
      ["2024-01-15"; " "; "98765"; "Ring"; "5.000"; "VA Problem"].
Proof.
  destruct (blank_name_is_saved None blank_form I eq_refl) as
    (_ & df' & content & E & _ & _ & L & _); try discriminate.
  exists df', content. split; [exact E|]. rewrite L. reflexivity.
Defined.

(** ** Saving and loading again *)

Lemma last_map_app {A B : Type} (g : A -> B) (l : list A) (x : A) (d : B) :
  last (map g (l ++ [x])) d = g x.
Proof. rewrite map_app. simpl. apply last_last. Qed.

(** A field of the last record that is a word is read back as that word. *)
Lemma last_record_word (k : nat) (old : list (list string)) (rec : list string)
    (tok : string) :
  nth k rec EmptyString = tok ->
  is_na tok = false -> parse_int tok = None -> parse_float tok = None ->
  convert (infer_dtype (column_fields k (old ++ [rec]))) tok = VStr tok.
Proof.
  intros Hk Hna Hi Hf.
  rewrite (infer_dtype_text tok); try assumption.
  - unfold convert. now rewrite Hna.
  - unfold column_fields. rewrite map_app. apply in_or_app. right.
    left. exact Hk.
Qed.

(** What a saved entry leaves in the file, and what of it comes back as
    written.  A valid submission on a store with the six columns writes a
    file whose last record is the six submitted values as text, the date as
    [YYYY-MM-DD] and the weight with a point and exactly three decimals;
    loading that file gives one row more than before, and in its last row
    the Date is the text of the submitted date, and the product and the
    reason, chosen from the select boxes, are the submitted words. *)
Theorem saved_entry_is_last_record :
  forall (fs : store) (f : Form),
    has_schema fs ->
    required_filled f ->
    valid_date (form_date f) = true ->
    In (form_product f) PRODUCTS ->
    In (form_reason f) REASONS ->
    exists content,
      snd (fst (save_entry (load_data fs) fs f)) = Some content /\
      last (records content) [] =
        [strftime_ymd (form_date f); form_name f; form_contact f; form_product f;
         format_3f (form_weight f); form_reason f] /\
      String.length (strftime_ymd (form_date f)) = 10%nat /\
      (exists int_part decimals,
          format_3f (form_weight f) = int_part ++ "." ++ decimals /\
          String.length decimals = 3%nat) /\
      List.length (rows (reload_after_save fs f)) =
        S (List.length (rows (load_data fs))) /\
      get (columns (reload_after_save fs f))
          (last (rows (reload_after_save fs f)) []) "Date" =
        Some (VStr (strftime_ymd (form_date f))) /\
      get (columns (reload_after_save fs f))
          (last (rows (reload_after_save fs f)) []) "Product" =
        Some (VStr (form_product f)) /\
      get (columns (reload_after_save fs f))
          (last (rows (reload_after_save fs f)) []) "Reason for Feedback" =
        Some (VStr (form_reason f)).
Proof.
  intros fs f Hs Hf Hd Hp Hr.
  pose proof (load_data_columns fs Hs) as Hc.
  pose proof (load_data_row_length fs) as Hl.
  pose proof (to_csv_new_entry _ f Hc Hl) as Ecsv.
  unfold reload_after_save.
  rewrite (save_entry_accepted _ fs f Hf). cbn [fst snd].
  exists (to_csv (concat (load_data fs) (new_entry f))).
  split; [reflexivity|]. rewrite Ecsv. cbn [records].
  split; [apply last_last|].
  split; [apply strftime_ymd_length|].
  split; [apply format_3f_three_decimals|].
  generalize (rows (load_data fs)) as old. intros old.
  unfold load_data.
  rewrite (read_csv_schema_exact
             (mkCsv COLUMNS (map (map csv_field) old ++ [entry_fields f])) eq_refl).
  cbn [records rows columns].
  destruct Hf as (_ & Hpne & Hrne).
  destruct (option_is_text _ (or_introl Hp) Hpne) as (Pna & Pi & Pf).
  destruct (option_is_text _ (or_intror Hr) Hrne) as (Rna & Ri & Rf).
  split; [rewrite length_map, length_app, length_map; simpl; lia|].
  rewrite last_map_app. unfold get. cbn [entry_fields nth].
  split; [|split].
  - change (index_of "Date" COLUMNS) with (Some 0%nat). cbn [nth_error].
    unfold convert. rewrite strftime_ymd_not_na. reflexivity.
  - change (index_of "Product" COLUMNS) with (Some 3%nat). cbn [nth_error].
    f_equal. apply last_record_word; [reflexivity | assumption..].
  - change (index_of "Reason for Feedback" COLUMNS) with (Some 5%nat).
    cbn [nth_error].
    f_equal. apply last_record_word; [reflexivity | assumption..].
Qed.

Lemma saved_entry_is_last_record_witness :
  exists content,
    snd (fst (save_entry (load_data one_entry_store) one_entry_store bob_form)) =
      Some content /\
    last (records content) [] =
      ["2024-02-29"; "Bob"; ""; "Chain"; "1.235"; "JPS Card"] /\
    get (columns (reload_after_save one_entry_store bob_form))
        (last (rows (reload_after_save one_entry_store bob_form)) []) "Product" =
      Some (VStr "Chain").
Proof.
  destruct (saved_entry_is_last_record one_entry_store bob_form eq_refl)
    as (content & E & L & _ & _ & _ & _ & P & _).
  - unfold required_filled; simpl; repeat split; discriminate.
  - reflexivity.
  - simpl; tauto.
  - simpl; tauto.
  - exists content. split; [exact E|]. split; [rewrite L; reflexivity | exact P].
Defined.

(** C1.  The round trip fails: the entry Ann, no contact number, a ring of 5
    grams, saved on an empty store and loaded again, comes back with a missing
    contact and the number 5.0 for the weight, not with the submitted text. *)
Lemma round_trip_fails_for_blank_contact :
  last (rows (reload_after_save None ann_form)) [] =
    [VStr "2024-01-15"; VStr "Ann"; VNaN; VStr "Ring";
     VFloat (mkFloat false 5 0); VStr "VA Problem"] /\
  map VStr (entry_fields ann_form) =
    [VStr "2024-01-15"; VStr "Ann"; VStr ""; VStr "Ring";
     VStr "5.000"; VStr "VA Problem"] /\
  ~ round_trip None ann_form.
Proof.
  split; [reflexivity|]. split; [reflexivity|].
  unfold round_trip. intros H. vm_compute in H. discriminate.
Qed.

(** ** The chart: counting and ordering the reasons *)

Lemma insert_by_in (le : nat -> nat -> bool) (x : cell * nat) (l : counts) (z : cell * nat) :
  In z (insert_by le x l) <-> z = x \/ In z l.
Proof.
  induction l as [|y l IH]; simpl.
  - intuition.
  - destruct (le (snd x) (snd y)); simpl; [intuition|].
    rewrite IH. intuition.
Qed.

Lemma sort_by_in (le : nat -> nat -> bool) (l : counts) (z : cell * nat) :
  In z (sort_by le l) <-> In z l.
Proof.
  induction l as [|y l IH]; simpl; [reflexivity|].
  rewrite insert_by_in, IH. intuition.
Qed.

Lemma insert_by_keys (le : nat -> nat -> bool) (x : cell * nat) (l : counts) :
  NoDup (map (fun b => key_of (fst b)) (x :: l)) ->
  NoDup (map (fun b => key_of (fst b)) (insert_by le x l)).
Proof.
  induction l as [|y l IH]; simpl; intros H; [exact H|].
  destruct (le (snd x) (snd y)); [exact H|].
  simpl. inversion H as [|? ? Hx Hrest]; subst.
  inversion Hrest as [|? ? Hy Hl]; subst.
  constructor.
  - intros Hin. apply in_map_iff in Hin. destruct Hin as (z & Ez & Hz).
    apply insert_by_in in Hz. destruct Hz as [-> | Hz].
    + apply Hx. left. symmetry. exact Ez.
    + apply Hy. apply in_map_iff. exists z. auto.
  - apply IH. simpl. constructor; [|exact Hl].
    intros Hin. apply Hx. right. exact Hin.
Qed.

Lemma sort_by_keys (le : nat -> nat -> bool) (l : counts) :
  NoDup (map (fun b => key_of (fst b)) l) ->
  NoDup (map (fun b => key_of (fst b)) (sort_by le l)).
Proof.
  induction l as [|y l IH]; simpl; intros H; [constructor|].
  apply insert_by_keys. simpl. inversion H as [|? ? Hy Hl]; subst.
  constructor; [|apply IH; exact Hl].
  intros Hin. apply Hy. apply in_map_iff in Hin. destruct Hin as (z & Ez & Hz).
  apply sort_by_in in Hz. apply in_map_iff. exists z. auto.
Qed.

Lemma insert_by_sorted (x : cell * nat) (l : counts) :
  StronglySorted by_count l ->
  StronglySorted by_count (insert_by Nat.leb x l).
Proof.
  induction 1 as [|y l Hl IH Hy]; simpl.
  - constructor; constructor.
  - destruct (Nat.leb_spec (snd x) (snd y)) as [Hle|Hgt].
    + constructor; [constructor; assumption|].
      constructor; [exact Hle|].
      eapply Forall_impl; [|exact Hy]. unfold by_count. intros z Hz. lia.
    + constructor; [exact IH|].
      apply Forall_forall. intros z Hz. apply insert_by_in in Hz.
      destruct Hz as [-> | Hz]; [unfold by_count; lia|].
      rewrite Forall_forall in Hy. apply Hy. exact Hz.
Qed.

Lemma sort_values_sorted (l : counts) :
  StronglySorted by_count (sort_values l).
Proof.
  unfold sort_values, sort_by. induction l as [|y l IH]; simpl.
  - constructor.
  - apply insert_by_sorted. exact IH.
Qed.

Lemma unique_in (seen : list key) (l : list cell) (v : cell) :
  In v (unique seen l) -> In v l /\ ~ In (key_of v) seen.
Proof.
  revert seen. induction l as [|x l IH]; intros seen; simpl; [intuition|].
  destruct (in_dec key_eq_dec (key_of x) seen) as [Hs|Hs].
  - intros H. apply IH in H. intuition.
  - intros [<- | H]; [intuition|].
    apply IH in H. destruct H as [H1 H2]. split; [now right|].
    intros Hin. apply H2. now right.
Qed.

Lemma unique_complete (seen : list key) (l : list cell) (v : cell) :
  In v l -> ~ In (key_of v) seen ->
  exists v', In v' (unique seen l) /\ key_of v' = key_of v.
Proof.
  revert seen. induction l as [|x l IH]; intros seen; simpl; [intuition|].
  intros Hin Hs.
  destruct (in_dec key_eq_dec (key_of x) seen) as [Hx|Hx].
  - destruct Hin as [-> | Hin]; [contradiction|]. apply IH; assumption.
  - destruct Hin as [-> | Hin]; [exists v; split; [now left | reflexivity]|].
    destruct (key_eq_dec (key_of x) (key_of v)) as [E|Hne].
    + exists x. split; [now left | exact E].
    + destruct (IH (key_of x :: seen) Hin) as (v' & H1 & H2).
      * intros [E|Hin']; [exact (Hne E) | exact (Hs Hin')].
      * exists v'. split; [now right | exact H2].
Qed.

Lemma unique_keys (seen : list key) (l : list cell) :
  NoDup (map key_of (unique seen l)).
Proof.
  revert seen. induction l as [|x l IH]; intros seen; simpl; [constructor|].
  destruct (in_dec key_eq_dec (key_of x) seen) as [Hx|Hx]; [apply IH|].
  simpl. constructor; [|apply IH].
  intros Hin. apply in_map_iff in Hin. destruct Hin as (v & Ev & Hv).
  apply unique_in in Hv. destruct Hv as [_ Hv]. apply Hv. left. now symmetry.
Qed.

Lemma key_of_isna (a b : cell) : key_of a = key_of b -> isna a = isna b.
Proof.
  destruct a as [s|z|f|  |d], b as [s'|z'|f'|  |d']; simpl;
    try destruct (strip_zeros (fmant f) (fscale f));
    try destruct (strip_zeros (fmant f') (fscale f'));
    try discriminate; try reflexivity.
  intros [= ->]. reflexivity.
Qed.

Lemma same_key_true (a b : cell) : same_key a b = true <-> key_of a = key_of b.
Proof.
  unfold same_key. destruct (key_eq_dec (key_of a) (key_of b)); split;
    congruence.
Qed.

(** Missing values are no occurrences of a value that is present. *)
Lemma count_present (v : cell) (col : list cell) :
  isna v = false ->
  count v (filter (fun x => negb (isna x)) col) = count v col.
Proof.
  intros Hv. unfold count. f_equal.
  induction col as [|x col IH]; simpl; [reflexivity|].
  destruct (isna x) eqn:Ex; simpl.
  - destruct (same_key v x) eqn:E; [|exact IH].
    apply same_key_true, key_of_isna in E. congruence.
  - destruct (same_key v x); simpl; now rewrite IH.
Qed.

Lemma count_key (a b : cell) (l : list cell) :
  key_of a = key_of b -> count a l = count b l.
Proof. intros E. unfold count, same_key. now rewrite E. Qed.

Lemma count_positive (v : cell) (l : list cell) : In v l -> (0 < count v l)%nat.
Proof.
  intros H. unfold count.
  assert (Hin : In v (filter (same_key v) l)).
  { apply filter_In. split; [exact H|]. now apply same_key_true. }
  destruct (filter (same_key v) l); [destruct Hin | simpl; lia].
Qed.

Lemma mem_index_of (c : string) (l : list string) :
  mem c l = true -> exists j, index_of c l = Some j.
Proof.
  unfold mem. induction l as [|x l IH]; simpl; [discriminate|].
  destruct (String.eqb c x); simpl; [intros _; now exists 0%nat|].
  intros H. destruct (IH H) as (j & ->). now exists (S j).
Qed.

Lemma mem_false_index_of (c : string) (l : list string) :
  mem c l = false -> index_of c l = None.
Proof.
  unfold mem. induction l as [|x l IH]; simpl; [reflexivity|].
  destruct (String.eqb c x); simpl; [discriminate|].
  intros H. now rewrite (IH H).
Qed.

(** What [value_counts] followed by [sort_values] holds. *)
Lemma sorted_counts_spec (col : list cell) :
  let result := sort_values (value_counts col) in
  StronglySorted by_count result /\
  NoDup (map (fun b => key_of (fst b)) result) /\
  (forall v, In v col -> isna v = false ->
             exists v', In (v', count v col) result /\ key_of v' = key_of v) /\
  (forall v n, In (v, n) result ->
               In v col /\ isna v = false /\ n = count v col /\ (0 < n)%nat).
Proof.
  intros result. subst result.
  split; [apply sort_values_sorted|].
  unfold sort_values, value_counts.
  set (present := filter (fun v => negb (isna v)) col).
  assert (Hp : forall v, In v present <-> In v col /\ isna v = false).
  { intros v. unfold present. rewrite filter_In.
    destruct (isna v); simpl; intuition congruence. }
  split; [|split].
  - apply sort_by_keys, sort_by_keys. rewrite map_map. simpl.
    apply unique_keys.
  - intros v Hv Hna.
    destruct (unique_complete [] present v) as (v' & Hv' & Ek).
    + apply Hp. auto.
    + intros [].
    + exists v'. split; [|exact Ek].
      apply sort_by_in, sort_by_in, in_map_iff. exists v'.
      split; [|exact Hv'].
      f_equal. rewrite (count_key _ _ _ Ek). unfold present.
      apply count_present. exact Hna.
  - intros v n Hin.
    apply sort_by_in, sort_by_in, in_map_iff in Hin.
    destruct Hin as (v' & E & Hv'). injection E as -> <-.
    apply unique_in in Hv'. destruct Hv' as [Hv' _].
    apply Hp in Hv'. destruct Hv' as [Hc Hna].
    split; [exact Hc|]. split; [exact Hna|].
    unfold present. rewrite (count_present _ _ Hna).
    split; [reflexivity | apply count_positive; exact Hc].
Qed.

(** With a reason among the rows there is a bar to plot, and the figure is
    returned. *)
Lemma create_reason_chart_bars (df : DataFrame) (col : list cell) (v : cell) :
  empty df = false ->
  column df "Reason for Feedback" = Some col ->
  In v col -> isna v = false ->
  exists bar more,
    sort_values (value_counts col) = bar :: more /\
    create_reason_chart df =
      Some (Some (mkChart "Summary of Customer Feedback Reasons"
                          "Number of Customers" "Reason" (bar :: more))).
Proof.
  intros He Hc Hv Hna.
  assert (Hm : mem "Reason for Feedback" (columns df) = true).
  { destruct (mem "Reason for Feedback" (columns df)) eqn:Hm; [reflexivity|].
    unfold column in Hc. rewrite (mem_false_index_of _ _ Hm) in Hc. discriminate. }
  unfold create_reason_chart. rewrite He, Hm, Hc. simpl.
  destruct (sorted_counts_spec col) as (_ & _ & S3 & _).
  destruct (S3 v Hv Hna) as (v' & Hin & _).
  destruct (sort_values (value_counts col)) as [|bar more]; [destruct Hin|].
  exists bar, more. split; reflexivity.
Qed.

(** With every reason missing there is none, and the plot raises. *)
Lemma create_reason_chart_no_bars (df : DataFrame) (col : list cell) :
  empty df = false ->
  column df "Reason for Feedback" = Some col ->
  (forall v, In v col -> isna v = true) ->
  create_reason_chart df = None.
Proof.
  intros He Hc Hall.
  assert (Hm : mem "Reason for Feedback" (columns df) = true).
  { destruct (mem "Reason for Feedback" (columns df)) eqn:Hm; [reflexivity|].
    unfold column in Hc. rewrite (mem_false_index_of _ _ Hm) in Hc. discriminate. }
  unfold create_reason_chart. rewrite He, Hm, Hc. simpl.
  destruct (sorted_counts_spec col) as (_ & _ & _ & S4).
  destruct (sort_values (value_counts col)) as [|[v n] more]; [reflexivity|].
  destruct (S4 v n (or_introl eq_refl)) as (Hv & Hna & _).
  rewrite (Hall v Hv) in Hna. discriminate.
Qed.

(** C8, as the code has it.  For a frame with rows and a reason column in
    which at least one row has a reason, the chart is drawn from the reasons
    grouped and counted: the bars are in ascending order of count, there is
    one bar per distinct reason (no two bars for the same value, a bar for
    every reason that occurs), and the length of a bar is the number of rows
    with that reason. *)
Theorem chart_bars_count_reasons_ascending :
  forall (df : DataFrame) (col : list cell),
    empty df = false ->
    column df "Reason for Feedback" = Some col ->
    (exists v, In v col /\ isna v = false) ->
    exists chart,
      create_reason_chart df = Some (Some chart) /\
      List.length col = List.length (rows df) /\
      bars chart = sort_values (value_counts col) /\
      StronglySorted by_count (bars chart) /\
      NoDup (map (fun b => key_of (fst b)) (bars chart)) /\
      (forall v, In v col -> isna v = false ->
                 exists v', In (v', count v col) (bars chart) /\
                            key_of v' = key_of v) /\
      (forall v n, In (v, n) (bars chart) ->
                   In v col /\ isna v = false /\ n = count v col /\ (0 < n)%nat).
Proof.
  intros df col He Hc (v & Hv & Hna).
  destruct (create_reason_chart_bars df col v He Hc Hv Hna) as (bar & more & Eb & E).
  eexists. split; [exact E|]. cbn [bars]. rewrite <- Eb.
  split.
  { unfold column in Hc. destruct (index_of _ _); [|discriminate].
    injection Hc as <-. apply length_map. }
  split; [reflexivity|].
  apply sorted_counts_spec.
Qed.

Lemma chart_bars_count_reasons_ascending_witness :
  exists chart,
    create_reason_chart
      (mkDF COLUMNS
         (map (fun r => [VNaN; VNaN; VNaN; VNaN; VNaN; r])
              [VStr "Staff Issue"; VStr "VA Problem"; VNaN; VStr "Staff Issue";
               VStr "JPS Card"; VStr "Staff Issue"; VStr "VA Problem"]))
      = Some (Some chart) /\
    bars chart = [(VStr "JPS Card", 1%nat); (VStr "VA Problem", 2%nat);
                  (VStr "Staff Issue", 3%nat)].
Proof.
  destruct (chart_bars_count_reasons_ascending
      (mkDF COLUMNS
         (map (fun r => [VNaN; VNaN; VNaN; VNaN; VNaN; r])
              [VStr "Staff Issue"; VStr "VA Problem"; VNaN; VStr "Staff Issue";
               VStr "JPS Card"; VStr "Staff Issue"; VStr "VA Problem"]))
      [VStr "Staff Issue"; VStr "VA Problem"; VNaN; VStr "Staff Issue";
       VStr "JPS Card"; VStr "Staff Issue"; VStr "VA Problem"]
      eq_refl eq_refl
      (ex_intro _ (VStr "Staff Issue") (conj (or_introl eq_refl) eq_refl)))
    as (chart & E & _ & Eb & _).
  exists chart. split; [exact E|]. rewrite Eb. reflexivity.
Defined.

(** C8 as stated fails where no row has a reason: the frame has a row and
    the reason column, the counts are an empty Series, and the plot raises
    instead of drawing a chart without bars. *)
Lemma chart_fails_without_any_reason :
  empty reasons_missing_frame = false /\
  mem "Reason for Feedback" (columns reasons_missing_frame) = true /\
  column reasons_missing_frame "Reason for Feedback" = Some [VNaN] /\
  sort_values (value_counts [VNaN]) = [] /\
  create_reason_chart reasons_missing_frame = None.
Proof. repeat split; reflexivity. Qed.

(** ** The report: laying out the entries *)

Lemma inches_values :
  inches 150 = 1080 /\ inches 100 = 720 /\ inches 25 = 180 /\ inches 20 = 144 /\
  inches 55 = 396 /\ inches 120 = 864 /\ inches 110 = 792 /\ inches 75 = 540 /\
  inches 350 = 2520 /\ inches 400 = 2880 /\ height = 7920 /\ width = 6120.
Proof. repeat split; reflexivity. Qed.

Ltac lengths :=
  destruct inches_values as
    (L150 & L100 & L25 & L20 & L55 & L120 & L110 & L75 & L350 & L400 & LH & LW);
  rewrite ?L150, ?L100, ?L25, ?L20, ?L55, ?L120, ?L110, ?L75, ?L350, ?L400,
    ?LH, ?LW in *.

Lemma draw_entry_place (cols : list string) (st : canvas * Z) (row : list cell)
    (t1 t2 : string) :
  line1 cols row = Some t1 -> line2 cols row = Some t2 ->
  draw_entry cols st row = Some (place st t1 t2).
Proof.
  intros H1 H2. destruct st as [c y].
  unfold draw_entry, page_break, place, first_line_at.
  destruct (y <? inches 150); rewrite H1, H2;
    unfold draw, showPage, continued_header, entry_block; simpl;
    rewrite <- ?app_assoc; simpl; f_equal; f_equal;
    lengths; change (144 / 2) with 72; lia.
Qed.

Lemma index_of_bound (c : string) (l : list string) (j : nat) :
  index_of c l = Some j -> (j < List.length l)%nat.
Proof.
  intros H. apply index_of_nth_error in H.
  apply nth_error_Some. congruence.
Qed.

Lemma get_present (cols : list string) (row : list cell) (c : string) :
  mem c cols = true -> List.length row = List.length cols ->
  exists v, get cols row c = Some v.
Proof.
  intros Hm Hl. destruct (mem_index_of _ _ Hm) as (j & Hj).
  unfold get. rewrite Hj.
  destruct (nth_error row j) as [v|] eqn:E; [now exists v|].
  apply nth_error_None in E. apply index_of_bound in Hj. lia.
Qed.

Lemma report_fields_lines (df : DataFrame) (r : list cell) :
  report_fields df -> In r (rows df) ->
  exists t1 t2, line1 (columns df) r = Some t1 /\ line2 (columns df) r = Some t2.
Proof.
  intros [Hc Hr] Hin. rewrite Forall_forall in Hr. specialize (Hr r Hin).
  unfold line1, line2.
  destruct (get_present (columns df) r "Date") as (v1 & ->);
    [apply Hc; simpl; tauto | exact Hr |].
  destruct (get_present (columns df) r "Customer Name") as (v2 & ->);
    [apply Hc; simpl; tauto | exact Hr |].
  destruct (get_present (columns df) r "Product") as (v3 & ->);
    [apply Hc; simpl; tauto | exact Hr |].
  destruct (get_present (columns df) r "Weight (grams)") as (v4 & ->);
    [apply Hc; simpl; tauto | exact Hr |].
  destruct (get_present (columns df) r "Reason for Feedback") as (v5 & ->);
    [apply Hc; simpl; tauto | exact Hr |].
  eexists. eexists. split; reflexivity.
Qed.

(** With the columns there, the loop is the entries placed one after the
    other. *)
Lemma draw_entries_fold (cols : list string) (rs : list (list cell)) :
  forall st,
    (forall r, In r rs ->
               exists t1 t2, line1 cols r = Some t1 /\ line2 cols r = Some t2) ->
    draw_entries cols st rs = Some (fold_left (place_row cols) rs st).
Proof.
  induction rs as [|r rs IH]; intros st H; simpl; [reflexivity|].
  destruct (H r (or_introl eq_refl)) as (t1 & t2 & H1 & H2).
  rewrite (draw_entry_place _ _ _ _ _ H1 H2).
  unfold place_row at 2. rewrite H1, H2.
  apply IH. intros r' Hr'. apply H. now right.
Qed.

Lemma place_pages (c : canvas) (y : Z) (t1 t2 : string) :
  ((y <? inches 150) = true /\
   pages_so_far (fst (place (c, y) t1 t2)) =
     (pages_so_far c ++
      [continued_header ++ entry_block t1 t2 (first_line_at y)])%list) \/
  ((y <? inches 150) = false /\
   pages_so_far (fst (place (c, y) t1 t2)) =
     (finished c ++ [current c ++ entry_block t1 t2 (first_line_at y)])%list).
Proof.
  unfold place, pages_so_far. destruct (y <? inches 150); simpl;
    [left | right]; split; reflexivity.
Qed.

Lemma place_cursor (st : canvas * Z) (t1 t2 : string) :
  snd (place st t1 t2) = first_line_at (snd st) - inches 55.
Proof. destruct st as [c y]. reflexivity. Qed.

Lemma first_line_at_margin (y : Z) : inches 150 <= first_line_at y.
Proof.
  unfold first_line_at. destruct (Z.ltb_spec y (inches 150)); [|assumption].
  lengths. lia.
Qed.

Lemma first_line_at_top (y : Z) :
  y <= height - inches 100 - inches 25 ->
  first_line_at y <= height - inches 100 - inches 25.
Proof.
  unfold first_line_at. destruct (Z.ltb_spec y (inches 150)); lia.
Qed.

Lemma tl_app_last {A : Type} (l : list A) (x y : A) :
  tl ((l ++ [x]) ++ [y]) = (tl (l ++ [x]) ++ [y])%list.
Proof. destruct l; reflexivity. Qed.

Lemma place_continued (c : canvas) (y : Z) (t1 t2 : string) :
  continued_pages (pages_so_far c) ->
  continued_pages (pages_so_far (fst (place (c, y) t1 t2))).
Proof.
  unfold continued_pages.
  destruct (place_pages c y t1 t2) as [[_ ->] | [_ ->]]; unfold pages_so_far.
  - rewrite tl_app_last. intros H. apply Forall_app. split; [exact H|].
    constructor; [|constructor]. eexists. reflexivity.
  - destruct (finished c) as [|p0 fin]; simpl; [constructor|].
    intros H. apply Forall_app in H. destruct H as [Hf Hc].
    apply Forall_app. split; [exact Hf|].
    inversion Hc as [|? ? (rest & E) _]; subst.
    constructor; [|constructor].
    exists (rest ++ entry_block t1 t2 (first_line_at y))%list.
    rewrite ?E. rewrite <- ?app_assoc. reflexivity.
Qed.

Lemma contains_app_r (b pg more : page) :
  contains b pg -> contains b (pg ++ more)%list.
Proof.
  intros (before & after & ->). exists before, (after ++ more)%list.
  now rewrite <- !app_assoc.
Qed.

Lemma place_keeps_blocks (c : canvas) (y : Z) (t1 t2 : string) (b : page) :
  Exists (contains b) (pages_so_far c) ->
  Exists (contains b) (pages_so_far (fst (place (c, y) t1 t2))).
Proof.
  destruct (place_pages c y t1 t2) as [[_ ->] | [_ ->]]; unfold pages_so_far;
    intros H.
  - apply Exists_app. now left.
  - apply Exists_app in H. apply Exists_app. destruct H as [H|H]; [now left|].
    right. inversion H as [? ? Hc | ? ? Hn]; subst; [|inversion Hn].
    constructor. apply contains_app_r. exact Hc.
Qed.

Lemma place_puts_block (c : canvas) (y : Z) (t1 t2 : string) :
  Exists (contains (entry_block t1 t2 (first_line_at y)))
         (pages_so_far (fst (place (c, y) t1 t2))).
Proof.
  destruct (place_pages c y t1 t2) as [[_ ->] | [_ ->]];
    apply Exists_app; right; constructor.
  - exists continued_header, []. now rewrite app_nil_r.
  - exists (current c), []. now rewrite app_nil_r.
Qed.

Lemma place_all_ops (ok : op -> Prop) (c : canvas) (y : Z) (t1 t2 : string) :
  Forall ok continued_header ->
  Forall ok (entry_block t1 t2 (first_line_at y)) ->
  all_ops ok (pages_so_far c) ->
  all_ops ok (pages_so_far (fst (place (c, y) t1 t2))).
Proof.
  intros Hh Hb. unfold all_ops.
  destruct (place_pages c y t1 t2) as [[_ ->] | [_ ->]]; unfold pages_so_far;
    intros H.
  - apply Forall_app. split; [exact H|].
    constructor; [|constructor]. apply Forall_app. now split.
  - apply Forall_app in H. destruct H as [Hf Hc].
    apply Forall_app. split; [exact Hf|].
    inversion Hc; subst. constructor; [|constructor].
    apply Forall_app. now split.
Qed.

Lemma flat_map_app_last {A B : Type} (g : A -> list B) (l : list A) (x : A) :
  flat_map g (l ++ [x]) = (flat_map g l ++ g x)%list.
Proof. rewrite flat_map_app. simpl. now rewrite app_nil_r. Qed.

Lemma entry_texts_app (a b : page) :
  entry_texts (a ++ b)%list = (entry_texts a ++ entry_texts b)%list.
Proof. unfold entry_texts. apply flat_map_app. Qed.

Lemma place_texts (c : canvas) (y : Z) (t1 t2 : string) :
  flat_map entry_texts (pages_so_far (fst (place (c, y) t1 t2))) =
  (flat_map entry_texts (pages_so_far c) ++ [t1; t2])%list.
Proof.
  destruct (place_pages c y t1 t2) as [[_ ->] | [_ ->]]; unfold pages_so_far;
    rewrite !flat_map_app_last, ?entry_texts_app, <- ?app_assoc; reflexivity.
Qed.

Lemma place_page_count (c : canvas) (y : Z) (t1 t2 : string) :
  List.length (pages_so_far (fst (place (c, y) t1 t2))) =
  (List.length (pages_so_far c) + if (y <? inches 150)%Z then 1 else 0)%nat.
Proof.
  destruct (place_pages c y t1 t2) as [[-> ->] | [-> ->]]; unfold pages_so_far;
    rewrite !length_app; simpl; lia.
Qed.

Lemma place_title (st : canvas * Z) (t1 t2 : string) :
  doc_title (fst (place st t1 t2)) = doc_title (fst st).
Proof.
  destruct st as [c y]. unfold place. destruct (y <? inches 150); reflexivity.
Qed.

Lemma place_current (st : canvas * Z) (t1 t2 : string) :
  current (fst (place st t1 t2)) <> [].
Proof.
  destruct st as [c y]. unfold place, entry_block.
  destruct (y <? inches 150); simpl; [discriminate|].
  destruct (current c); discriminate.
Qed.

(** A property of the canvas and cursor that placing an entry keeps holds
    after the loop. *)
Lemma fold_place_invariant (cols : list string) (Inv : canvas * Z -> Prop)
    (rs : list (list cell)) :
  (forall st t1 t2, Inv st -> Inv (place st t1 t2)) ->
  forall st, Inv st -> Inv (fold_left (place_row cols) rs st).
Proof.
  intros Hstep. induction rs as [|r rs IH]; intros st H; simpl; [exact H|].
  apply IH. unfold place_row.
  destruct (line1 cols r); [|exact H]. destruct (line2 cols r); [|exact H].
  apply Hstep. exact H.
Qed.

Lemma fold_place_continued (cols : list string) (rs : list (list cell))
    (st : canvas * Z) :
  continued_pages (pages_so_far (fst st)) ->
  continued_pages (pages_so_far (fst (fold_left (place_row cols) rs st))).
Proof.
  apply (fold_place_invariant cols
           (fun st => continued_pages (pages_so_far (fst st)))).
  intros [c y] t1 t2. apply place_continued.
Qed.

Lemma fold_place_title (cols : list string) (rs : list (list cell))
    (st : canvas * Z) :
  doc_title (fst (fold_left (place_row cols) rs st)) = doc_title (fst st).
Proof.
  apply (fold_place_invariant cols
           (fun st' => doc_title (fst st') = doc_title (fst st))); [|reflexivity].
  intros st' t1 t2 H. now rewrite place_title.
Qed.

Lemma fold_place_current (cols : list string) (rs : list (list cell))
    (st : canvas * Z) :
  current (fst st) <> [] ->
  current (fst (fold_left (place_row cols) rs st)) <> [].
Proof.
  apply (fold_place_invariant cols (fun st => current (fst st) <> [])).
  intros st' t1 t2 _. apply place_current.
Qed.

Lemma fold_place_keeps_blocks (cols : list string) (rs : list (list cell))
    (st : canvas * Z) (b : page) :
  Exists (contains b) (pages_so_far (fst st)) ->
  Exists (contains b) (pages_so_far (fst (fold_left (place_row cols) rs st))).
Proof.
  apply (fold_place_invariant cols
           (fun st => Exists (contains b) (pages_so_far (fst st)))).
  intros [c y] t1 t2. apply place_keeps_blocks.
Qed.

Lemma fold_place_all_ops (ok : op -> Prop) (cols : list string)
    (rs : list (list cell)) (st : canvas * Z) :
  Forall ok continued_header ->
  (forall t1 t2 y, inches 150 <= y -> Forall ok (entry_block t1 t2 y)) ->
  all_ops ok (pages_so_far (fst st)) ->
  all_ops ok (pages_so_far (fst (fold_left (place_row cols) rs st))).
Proof.
  intros Hh Hb.
  apply (fold_place_invariant cols
           (fun st => all_ops ok (pages_so_far (fst st)))).
  intros [c y] t1 t2. apply place_all_ops; [exact Hh|].
  apply Hb. apply first_line_at_margin.
Qed.

(** The text lines drawn are those of the rows, in the order of the rows. *)
Lemma fold_place_texts (cols : list string) (rs : list (list cell)) :
  forall st,
    flat_map entry_texts (pages_so_far (fst (fold_left (place_row cols) rs st))) =
    (flat_map entry_texts (pages_so_far (fst st)) ++
     flat_map (entry_lines cols) rs)%list.
Proof.
  induction rs as [|r rs IH]; intros st; simpl; [now rewrite app_nil_r|].
  rewrite IH. unfold place_row, entry_lines.
  destruct (line1 cols r) as [t1|]; [|reflexivity].
  destruct (line2 cols r) as [t2|]; [|reflexivity].
  destruct st as [c y]. rewrite place_texts. now rewrite <- app_assoc.
Qed.

(** Every row has its block, whole, on one of the pages, its first line at
    or above the page-break threshold. *)
Lemma fold_place_blocks (cols : list string) (rs : list (list cell)) :
  forall st r,
    (forall r, In r rs ->
               exists t1 t2, line1 cols r = Some t1 /\ line2 cols r = Some t2) ->
    In r rs ->
    exists t1 t2 y,
      line1 cols r = Some t1 /\ line2 cols r = Some t2 /\
      inches 150 <= y /\
      Exists (contains (entry_block t1 t2 y))
             (pages_so_far (fst (fold_left (place_row cols) rs st))).
Proof.
  induction rs as [|r0 rs IH]; intros st r Hl Hin; [destruct Hin|].
  simpl. destruct Hin as [-> | Hin].
  - destruct (Hl r (or_introl eq_refl)) as (t1 & t2 & H1 & H2).
    destruct st as [c y].
    exists t1, t2, (first_line_at y).
    split; [exact H1|]. split; [exact H2|].
    split; [apply first_line_at_margin|].
    apply fold_place_keeps_blocks. unfold place_row. rewrite H1, H2.
    apply place_puts_block.
  - apply IH; [|exact Hin]. intros r' Hr'. apply Hl. now right.
Qed.

Lemma capacity_step (y : Z) :
  inches 150 <= y -> capacity (y - inches 55) = capacity y - 1.
Proof.
  unfold capacity. lengths. intros H.
  destruct (Z.ltb_spec y 1080); [lia|].
  destruct (Z.ltb_spec (y - 396) 1080).
  - assert ((y - 1080) / 396 = 0) by (apply Z.div_small; lia). lia.
  - replace (y - 1080) with ((y - 396 - 1080) + 1 * 396) by lia.
    rewrite Z.div_add by lia. lia.
Qed.

Lemma capacity_nonneg (y : Z) : 0 <= capacity y.
Proof.
  unfold capacity. lengths. destruct (Z.ltb_spec y 1080); [lia|].
  assert (0 <= (y - 1080) / 396) by (apply Z.div_pos; lia). lia.
Qed.

Lemma fold_place_pages_grow (cols : list string) (rs : list (list cell)) :
  forall st,
    (List.length (pages_so_far (fst st)) <=
     List.length (pages_so_far (fst (fold_left (place_row cols) rs st))))%nat.
Proof.
  induction rs as [|r rs IH]; intros st; simpl; [lia|].
  eapply Nat.le_trans; [|apply IH]. unfold place_row.
  destruct (line1 cols r); [|apply Nat.le_refl].
  destruct (line2 cols r); [|apply Nat.le_refl].
  destruct st as [c y]. rewrite place_page_count. cbn [fst].
  destruct (y <? inches 150); lia.
Qed.

(** As many entries as the capacity of the page go on it without a page
    break; one more opens a new page. *)
Lemma fold_place_page_count (cols : list string) (rs : list (list cell)) :
  forall c y,
    (forall r, In r rs ->
               exists t1 t2, line1 cols r = Some t1 /\ line2 cols r = Some t2) ->
    (Z.of_nat (List.length rs) <= capacity y ->
     List.length (pages_so_far (fst (fold_left (place_row cols) rs (c, y)))) =
     List.length (pages_so_far c)) /\
    (capacity y < Z.of_nat (List.length rs) ->
     (List.length (pages_so_far c) <
      List.length (pages_so_far (fst (fold_left (place_row cols) rs (c, y)))))%nat).
Proof.
  induction rs as [|r rs IH]; intros c y Hl.
  - split; [reflexivity|]. pose proof (capacity_nonneg y). simpl. lia.
  - destruct (Hl r (or_introl eq_refl)) as (t1 & t2 & H1 & H2).
    assert (Hl' : forall r', In r' rs ->
              exists t1 t2, line1 cols r' = Some t1 /\ line2 cols r' = Some t2).
    { intros r' Hr'. apply Hl. now right. }
    cbn [fold_left]. unfold place_row at 2 4. rewrite H1, H2.
    pose proof (place_page_count c y t1 t2) as Hn.
    pose proof (place_cursor (c, y) t1 t2) as Hy. cbn [snd] in Hy.
    destruct (place (c, y) t1 t2) as [c1 y1] eqn:E. cbn [fst snd] in *.
    destruct (IH c1 y1 Hl') as [Hfit Hover].
    pose proof (fold_place_pages_grow cols rs (c1, y1)) as Hgrow.
    cbn [fst] in Hgrow. subst y1.
    unfold first_line_at in *.
    destruct (Z.ltb_spec y (inches 150)) as [Hlow|Hhigh].
    + split.
      * unfold capacity at 1.
        destruct (Z.ltb_spec y (inches 150)); [|lia].
        rewrite length_cons. lia.
      * intros _. lia.
    + rewrite (capacity_step y Hhigh) in *. rewrite length_cons. split.
      * intros H. rewrite Hfit by lia. lia.
      * intros H. assert (Hlt := Hover ltac:(lia)). lia.
Qed.

(** ** The report: the finished document *)

(** The cursor of the script, in doubles, and the exact cursor agree on when
    to break the page: sixteen entries go on a page without a chart and on
    every continued page, eight on a first page with a chart. *)
Lemma float_cursor_breaks_alike :
  FloatCursor.entries_on_page 100 (FloatCursor.first_cursor false) = 16%nat /\
  FloatCursor.entries_on_page 100 (FloatCursor.first_cursor true) = 8%nat /\
  FloatCursor.entries_on_page 100 FloatCursor.continued_cursor = 16%nat /\
  capacity (snd (report_head None)) = 16 /\
  (forall image, capacity (snd (report_head (Some image))) = 8) /\
  capacity (height - inches 100 - inches 25) = 16.
Proof. repeat split. Qed.

Lemma report_head_pages (chart_image : option Chart) :
  exists ops,
    pages_so_far (fst (report_head chart_image)) = [ops] /\
    ops <> [] /\
    current (fst (report_head chart_image)) = ops /\
    doc_title (fst (report_head chart_image)) = "Customer Feedback Report" /\
    Forall (fun o => forall y, lowest o = Some y -> inches 120 <= y) ops /\
    entry_texts ops = [] /\
    (chart_image = None -> Forall (fun o => is_image o = false) ops) /\
    snd (report_head chart_image) =
      match chart_image with
      | Some _ => height - inches 100 - inches 400 - inches 25
      | None => height - inches 100 - inches 25
      end.
Proof.
  destruct chart_image as [image|]; eexists;
    (split; [reflexivity|]); (split; [discriminate|]);
    (split; [reflexivity|]); (split; [reflexivity|]);
    (split; [|split; [reflexivity|split; [|reflexivity]]]).
  - repeat constructor; intros y [= <-]; vm_compute; discriminate.
  - discriminate.
  - repeat constructor; intros y [= <-]; vm_compute; discriminate.
  - intros _. repeat constructor.
Qed.

(** With the columns there, the report is built: its pages are those of the
    canvas after the entries were placed. *)
Lemma create_report_pdf_pages (df : DataFrame) (chart_image : option Chart) :
  report_fields df ->
  create_report_pdf df chart_image =
    Some (mkPdf "Customer Feedback Report"
            (pages_so_far
               (fst (fold_left (place_row (columns df)) (rows df)
                               (report_head chart_image))))).
Proof.
  intros Hf. unfold create_report_pdf.
  rewrite (draw_entries_fold (columns df) (rows df) (report_head chart_image))
    by (intros r Hr; apply (report_fields_lines df r Hf Hr)).
  destruct (report_head_pages chart_image) as (ops & _ & Hne & Hcur & Ht & _).
  pose proof (fold_place_title (columns df) (rows df) (report_head chart_image)) as Et.
  pose proof (fold_place_current (columns df) (rows df) (report_head chart_image)) as Ec.
  destruct (fold_left _ _ _) as [c y]. cbn [fst] in *.
  unfold save, pages_so_far. rewrite Et, Ht.
  destruct (current c); [exfalso; apply Ec; [congruence | reflexivity]|].
  reflexivity.
Qed.

Lemma entry_block_margin (t1 t2 : string) (y : Z) :
  inches 150 <= y ->
  Forall (fun o => forall y', lowest o = Some y' -> inches 120 <= y')
         (entry_block t1 t2 y).
Proof.
  intros H. unfold entry_block. lengths. change (144 / 2) with 72.
  repeat constructor; simpl; intros y' E; try discriminate;
    injection E as <-; lia.
Qed.

(** The pages as a layout: placing an entry puts its block at the end of the
    last page, or alone on a new page under the header. *)
Lemma laid_out_last (head : page) (init : list (list (string * string * Z)))
    (lastc : list (string * string * Z)) :
  laid_out head (init ++ [lastc]) =
    (laid_out head init ++
     [(match init with [] => head | _ => continued_header end) ++
      flat_map block lastc])%list.
Proof.
  destruct init as [|first more]; simpl; [reflexivity|].
  rewrite map_app. reflexivity.
Qed.

Lemma place_layout (head : page) (layout : list (list (string * string * Z)))
    (c : canvas) (y : Z) (t1 t2 : string) :
  layout <> [] ->
  pages_so_far c = laid_out head layout ->
  exists layout',
    layout' <> [] /\
    pages_so_far (fst (place (c, y) t1 t2)) = laid_out head layout' /\
    List.concat layout' = (List.concat layout ++ [(t1, t2, first_line_at y)])%list.
Proof.
  intros Hne Hp. destruct (place_pages c y t1 t2) as [[_ E] | [_ E]]; rewrite E.
  - exists (layout ++ [[(t1, t2, first_line_at y)]])%list.
    split; [destruct layout; discriminate|]. split.
    + rewrite Hp, laid_out_last. destruct layout; [contradiction|].
      unfold flat_map, block. cbn [fst snd]. now rewrite app_nil_r.
    + rewrite concat_app. reflexivity.
  - destruct (exists_last Hne) as (init & lastc & ->).
    rewrite laid_out_last in Hp. unfold pages_so_far in Hp.
    apply app_inj_tail in Hp. destruct Hp as [Hf Hc].
    exists (init ++ [lastc ++ [(t1, t2, first_line_at y)]])%list.
    split; [destruct init; discriminate|]. split.
    + rewrite laid_out_last, Hf, Hc, flat_map_app_last, app_assoc. reflexivity.
    + rewrite !concat_app. simpl. rewrite !app_nil_r, app_assoc. reflexivity.
Qed.

(** After the loop the pages are a layout of the rows: entry for entry, in
    the order of the rows, every first line at the threshold or above. *)
Lemma fold_place_layout (head : page) (cols : list string) (rs : list (list cell)) :
  forall st layout,
    layout <> [] ->
    pages_so_far (fst st) = laid_out head layout ->
    (forall r, In r rs ->
               exists t1 t2, line1 cols r = Some t1 /\ line2 cols r = Some t2) ->
    exists layout' es,
      pages_so_far (fst (fold_left (place_row cols) rs st)) = laid_out head layout' /\
      List.concat layout' = (List.concat layout ++ es)%list /\
      Forall2 (fun r e => line1 cols r = Some (fst (fst e)) /\
                          line2 cols r = Some (snd (fst e))) rs es /\
      Forall (fun e => inches 150 <= snd e) es.
Proof.
  induction rs as [|r rs IH]; intros st layout Hne Hp Hl.
  - exists layout, []. rewrite app_nil_r. repeat split; [exact Hp | constructor..].
  - destruct (Hl r (or_introl eq_refl)) as (t1 & t2 & H1 & H2).
    destruct st as [c y]. cbn [fold_left]. unfold place_row at 2. rewrite H1, H2.
    destruct (place_layout head layout c y t1 t2 Hne Hp) as (l1 & Hne1 & Hp1 & Hc1).
    destruct (IH (place (c, y) t1 t2) l1 Hne1 Hp1) as (l2 & es & Hp2 & Hc2 & Hr & Hy).
    { intros r' Hr'. apply Hl. now right. }
    exists l2, ((t1, t2, first_line_at y) :: es). split; [exact Hp2|].
    split; [rewrite Hc2, Hc1, <- app_assoc; reflexivity|].
    split; constructor; auto. apply first_line_at_margin.
Qed.

(** C2, as the code has it.  The report is built for every frame with the
    columns the entries need, and
    - every page but the first starts with the "Continued" header;
    - the pages are the first page's head and the headers of the continued
      pages with, under them, one block per row (font, first line, second
      line, rule), row for row in the order of the frame, each block whole on
      its page, the two lines never apart, the first line at 1.5 in or more
      above the bottom of the page;
    - nothing is drawn lower than 1.2 in above the bottom of the page;
    - a report of up to 16 entries (8 under a chart) is one page, a longer one
      has more, in particular one whose blocks add up to more than the room
      below the first cursor;
    - the page break is taken exactly when the cursor is less than 1.5 in
      above the bottom: the page is closed and the next page opens with the
      header. *)
Theorem report_pages_keep_entries_whole :
  forall (df : DataFrame) (chart_image : option Chart),
    report_fields df ->
    exists p,
      create_report_pdf df chart_image = Some p /\
      continued_pages (pages p) /\
      (exists layout,
         pages p = laid_out (current (fst (report_head chart_image))) layout /\
         Forall2 (fun r e => line1 (columns df) r = Some (fst (fst e)) /\
                             line2 (columns df) r = Some (snd (fst e)))
                 (rows df) (List.concat layout) /\
         Forall (fun e => inches 150 <= snd e) (List.concat layout)) /\
      within_margin (inches 120) p /\
      (Z.of_nat (List.length (rows df)) <=
         match chart_image with Some _ => 8 | None => 16 end ->
       List.length (pages p) = 1%nat) /\
      (match chart_image with Some _ => 8 | None => 16 end <
         Z.of_nat (List.length (rows df)) ->
       (2 <= List.length (pages p))%nat) /\
      (snd (report_head chart_image) <
         Z.of_nat (List.length (rows df)) * inches 55 ->
       (2 <= List.length (pages p))%nat) /\
      (forall c y,
          page_break (c, y) =
            if y <? inches 150
            then (mkCanvas (doc_title c) (finished c ++ [current c]) continued_header,
                  height - inches 100 - inches 25)
            else (c, y)).
Proof.
  intros df chart Hf.
  assert (Hl : forall r, In r (rows df) ->
             exists t1 t2, line1 (columns df) r = Some t1 /\
                           line2 (columns df) r = Some t2).
  { intros r Hr. apply (report_fields_lines df r Hf Hr). }
  eexists. split; [apply create_report_pdf_pages; exact Hf|]. cbn [pages].
  destruct (report_head_pages chart) as
    (ops & Hp & Hne & Hcur & Ht & Hm & Htx & Him & Hy).
  assert (Hcap : capacity (snd (report_head chart)) =
                 match chart with Some _ => 8 | None => 16 end).
  { rewrite Hy. destruct chart; reflexivity. }
  pose proof (fold_place_page_count (columns df) (rows df)
                (fst (report_head chart)) (snd (report_head chart)) Hl) as Hcount.
  rewrite <- surjective_pairing, Hcap, Hp in Hcount. simpl List.length in Hcount.
  destruct Hcount as [Hfit Hover].
  split; [|split; [|split; [|split; [|split; [|split]]]]].
  - apply fold_place_continued. rewrite Hp. constructor.
  - destruct (fold_place_layout ops (columns df) (rows df) (report_head chart) [[]])
      as (layout & es & Hpages & Hc & Hrows & Hys);
      [discriminate | rewrite Hp; simpl; now rewrite app_nil_r | exact Hl |].
    simpl in Hc. subst es. exists layout. rewrite Hcur. auto.
  - intros pg o y Hpg Ho Hlow.
    pose proof (fold_place_all_ops
                  (fun o => forall y, lowest o = Some y -> inches 120 <= y)
                  (columns df) (rows df) (report_head chart)) as Hall.
    unfold all_ops in Hall. rewrite Hp in Hall.
    assert (Hok : Forall (Forall (fun o => forall y, lowest o = Some y ->
                                           inches 120 <= y))
                    (pages_so_far (fst (fold_left (place_row (columns df))
                                          (rows df) (report_head chart))))).
    { apply Hall.
      - repeat constructor; intros y' [= <-]; vm_compute; discriminate.
      - intros t1 t2 y0. apply entry_block_margin.
      - constructor; [exact Hm | constructor]. }
    rewrite Forall_forall in Hok. specialize (Hok pg Hpg).
    rewrite Forall_forall in Hok. exact (Hok o Ho y Hlow).
  - exact Hfit.
  - intros H. specialize (Hover H). lia.
  - intros H. apply Hover. rewrite Hy in H. clear - H.
    destruct chart; lengths; lia.
  - intros c y. unfold page_break, showPage, draw, continued_header.
    destruct (y <? inches 150); reflexivity.
Qed.

Lemma report_pages_keep_entries_whole_witness :
  exists p,
    create_report_pdf thirty_three_entries None = Some p /\
    (2 <= List.length (pages p))%nat /\
    continued_pages (pages p) /\
    exists layout,
      pages p = laid_out (current (fst (report_head None))) layout /\
      List.length (List.concat layout) = 33%nat.
Proof.
  destruct (report_pages_keep_entries_whole thirty_three_entries None) as
    (p & E & Hcont & (layout & Hpages & Hrows & _) & _ & _ & _ & Hover & _).
  - split.
    + intros c Hc. simpl in Hc.
      repeat (destruct Hc as [<- | Hc]; [reflexivity|]). destruct Hc.
    + unfold thirty_three_entries. simpl. repeat constructor.
  - exists p. split; [exact E|].
    split; [apply Hover; vm_compute; reflexivity|].
    split; [exact Hcont|].
    exists layout. split; [exact Hpages|].
    rewrite <- (Forall2_length Hrows). reflexivity.
Defined.

(** C2, as stated, fails on the bottom margin.  Thirty-three entries without
    a chart overflow one page and the report has three pages; the sixteenth
    entry starts exactly 1.5 in above the bottom of the first page, so its
    second line is drawn there at 93.6 pt (1.3 in) and its rule lower still,
    before the page is broken for the seventeenth. *)
Lemma sixteenth_entry_crosses_margin :
  exists p pg1 pg2 pg3,
    snd (report_head None) <
      Z.of_nat (List.length (rows thirty_three_entries)) * inches 55 /\
    create_report_pdf thirty_three_entries None = Some p /\
    pages p = [pg1; pg2; pg3] /\
    In (DrawString (inches 120) (inches 150) "Date: 2024-01-15 00:00:00 | Name: Customer 16 | Contact: nan") pg1 /\
    In (DrawString (inches 120) 936
          "Product: Ring | Weight: 5.0g | Reason: VA Problem") pg1 /\
    In (DrawString (inches 120) (height - inches 100 - inches 25) "Date: 2024-01-15 00:00:00 | Name: Customer 17 | Contact: nan") pg2 /\
    936 < inches 150 /\
    ~ within_margin (inches 150) p.
Proof.
  eexists. eexists. eexists. eexists.
  split; [reflexivity|].
  split; [vm_compute; reflexivity|].
  split; [reflexivity|].
  split; [vm_compute; do 65 right; left; reflexivity|].
  split; [vm_compute; do 66 right; left; reflexivity|].
  split; [vm_compute; do 3 right; left; reflexivity|].
  split; [reflexivity|].
  intros H.
  specialize (H _ (DrawString (inches 120) 936
                     "Product: Ring | Weight: 5.0g | Reason: VA Problem")
                936 (or_introl eq_refl)).
  assert (Hle : inches 150 <= 936).
  { apply H; [|reflexivity]. vm_compute. do 66 right. left. reflexivity. }
  vm_compute in Hle. apply Hle. reflexivity.
Qed.

(** ** The report without a chart *)

Lemma create_reason_chart_empty (df : DataFrame) :
  empty df = true -> create_reason_chart df = Some None.
Proof. intros H. unfold create_reason_chart. now rewrite H. Qed.

Lemma create_reason_chart_no_reason (df : DataFrame) :
  mem "Reason for Feedback" (columns df) = false ->
  create_reason_chart df = Some None.
Proof.
  intros H. unfold create_reason_chart. rewrite H.
  now rewrite Bool.orb_true_r.
Qed.

Lemma entry_lines_two (df : DataFrame) (r : list cell) :
  report_fields df -> In r (rows df) ->
  List.length (entry_lines (columns df) r) = 2%nat.
Proof.
  intros Hf Hr.
  destruct (report_fields_lines df r Hf Hr) as (t1 & t2 & H1 & H2).
  unfold entry_lines. now rewrite H1, H2.
Qed.

Lemma flat_map_length_const {A B : Type} (g : A -> list B) (n : nat) (l : list A) :
  (forall x, In x l -> List.length (g x) = n) ->
  List.length (flat_map g l) = (n * List.length l)%nat.
Proof.
  induction l as [|x l IH]; intros H; simpl; [lia|].
  rewrite length_app, H by now left.
  rewrite IH by (intros y Hy; apply H; now right). lia.
Qed.

(** C7, as the code has it.  The chart function returns [None] for an empty
    frame and for a frame without a reason column.  Built without a chart
    image, the report of a frame with the columns the entry lines need has no
    image on any page, and the entry lines drawn on its pages are the two
    lines of every row, in the order of the rows. *)
Theorem chart_skipped_and_entries_listed :
  (forall df, empty df = true -> create_reason_chart df = Some None) /\
  (forall df, mem "Reason for Feedback" (columns df) = false ->
              create_reason_chart df = Some None) /\
  (forall df,
      report_fields df ->
      exists p,
        create_report_pdf df None = Some p /\
        all_ops (fun o => is_image o = false) (pages p) /\
        flat_map entry_texts (pages p) =
          flat_map (entry_lines (columns df)) (rows df) /\
        List.length (flat_map entry_texts (pages p)) =
          (2 * List.length (rows df))%nat /\
        (forall r, In r (rows df) ->
           exists t1 t2 y,
             line1 (columns df) r = Some t1 /\ line2 (columns df) r = Some t2 /\
             Exists (contains (entry_block t1 t2 y)) (pages p))).
Proof.
  split; [exact create_reason_chart_empty|].
  split; [exact create_reason_chart_no_reason|].
  intros df Hf.
  eexists. split; [apply create_report_pdf_pages; exact Hf|]. cbn [pages].
  destruct (report_head_pages None) as
    (ops & Hp & Hne & Hcur & Ht & Hm & Htx & Him & Hy).
  assert (Etexts : flat_map entry_texts
            (pages_so_far (fst (fold_left (place_row (columns df)) (rows df)
                                          (report_head None)))) =
          flat_map (entry_lines (columns df)) (rows df)).
  { rewrite fold_place_texts, Hp. simpl. rewrite app_nil_r, Htx. reflexivity. }
  split; [|split; [exact Etexts|split]].
  - apply fold_place_all_ops.
    + repeat constructor.
    + intros t1 t2 y _. repeat constructor.
    + rewrite Hp. constructor; [apply Him; reflexivity | constructor].
  - rewrite Etexts. apply flat_map_length_const.
    intros r Hr. apply (entry_lines_two df r Hf Hr).
  - intros r Hr.
    destruct (fold_place_blocks (columns df) (rows df) (report_head None) r)
      as (t1 & t2 & y & H1 & H2 & _ & Hb);
      [intros r' Hr'; apply (report_fields_lines df r' Hf Hr') | exact Hr |].
    exists t1, t2, y. auto.
Qed.

Lemma chart_skipped_and_entries_listed_witness :
  exists p,
    create_report_pdf sixteen_entries None = Some p /\
    List.length (flat_map entry_texts (pages p)) = 32%nat.
Proof.
  destruct (proj2 (proj2 chart_skipped_and_entries_listed) sixteen_entries) as
    (p & E & _ & _ & Hlen & _).
  - split.
    + intros c Hc. simpl in Hc.
      repeat (destruct Hc as [<- | Hc]; [reflexivity|]). destruct Hc.
    + unfold sixteen_entries. simpl. repeat constructor.
  - exists p. split; [exact E|]. rewrite Hlen. reflexivity.
Defined.

(** C7, as stated, fails for a frame without a reason column that has a row:
    the chart function returns [None], and the report is not built either,
    because the second line of the entry subscripts the missing column. *)
Lemma no_report_without_reason_column :
  empty no_reason_frame = false /\
  mem "Reason for Feedback" (columns no_reason_frame) = false /\
  create_reason_chart no_reason_frame = Some None /\
  create_report_pdf no_reason_frame None = None /\
  ~ (exists chart_image p,
       create_reason_chart no_reason_frame = Some chart_image /\
       create_report_pdf no_reason_frame chart_image = Some p).
Proof.
  repeat split. intros (image & p & Ei & E).
  vm_compute in Ei. injection Ei as <-. vm_compute in E. discriminate.
Qed.

(** * Further properties of the script *)

Import Derived.

(** The entry lines of a report that is built are those of its rows. *)
Lemma report_texts (df : DataFrame) (chart_image : option Chart) (p : pdf) :
  report_fields df ->
  create_report_pdf df chart_image = Some p ->
  flat_map entry_texts (pages p) = flat_map (entry_lines (columns df)) (rows df).
Proof.
  intros Hf E. rewrite (create_report_pdf_pages df chart_image Hf) in E.
  injection E as <-. cbn [pages]. rewrite fold_place_texts.
  destruct (report_head_pages chart_image) as (ops & Hp & _ & _ & _ & _ & Htx & _).
  rewrite Hp. simpl. now rewrite app_nil_r, Htx.
Qed.

(** ** The check of the required fields *)

(** A submission is written to the file exactly when name, product and reason
    are all filled in: nothing else about the form (contact, weight, date)
    can keep it out, and nothing can let an incomplete one in.  When it is
    written, the run shows the confirmation and no warning. *)
Theorem submission_saved_iff_filled :
  forall (df : DataFrame) (fs : store) (f : Form),
    ((exists path content,
         In (FileWritten path content) (snd (save_entry df fs f))) <->
     required_filled f) /\
    (required_filled f <->
     forall msg, ~ In (StWarning msg) (snd (save_entry df fs f))).
Proof.
  intros df fs f.
  assert (Hdec : required_filled f \/
                 (form_name f = "" \/ form_product f = "" \/ form_reason f = "")).
  { unfold required_filled.
    destruct (form_name f); [right; now left|].
    destruct (form_product f); [right; right; now left|].
    destruct (form_reason f); [right; right; now right|].
    left. repeat split; discriminate. }
  split; split.
  - intros (path & content & Hin). destruct Hdec as [H|H]; [exact H|].
    rewrite save_entry_rejected in Hin by exact H.
    destruct Hin as [Hin|[]]. discriminate.
  - intros H. rewrite save_entry_accepted by exact H. simpl.
    eexists. eexists. left. reflexivity.
  - intros H msg. rewrite save_entry_accepted by exact H. simpl.
    intros [Hin|[Hin|[]]]; discriminate.
  - intros H. destruct Hdec as [Hf|Hf]; [exact Hf|].
    exfalso. apply (H "Please fill in Name, Product, and Reason.").
    rewrite save_entry_rejected by exact Hf. now left.
Qed.

(** ** The date range of a report *)

Lemma date_leb_trans (a b c : date) :
  date_leb a b = true -> date_leb b c = true -> date_leb a c = true.
Proof. destruct a, b, c; intros H1 H2; date_bools; lia. Qed.

(** With [start <= end], the handler shows the warning about an empty range,
    and nothing else, exactly when no row of the frame has its date in the
    range. *)
Theorem empty_range_gives_warning :
  forall (df : DataFrame) (j : nat) (start_date end_date : date)
         (include_chart : bool),
    index_of "Date" (columns df) = Some j ->
    date_leb start_date end_date = true ->
    ((forall r, In r (rows df) ->
                in_range start_date end_date (nth j r VNaN) = false) <->
     generate_report df start_date end_date include_chart =
       [StWarning "No entries found for the selected date range."]).
Proof.
  intros df j s e c Hj Hle.
  unfold generate_report, loc_between.
  rewrite (date_leb_not_ltb _ _ Hle), Hj.
  set (keep := fun r : list cell => in_range s e (nth j r VNaN)).
  assert (Hcols : columns df <> []).
  { intros E. rewrite E in Hj. discriminate. }
  unfold empty. cbn [rows columns].
  destruct (filter keep (rows df)) as [|r0 kept] eqn:Ef.
  - split; [reflexivity|]. intros _ r Hr.
    destruct (keep r) eqn:Ek; [|exact Ek].
    assert (Hin : In r (filter keep (rows df))) by (apply filter_In; auto).
    rewrite Ef in Hin. destruct Hin.
  - split.
    + intros H. assert (Hin : In r0 (filter keep (rows df))) by (rewrite Ef; now left).
      apply filter_In in Hin. destruct Hin as [Hin Hk].
      unfold keep in Hk. rewrite (H r0 Hin) in Hk. discriminate.
    + destruct (columns df) as [|c0 cols]; [congruence|].
      destruct (if c then _ else _) as [image|]; [|discriminate].
      destruct (create_report_pdf _ _); discriminate.
Qed.

Lemma empty_range_gives_warning_witness :
  generate_report (mkDF COLUMNS [ann_row]) (mkDate 2024 2 1) (mkDate 2024 2 29) true =
    [StWarning "No entries found for the selected date range."].
Proof.
  apply (empty_range_gives_warning (mkDF COLUMNS [ann_row]) 0%nat
           (mkDate 2024 2 1) (mkDate 2024 2 29) true eq_refl eq_refl).
  intros r [<- | []]. reflexivity.
Defined.

(** A wider range never drops an entry: every row a report on [start, end]
    covers is covered by a report on any range that contains it. *)
Theorem wider_range_keeps_rows :
  forall (df fd fd' : DataFrame) (start_date end_date start' end' : date),
    date_leb start' start_date = true ->
    date_leb end_date end' = true ->
    loc_between df "Date" start_date end_date = Some fd ->
    loc_between df "Date" start' end' = Some fd' ->
    forall r, In r (rows fd) -> In r (rows fd').
Proof.
  intros df fd fd' s e s' e' Hs He. unfold loc_between.
  destruct (index_of "Date" (columns df)) as [j|]; [|discriminate].
  intros [= <-] [= <-] r. cbn [rows]. rewrite !filter_In.
  intros [Hin Hr]. split; [exact Hin|].
  apply in_range_iff in Hr. destruct Hr as (d & Ed & H1 & H2).
  apply in_range_iff. exists d. split; [exact Ed|].
  split; [exact (date_leb_trans _ _ _ Hs H1) | exact (date_leb_trans _ _ _ H2 He)].
Qed.

Lemma wider_range_keeps_rows_witness :
  loc_between (mkDF COLUMNS [ann_row]) "Date" (mkDate 2024 1 1) (mkDate 2024 1 31)
    = Some (mkDF COLUMNS [ann_row]) /\
  In ann_row (rows (mkDF COLUMNS [ann_row])).
Proof.
  split; [reflexivity|].
  apply (wider_range_keeps_rows (mkDF COLUMNS [ann_row])
           (mkDF COLUMNS [ann_row]) (mkDF COLUMNS [ann_row])
           (mkDate 2024 1 15) (mkDate 2024 1 15) (mkDate 2024 1 1) (mkDate 2024 1 31)
           eq_refl eq_refl eq_refl eq_refl).
  now left.
Defined.

(** ** Columns the report needs, and the one it can do without *)

Lemma get_absent (cols : list string) (row : list cell) (c : string) :
  mem c cols = false -> get cols row c = None.
Proof. intros H. unfold get. now rewrite (mem_false_index_of _ _ H). Qed.

(** A frame with at least one row that lacks one of the five columns the
    entry lines subscript is not reported on: the builder stops on the first
    row with the lookup error, with or without a chart. *)
Theorem missing_column_stops_report :
  forall (df : DataFrame) (chart_image : option Chart) (c : string)
         (r : list cell) (rest : list (list cell)),
    rows df = r :: rest ->
    In c ["Date"; "Customer Name"; "Product"; "Weight (grams)";
          "Reason for Feedback"] ->
    mem c (columns df) = false ->
    create_report_pdf df chart_image = None.
Proof.
  intros df chart c r rest Hr Hc Hm.
  unfold create_report_pdf. rewrite Hr. cbn [draw_entries].
  unfold draw_entry. destruct (page_break (report_head chart)) as [cv y].
  assert (Hl : line1 (columns df) r = None \/ line2 (columns df) r = None).
  { unfold line1, line2. simpl in Hc.
    destruct Hc as [<-|[<-|[<-|[<-|[<-|[]]]]]]; rewrite (get_absent _ r _ Hm).
    - now left.
    - left. now destruct (get (columns df) r "Date").
    - now right.
    - right. now destruct (get (columns df) r "Product").
    - right. destruct (get (columns df) r "Product"); [|reflexivity].
      now destruct (get (columns df) r "Weight (grams)"). }
  destruct Hl as [-> | ->]; [reflexivity|].
  now destruct (line1 (columns df) r).
Qed.

Lemma missing_column_stops_report_witness :
  create_report_pdf no_reason_frame None = None.
Proof.
  apply (missing_column_stops_report no_reason_frame None "Reason for Feedback"
           _ _ eq_refl).
  - simpl. tauto.
  - reflexivity.
Defined.

(** The contact column is the one the report can do without: for a frame
    that has the five other columns but no "Contact Number", the report is
    built and the first line of every entry is drawn with "N/A" for the
    contact. *)
Theorem missing_contact_prints_na :
  forall (df : DataFrame) (chart_image : option Chart),
    report_fields df ->
    mem "Contact Number" (columns df) = false ->
    exists p,
      create_report_pdf df chart_image = Some p /\
      forall r, In r (rows df) ->
        exists d n,
          get (columns df) r "Date" = Some d /\
          get (columns df) r "Customer Name" = Some n /\
          In ("Date: " ++ str d ++ " | Name: " ++ str n ++ " | Contact: N/A")
             (flat_map entry_texts (pages p)).
Proof.
  intros df chart Hf Hm.
  eexists. split; [apply create_report_pdf_pages; exact Hf|]. cbn [pages].
  intros r Hr.
  destruct (report_fields_lines df r Hf Hr) as (t1 & t2 & H1 & H2).
  unfold line1 in H1.
  destruct (get (columns df) r "Date") as [d|] eqn:Ed; [|discriminate].
  destruct (get (columns df) r "Customer Name") as [n|] eqn:En; [|discriminate].
  exists d, n. split; [reflexivity|]. split; [reflexivity|].
  rewrite fold_place_texts.
  apply in_or_app. right. apply in_flat_map. exists r. split; [exact Hr|].
  unfold entry_lines, line1. rewrite Ed, En, H2. left.
  unfold get_default. now rewrite (get_absent _ r _ Hm).
Qed.

Lemma missing_contact_prints_na_witness :
  exists p,
    create_report_pdf no_contact_frame None = Some p /\
    In "Date: 2024-01-15 00:00:00 | Name: Ann | Contact: N/A"
       (flat_map entry_texts (pages p)).
Proof.
  destruct (missing_contact_prints_na no_contact_frame None) as (p & E & H).
  - split.
    + intros c Hc. simpl in Hc.
      repeat (destruct Hc as [<- | Hc]; [reflexivity|]). destruct Hc.
    + unfold no_contact_frame. simpl. repeat constructor.
  - reflexivity.
  - exists p. split; [exact E|].
    destruct (H _ (or_introl eq_refl)) as (d & n & Ed & En & Hin).
    injection Ed as <-. injection En as <-. exact Hin.
Defined.

(** ** The chart on the first page *)

Lemma images_app_last (ps : list page) (pg : page) :
  images (ps ++ [pg]) = (images ps ++ filter is_image pg)%list.
Proof. unfold images. apply flat_map_app_last. Qed.

Lemma place_images (c : canvas) (y : Z) (t1 t2 : string) :
  images (pages_so_far (fst (place (c, y) t1 t2))) = images (pages_so_far c).
Proof.
  destruct (place_pages c y t1 t2) as [[_ ->] | [_ ->]]; unfold pages_so_far;
    rewrite !images_app_last, ?filter_app; simpl; now rewrite ?app_nil_r.
Qed.

Lemma place_first_page (c : canvas) (y : Z) (t1 t2 : string) (head : page) :
  (exists more rest, pages_so_far c = (head ++ more) :: rest)%list ->
  (exists more rest,
      pages_so_far (fst (place (c, y) t1 t2)) = (head ++ more) :: rest)%list.
Proof.
  intros (more & rest & E).
  destruct (place_pages c y t1 t2) as [[_ ->] | [_ ->]].
  - rewrite E. exists more, (rest ++ [continued_header ++
                                     entry_block t1 t2 (first_line_at y)])%list.
    reflexivity.
  - unfold pages_so_far in E. destruct (finished c) as [|p0 fin]; simpl in *.
    + injection E as E _. rewrite E.
      exists (more ++ entry_block t1 t2 (first_line_at y))%list, [].
      now rewrite <- app_assoc.
    + injection E as -> E.
      exists more, (fin ++ [current c ++ entry_block t1 t2 (first_line_at y)])%list.
      reflexivity.
Qed.

Lemma report_with_chart_pages :
  forall (df : DataFrame) (image : Chart),
    report_fields df ->
    exists p more rest,
      create_report_pdf df (Some image) = Some p /\
      pages p = (chart_page_head image ++ more)%list :: rest /\
      images (pages p) =
        [DrawInlineImage image (inches 100) (height - inches 100 - inches 350)
                         (inches 650) (inches 325)] /\
      images rest = [].
Proof.
  intros df image Hf.
  set (final := fold_left (place_row (columns df)) (rows df)
                          (report_head (Some image))).
  assert (Him : images (pages_so_far (fst final)) =
                [DrawInlineImage image (inches 100) (height - inches 100 - inches 350)
                                 (inches 650) (inches 325)]).
  { apply (fold_place_invariant (columns df)
             (fun st => images (pages_so_far (fst st)) =
                [DrawInlineImage image (inches 100)
                   (height - inches 100 - inches 350) (inches 650) (inches 325)]));
      [|reflexivity].
    intros [c y] t1 t2 H. rewrite place_images. exact H. }
  assert (Hhd : exists more rest,
             pages_so_far (fst final) = (chart_page_head image ++ more)%list :: rest).
  { apply (fold_place_invariant (columns df)
             (fun st => exists more rest,
                pages_so_far (fst st) = (chart_page_head image ++ more)%list :: rest)).
    - intros [c y] t1 t2 H. apply place_first_page. exact H.
    - exists [], []. reflexivity. }
  destruct Hhd as (more & rest & E).
  exists (mkPdf "Customer Feedback Report" (pages_so_far (fst final))), more, rest.
  split; [apply create_report_pdf_pages; exact Hf|]. cbn [pages].
  split; [exact E|]. split; [exact Him|].
  rewrite E in Him. unfold images in Him. cbn [flat_map] in Him.
  rewrite filter_app in Him. simpl in Him. injection Him as Him.
  apply app_eq_nil in Him. destruct Him as [_ Him]. exact Him.
Qed.

(** With a chart image the report shows it once: the first page starts with
    the title, the image in its box and the section header, no other page
    has an image, and the entries are all listed, in order, as without a
    chart. *)
Theorem chart_is_drawn_once_on_first_page :
  forall (df : DataFrame) (image : Chart),
    report_fields df ->
    exists p more rest,
      create_report_pdf df (Some image) = Some p /\
      pages p = (chart_page_head image ++ more)%list :: rest /\
      images (pages p) =
        [DrawInlineImage image (inches 100) (height - inches 100 - inches 350)
                         (inches 650) (inches 325)] /\
      images rest = [] /\
      flat_map entry_texts (pages p) =
        flat_map (entry_lines (columns df)) (rows df).
Proof.
  intros df image Hf.
  destruct (report_with_chart_pages df image Hf)
    as (p & more & rest & Ep & Epages & Eimg & Erest).
  exists p, more, rest.
  split; [exact Ep|]. split; [exact Epages|]. split; [exact Eimg|].
  split; [exact Erest|].
  exact (report_texts df (Some image) p Hf Ep).
Qed.

Lemma chart_is_drawn_once_on_first_page_witness :
  exists p,
    create_report_pdf sixteen_entries
      (Some (mkChart "t" "x" "y" [(VStr "VA Problem", 16%nat)])) = Some p /\
    List.length (images (pages p)) = 1%nat.
Proof.
  destruct (chart_is_drawn_once_on_first_page sixteen_entries
              (mkChart "t" "x" "y" [(VStr "VA Problem", 16%nat)]))
    as (p & more & rest & E & _ & Him & _).
  - split.
    + intros c Hc. simpl in Hc.
      repeat (destruct Hc as [<- | Hc]; [reflexivity|]). destruct Hc.
    + unfold sixteen_entries. simpl. repeat constructor.
  - exists p. split; [exact E|]. rewrite Him. reflexivity.
Defined.

(** ** The number of pages *)

Lemma extra_pages_step (n k : Z) : extra_pages (n - 1) (k - 1) = extra_pages n k.
Proof.
  unfold extra_pages.
  destruct (Z.leb_spec (n - 1) (k - 1)), (Z.leb_spec n k); try lia.
  f_equal. lia.
Qed.

Lemma extra_pages_break (n : Z) :
  1 <= n -> extra_pages n 0 = 1 + extra_pages (n - 1) 15.
Proof.
  intros H. unfold extra_pages.
  destruct (Z.leb_spec n 0); [lia|].
  destruct (Z.leb_spec (n - 1) 15).
  - assert ((n - 0 + 15) / 16 = 1); [|lia].
    symmetry. apply (Z.div_unique _ 16 1 (n - 1)); lia.
  - replace (n - 0 + 15) with ((n - 1 - 15 + 15) + 1 * 16) by lia.
    rewrite Z.div_add by lia. lia.
Qed.

Lemma fold_place_pages_exact (cols : list string) (rs : list (list cell)) :
  forall c y,
    (forall r, In r rs ->
               exists t1 t2, line1 cols r = Some t1 /\ line2 cols r = Some t2) ->
    Z.of_nat (List.length (pages_so_far (fst (fold_left (place_row cols) rs (c, y))))) =
    Z.of_nat (List.length (pages_so_far c)) +
    extra_pages (Z.of_nat (List.length rs)) (capacity y).
Proof.
  induction rs as [|r rs IH]; intros c y Hl.
  - simpl. unfold extra_pages. pose proof (capacity_nonneg y).
    destruct (Z.leb_spec 0 (capacity y)); lia.
  - destruct (Hl r (or_introl eq_refl)) as (t1 & t2 & H1 & H2).
    assert (Hl' : forall r', In r' rs ->
              exists t1 t2, line1 cols r' = Some t1 /\ line2 cols r' = Some t2).
    { intros r' Hr'. apply Hl. now right. }
    cbn [fold_left]. unfold place_row at 2. rewrite H1, H2.
    pose proof (place_page_count c y t1 t2) as Hn.
    pose proof (place_cursor (c, y) t1 t2) as Hy. cbn [snd] in Hy.
    destruct (place (c, y) t1 t2) as [c1 y1] eqn:E. cbn [fst snd] in *.
    rewrite (IH c1 y1 Hl'), Hn. subst y1. rewrite length_cons.
    replace (Z.of_nat (S (List.length rs))) with (Z.of_nat (List.length rs) + 1) by lia.
    unfold first_line_at.
    destruct (Z.ltb_spec y (inches 150)) as [Hlow|Hhigh].
    + assert (Hc0 : capacity y = 0).
      { unfold capacity. destruct (Z.ltb_spec y (inches 150)); [reflexivity | lia]. }
      rewrite Hc0, (extra_pages_break (Z.of_nat (List.length rs) + 1)) by lia.
      replace (capacity (height - inches 100 - inches 25 - inches 55)) with 15
        by reflexivity.
      replace (Z.of_nat (List.length rs) + 1 - 1) with (Z.of_nat (List.length rs))
        by lia.
      lia.
    + rewrite (capacity_step y Hhigh).
      rewrite <- (extra_pages_step (Z.of_nat (List.length rs) + 1) (capacity y)).
      replace (Z.of_nat (List.length rs) + 1 - 1) with (Z.of_nat (List.length rs))
        by lia.
      lia.
Qed.

(** The number of pages of a report: one, plus one for every sixteen entries
    (or part of sixteen) beyond the sixteen that go on the first page, eight
    when it carries a chart. *)
Theorem report_page_count :
  forall (df : DataFrame) (chart_image : option Chart),
    report_fields df ->
    exists p,
      create_report_pdf df chart_image = Some p /\
      Z.of_nat (List.length (pages p)) =
        1 + extra_pages (Z.of_nat (List.length (rows df)))
                        (match chart_image with Some _ => 8 | None => 16 end).
Proof.
  intros df chart Hf.
  eexists. split; [apply create_report_pdf_pages; exact Hf|]. cbn [pages].
  rewrite (surjective_pairing (report_head chart)).
  rewrite fold_place_pages_exact
    by (intros r Hr; apply (report_fields_lines df r Hf Hr)).
  destruct (report_head_pages chart) as (ops & Hp & _ & _ & _ & _ & _ & _ & Hy).
  rewrite Hp, Hy. destruct chart; reflexivity.
Qed.

Lemma report_page_count_witness :
  exists p,
    create_report_pdf sixteen_entries None = Some p /\
    Z.of_nat (List.length (pages p)) = 1.
Proof.
  destruct (report_page_count sixteen_entries None) as (p & E & H).
  - split.
    + intros c Hc. simpl in Hc.
      repeat (destruct Hc as [<- | Hc]; [reflexivity|]). destruct Hc.
    + unfold sixteen_entries. simpl. repeat constructor.
  - exists p. split; [exact E|]. rewrite H. reflexivity.
Defined.

(** ** The bars add up *)

Lemma total_insert_by (le : nat -> nat -> bool) (x : cell * nat) (l : counts) :
  total (insert_by le x l) = (snd x + total l)%nat.
Proof.
  induction l as [|y l IH]; simpl; [reflexivity|].
  destruct (le (snd x) (snd y)); simpl; [reflexivity|]. rewrite IH. lia.
Qed.

Lemma total_sort_by (le : nat -> nat -> bool) (l : counts) :
  total (sort_by le l) = total l.
Proof.
  induction l as [|y l IH]; simpl; [reflexivity|].
  now rewrite total_insert_by, IH.
Qed.

Lemma unique_seen_filter (x : cell) (l : list cell) :
  forall seen seen',
    (forall k, In k seen <-> k = key_of x \/ In k seen') ->
    unique seen l = unique seen' (filter (fun v => negb (same_key x v)) l).
Proof.
  induction l as [|v l IH]; intros seen seen' Hs; simpl; [reflexivity|].
  destruct (same_key x v) eqn:Ex; simpl.
  - apply same_key_true in Ex.
    destruct (in_dec key_eq_dec (key_of v) seen) as [Hin|Hout].
    + apply IH. exact Hs.
    + exfalso. apply Hout. apply Hs. left. now symmetry.
  - assert (Hne : key_of x <> key_of v).
    { intros E. apply same_key_true in E. congruence. }
    destruct (in_dec key_eq_dec (key_of v) seen) as [Hin|Hout],
             (in_dec key_eq_dec (key_of v) seen') as [Hin'|Hout'].
    + apply IH. exact Hs.
    + exfalso. apply Hs in Hin. destruct Hin as [E|Hin]; [now apply Hne|contradiction].
    + exfalso. apply Hout. apply Hs. now right.
    + f_equal. apply IH. intros k. simpl. rewrite Hs. tauto.
Qed.

Lemma count_cons (v x : cell) (l : list cell) :
  count v (x :: l) = ((if same_key v x then 1 else 0) + count v l)%nat.
Proof. unfold count. simpl. destruct (same_key v x); reflexivity. Qed.

Lemma same_key_sym (a b : cell) : same_key a b = same_key b a.
Proof.
  unfold same_key.
  destruct (key_eq_dec (key_of a) (key_of b)), (key_eq_dec (key_of b) (key_of a));
    congruence.
Qed.

Lemma count_filter_other (v x : cell) (l : list cell) :
  same_key x v = false ->
  count v (filter (fun w => negb (same_key x w)) l) = count v l.
Proof.
  intros Hx. induction l as [|w l IH]; simpl; [reflexivity|].
  destruct (same_key x w) eqn:Ew; simpl; rewrite !count_cons, ?IH.
  - assert (same_key v w = false).
    { destruct (same_key v w) eqn:Evw; [|reflexivity].
      apply same_key_true in Ew. apply same_key_true in Evw.
      assert (E : same_key x v = true) by (apply same_key_true; congruence).
      congruence. }
    rewrite H. reflexivity.
  - reflexivity.
Qed.

(** The counts of the distinct values of a list add up to its length. *)
Lemma total_counts (n : nat) :
  forall l, (List.length l <= n)%nat ->
    total (map (fun v => (v, count v l)) (unique [] l)) = List.length l.
Proof.
  induction n as [|n IH]; intros l Hn.
  - destruct l; [reflexivity | simpl in Hn; lia].
  - destruct l as [|x l]; [reflexivity|].
    cbn [unique]. destruct (in_dec key_eq_dec (key_of x) []) as [[]|_].
    cbn [map total fold_right snd].
    rewrite (unique_seen_filter x l [key_of x] [])
      by (intros k; simpl; intuition congruence).
    set (others := filter (fun v => negb (same_key x v)) l).
    assert (Hmap : map (fun v => (v, count v (x :: l))) (unique [] others) =
                   map (fun v => (v, count v others)) (unique [] others)).
    { apply map_ext_in. intros v Hv. f_equal.
      apply unique_in in Hv. destruct Hv as [Hv _].
      apply filter_In in Hv. destruct Hv as [_ Hv].
      apply Bool.negb_true_iff in Hv.
      rewrite count_cons. rewrite (same_key_sym v x), Hv. simpl.
      symmetry. apply count_filter_other. exact Hv. }
    fold (total (map (fun v => (v, count v (x :: l))) (unique [] others))).
    rewrite Hmap, IH.
    + rewrite count_cons.
      assert (Hx : same_key x x = true) by now apply same_key_true.
      rewrite Hx. unfold count, others.
      pose proof (filter_length (same_key x) l). simpl. lia.
    + unfold others. pose proof (filter_length (same_key x) l).
      simpl in Hn. lia.
Qed.

(** The lengths of the bars add up to the number of rows that have a reason:
    every entry with a reason is counted in exactly one bar, an entry whose
    reason is missing in none.  With no reason at all there is nothing to
    plot and the chart function raises. *)
Theorem chart_bars_add_up :
  forall (df : DataFrame) (col : list cell),
    empty df = false ->
    column df "Reason for Feedback" = Some col ->
    ((forall v, In v col -> isna v = true) -> create_reason_chart df = None) /\
    ((exists v, In v col /\ isna v = false) ->
     exists chart,
       create_reason_chart df = Some (Some chart) /\
       total (bars chart) = List.length (filter (fun v => negb (isna v)) col) /\
       (0 < total (bars chart) <= List.length (rows df))%nat).
Proof.
  intros df col He Hc.
  split; [apply create_reason_chart_no_bars; assumption|].
  intros (v & Hv & Hna).
  destruct (create_reason_chart_bars df col v He Hc Hv Hna) as (bar & more & Eb & E).
  eexists. split; [exact E|]. cbn [bars]. rewrite <- Eb.
  unfold sort_values, value_counts. rewrite !total_sort_by.
  rewrite (total_counts _ _ (Nat.le_refl _)).
  split; [reflexivity|].
  pose proof (filter_length (fun v => negb (isna v)) col) as Hlen.
  assert (Hin : In v (filter (fun v => negb (isna v)) col)).
  { apply filter_In. split; [exact Hv | now rewrite Hna]. }
  assert (Hcol : List.length col = List.length (rows df)).
  { unfold column in Hc. destruct (index_of _ _); [|discriminate].
    injection Hc as <-. apply length_map. }
  destruct (filter (fun v => negb (isna v)) col); [destruct Hin|].
  simpl in *. lia.
Qed.

Lemma chart_bars_add_up_witness :
  exists chart,
    create_reason_chart (mkDF COLUMNS [ann_row; ann_row]) = Some (Some chart) /\
    total (bars chart) = 2%nat.
Proof.
  destruct (chart_bars_add_up (mkDF COLUMNS [ann_row; ann_row])
              [VStr "VA Problem"; VStr "VA Problem"] eq_refl eq_refl)
    as (_ & H).
  destruct H as (chart & E & Ht & _).
  - exists (VStr "VA Problem"). split; [now left | reflexivity].
  - exists chart. split; [exact E|]. rewrite Ht. reflexivity.
Defined.

(** ** Stores the form has built *)

Lemma read_csv_schema_frame (f : csv) :
  header f = COLUMNS ->
  exists d1 d2 d3 d4 d5,
    read_csv f [("Date", DString)] =
      mkDF COLUMNS
        (map (fun r => [convert DString (nth 0 r EmptyString);
                        convert d1 (nth 1 r EmptyString);
                        convert d2 (nth 2 r EmptyString);
                        convert d3 (nth 3 r EmptyString);
                        convert d4 (nth 4 r EmptyString);
                        convert d5 (nth 5 r EmptyString)]) (records f)).
Proof.
  intros H.
  destruct (read_csv_schema_rows f H) as (d1 & d2 & d3 & d4 & d5 & E).
  exists d1, d2, d3, d4, d5.
  destruct (read_csv f [("Date", DString)]) as [cols rws] eqn:Er.
  assert (Ec : cols = header f).
  { change cols with (columns (mkDF cols rws)). rewrite <- Er. reflexivity. }
  cbn [rows] in E. now rewrite Ec, E, H.
Qed.

Lemma load_data_row_count (fs : store) :
  List.length (rows (load_data fs)) = record_count fs.
Proof.
  destruct fs as [f|]; [|reflexivity].
  unfold load_data, read_csv. cbn [rows record_count]. apply length_map.
Qed.

Lemma timestamp_date_parts (d : date) :
  timestamp_date d = true ->
  valid_date d = true /\ (1678 <= year d)%N /\ (year d <= 2261)%N.
Proof.
  unfold timestamp_date. rewrite !Bool.andb_true_iff, !N.leb_le. tauto.
Qed.

(** The file after a run, for a store with the six columns. *)
Lemma script_store_schema (fs : store) (a : action) :
  has_schema fs ->
  fst (script fs a) =
    match a with
    | SaveEntry f =>
        if saves a
        then Some (mkCsv COLUMNS (map (map csv_field) (rows (load_data fs)) ++
                                  [entry_fields f]))
        else fs
    | _ => fs
    end.
Proof.
  intros Hs. rewrite script_store. destruct a as [|f|s e c]; try reflexivity.
  unfold saves, save_entry.
  destruct (falsy (form_name f) || falsy (form_product f) || falsy (form_reason f));
    [reflexivity|].
  cbn [fst snd negb]. f_equal.
  apply to_csv_new_entry; [apply load_data_columns; exact Hs|].
  apply load_data_row_length.
Qed.

Lemma script_keeps_shape :
  forall (fs : store) (a : action),
    has_schema fs ->
    form_dates fs ->
    (forall f, a = SaveEntry f -> timestamp_date (form_date f) = true) ->
    has_schema (fst (script fs a)) /\ form_dates (fst (script fs a)).
Proof.
  intros fs a Hs Hd Ha. rewrite (script_store_schema fs a Hs).
  destruct a as [|f|s e c]; [split; assumption | | split; assumption].
  destruct (saves (SaveEntry f)); [|split; assumption].
  split; [reflexivity|].
  cbn [form_dates records]. apply Forall_app. split.
  + destruct fs as [f0|]; [|constructor].
    destruct (read_csv_schema_frame f0 Hs) as (d1 & d2 & d3 & d4 & d5 & E).
    unfold load_data. rewrite E. cbn [rows]. rewrite map_map.
    cbn [form_dates] in Hd. rewrite Forall_forall in Hd.
    apply Forall_forall. intros rec' Hin. apply in_map_iff in Hin.
    destruct Hin as (rec & <- & Hrec).
    destruct (Hd rec Hrec) as (d & Hdate & Etext).
    exists d. split; [exact Hdate|]. cbn [map nth].
    unfold convert. rewrite Etext, strftime_ymd_not_na. reflexivity.
  + constructor; [|constructor].
    exists (form_date f). split; [apply Ha; reflexivity | reflexivity].
Qed.

(** Every run keeps the file in the shape the form gives it: the six columns
    as header, every Date field the [YYYY-MM-DD] text of a date; the number
    of records grows by one on an accepted submission and stays as it is on
    every other run. *)
Theorem runs_keep_the_store_in_shape :
  forall (fs : store) (a : action),
    has_schema fs ->
    form_dates fs ->
    (forall f, a = SaveEntry f -> timestamp_date (form_date f) = true) ->
    has_schema (fst (script fs a)) /\
    form_dates (fst (script fs a)) /\
    record_count (fst (script fs a)) =
      (record_count fs + if saves a then 1 else 0)%nat.
Proof.
  intros fs a Hs Hd Ha.
  destruct (script_keeps_shape fs a Hs Hd Ha) as [Hs' Hd'].
  split; [exact Hs'|]. split; [exact Hd'|].
  rewrite (script_store_schema fs a Hs).
  destruct a as [|f|s e c]; cbn [saves]; try lia.
  destruct (negb _); [|lia].
  cbn [record_count records].
  rewrite length_app, length_map, load_data_row_count. simpl. lia.
Qed.

Lemma runs_keep_the_store_in_shape_witness :
  record_count (fst (script one_entry_store (SaveEntry bob_form))) = 2%nat.
Proof.
  apply (runs_keep_the_store_in_shape one_entry_store (SaveEntry bob_form)).
  - reflexivity.
  - repeat constructor. exists (mkDate 2024 1 15). split; reflexivity.
  - intros f [= <-]. reflexivity.
Defined.

Lemma mapM_each {A B : Type} (g : A -> option B) (Q : A -> B -> Prop) (l : list A) :
  (forall x, In x l -> exists y, g x = Some y /\ Q x y) ->
  exists ys, mapM g l = Some ys /\ Forall2 Q l ys.
Proof.
  induction l as [|x l IH]; intros H; simpl.
  - exists []. split; [reflexivity | constructor].
  - destruct (H x (or_introl eq_refl)) as (y & -> & Hy).
    destruct IH as (ys & -> & Hys); [intros x' Hx'; apply H; now right|].
    exists (y :: ys). split; [reflexivity | now constructor].
Qed.

Lemma mapM_map {A B C : Type} (g : B -> option C) (h : A -> B) (l : list A) :
  mapM g (map h l) = mapM (fun x => g (h x)) l.
Proof. induction l as [|x l IH]; simpl; [reflexivity | now rewrite IH]. Qed.

(** With a date in every row, and a row, the start date has its default. *)
Lemma default_start_date_dated (converted : list (list cell)) :
  Forall (fun r => exists d, nth 0 r VNaN = VDate (Some d)) converted ->
  converted <> [] ->
  exists m, default_start_date (mkDF COLUMNS converted) = Some m.
Proof.
  intros H Hne. destruct converted as [|r rest]; [congruence|].
  inversion H as [|? ? (d & Ed) _]; subst.
  unfold default_start_date, column. cbn [columns rows].
  change (index_of "Date" COLUMNS) with (Some 0%nat).
  apply (min_date_some _ d). left. exact Ed.
Qed.

Lemma Forall2_Forall_r {A B : Type} (P : A -> B -> Prop) (Q : B -> Prop)
    (l : list A) (l' : list B) :
  (forall a b, P a b -> Q b) -> Forall2 P l l' -> Forall Q l'.
Proof. intros H. induction 1; constructor; eauto. Qed.

Lemma form_store_converts :
  forall (fs : store),
    has_schema fs ->
    form_dates fs ->
    exists converted,
      to_datetime_column (load_data fs) "Date" = Some (mkDF COLUMNS converted) /\
      Forall2 (fun rec r =>
                 List.length r = 6%nat /\
                 exists d, timestamp_date d = true /\
                           nth 0 rec EmptyString = strftime_ymd d /\
                           nth 0 r VNaN = VDate (Some d))
              (match fs with Some f => records f | None => [] end) converted.
Proof.
  intros fs Hs Hd.
  destruct fs as [f|]; [|exists []; split; [reflexivity | constructor]].
    destruct (read_csv_schema_frame f Hs) as (d1 & d2 & d3 & d4 & d5 & E).
    unfold load_data. rewrite E. unfold to_datetime_column.
    cbn [columns rows]. change (index_of "Date" COLUMNS) with (Some 0%nat).
    cbv iota.
    set (g := fun r : list string => _).
    set (conv := fun r : list cell => _).
    cbn [form_dates] in Hd. rewrite Forall_forall in Hd.
    destruct (mapM_each (fun rec => conv (g rec))
                (fun rec r =>
                   List.length r = 6%nat /\
                   exists d, timestamp_date d = true /\
                             nth 0 rec EmptyString = strftime_ymd d /\
                             nth 0 r VNaN = VDate (Some d))
                (records f)) as (ys & Eys & Hys).
    - intros rec Hrec. destruct (Hd rec Hrec) as (d & Hdate & Etext).
      destruct (timestamp_date_parts d Hdate) as (Hv & Hlo & Hhi).
      unfold conv, g. cbn [nth]. rewrite Etext.
      assert (Ecv : convert DString (strftime_ymd d) = VStr (strftime_ymd d))
        by (unfold convert; now rewrite strftime_ymd_not_na).
      rewrite Ecv.
      rewrite (to_datetime_strftime d Hv Hlo Hhi). cbn [option_map replace_nth].
      eexists. split; [reflexivity|]. split; [reflexivity|].
      exists d. split; [exact Hdate|]. split; [reflexivity | reflexivity].
    - exists ys. split; [|exact Hys].
      assert (Em : mapM conv (map g (records f)) = Some ys)
        by (rewrite mapM_map; exact Eys).
      rewrite Em. reflexivity.
Qed.

(** The dates of such a store convert: [to_datetime] does not raise on the
    frame loaded from it, every row comes out with six cells and, in the Date
    column, the date whose text the file holds. *)
Theorem form_dates_convert :
  forall (fs : store),
    has_schema fs ->
    form_dates fs ->
    exists converted,
      to_datetime_column (load_data fs) "Date" = Some (mkDF COLUMNS converted) /\
      Forall2 (fun rec r =>
                 List.length r = 6%nat /\
                 exists d, timestamp_date d = true /\
                           nth 0 rec EmptyString = strftime_ymd d /\
                           nth 0 r VNaN = VDate (Some d))
              (match fs with Some f => records f | None => [] end) converted /\
      ~ In Uncaught (snd (script fs Browse)).
Proof.
  intros fs Hs Hd.
  destruct (form_store_converts fs Hs Hd) as (converted & Ec & Hc).
  exists converted. split; [exact Ec|]. split; [exact Hc|].
  unfold script. cbn [app]. destruct (empty (load_data fs)) eqn:He.
  - intros [H|[]]; discriminate.
  - rewrite Ec.
    destruct (default_start_date_dated converted) as (m & ->); [| |intros []].
    + eapply Forall2_Forall_r; [|exact Hc].
      intros rec r (_ & d & _ & _ & Ed). exists d. exact Ed.
    + intros E. subst converted.
      pose proof (load_data_row_count fs) as Hn.
      destruct fs as [f|]; [|discriminate].
      cbn [record_count] in Hn. inversion Hc as [E0|]. rewrite <- E0 in Hn.
      unfold empty in He. destruct (rows (load_data (Some f))); discriminate.
Qed.

Lemma form_dates_convert_witness :
  exists converted,
    to_datetime_column (load_data one_entry_store) "Date" =
      Some (mkDF COLUMNS converted) /\
    List.length converted = 1%nat.
Proof.
  destruct (form_dates_convert one_entry_store) as (converted & E & H & _).
  - reflexivity.
  - repeat constructor. exists (mkDate 2024 1 15). split; reflexivity.
  - exists converted. split; [exact E|].
    apply Forall2_length in H. rewrite <- H. reflexivity.
Defined.

(** ** A report that is offered *)

Lemma empty_false (df : DataFrame) :
  rows df <> [] -> columns df <> [] -> empty df = false.
Proof.
  unfold empty. destruct (rows df); [congruence|].
  destruct (columns df); [congruence | reflexivity].
Qed.

Lemma report_fields_filter (df : DataFrame) (keep : list cell -> bool) :
  report_fields df -> report_fields (mkDF (columns df) (filter keep (rows df))).
Proof.
  intros [Hc Hr]. split; [exact Hc|]. cbn [rows columns].
  apply Forall_forall. intros r Hin. apply filter_In in Hin.
  rewrite Forall_forall in Hr. apply Hr. tauto.
Qed.

(** The report handler on a frame with rows in range.  With the chart box
    ticked it takes a reason among them. *)
Lemma generate_report_download (df : DataFrame) (j k : nat) (s e : date) (c : bool) :
  index_of "Date" (columns df) = Some j ->
  index_of "Reason for Feedback" (columns df) = Some k ->
  report_fields df ->
  date_leb s e = true ->
  (exists r, In r (rows df) /\ in_range s e (nth j r VNaN) = true /\
             (c = true -> isna (nth k r VNaN) = false)) ->
  exists data image filtered_df,
    loc_between df "Date" s e = Some filtered_df /\
    rows filtered_df <> [] /\
    (if c then create_reason_chart filtered_df else Some None) = Some image /\
    (c = true ->
     exists chart,
       image = Some chart /\
       bars chart =
         sort_values (value_counts (map (fun r => nth k r VNaN) (rows filtered_df)))) /\
    (c = false -> image = None) /\
    create_report_pdf filtered_df image = Some data /\
    generate_report df s e c =
      [StSuccess ("✅ PDF report generated with " ++
                  N_to_string (N.of_nat (List.length (rows filtered_df))) ++
                  " entries!");
       DownloadButton "Download PDF Report" data
         ("Report_" ++ strftime_ymd s ++ "_to_" ++ strftime_ymd e ++ ".pdf")
         "application/pdf"].
Proof.
  intros Hj Hk Hf Hle (r & Hr & Hin & Hreason).
  set (keep := fun r : list cell => in_range s e (nth j r VNaN)).
  set (fd := mkDF (columns df) (filter keep (rows df))).
  assert (Hfd : report_fields fd) by (apply report_fields_filter; exact Hf).
  assert (Hkept : In r (rows fd)) by (apply filter_In; auto).
  assert (Hne : rows fd <> []).
  { intros E. rewrite E in Hkept. destruct Hkept. }
  assert (Hcols : columns fd <> []).
  { cbn [fd columns]. intros E. rewrite E in Hj. discriminate. }
  pose proof (empty_false fd Hne Hcols) as He.
  assert (Himage : exists image,
             (if c then create_reason_chart fd else Some None) = Some image /\
             (c = true ->
              exists chart,
                image = Some chart /\
                bars chart =
                  sort_values (value_counts (map (fun r => nth k r VNaN) (rows fd)))) /\
             (c = false -> image = None)).
  { destruct c.
    - destruct (create_reason_chart_bars fd (map (fun r => nth k r VNaN) (rows fd))
                  (nth k r VNaN) He) as (bar & more & Eb & E).
      + unfold column. cbn [fd columns]. rewrite Hk. reflexivity.
      + apply in_map_iff. exists r. auto.
      + apply Hreason. reflexivity.
      + eexists. split; [exact E|]. split; [|discriminate].
        intros _. eexists. split; [reflexivity|]. cbn [bars]. now rewrite Eb.
    - exists None. split; [reflexivity|]. split; [discriminate | reflexivity]. }
  destruct Himage as (image & Eimage & Hchart & Hnone).
  pose proof (create_report_pdf_pages fd image Hfd) as Epdf.
  eexists. exists image, fd.
  split; [unfold loc_between; rewrite Hj; reflexivity|].
  split; [exact Hne|]. split; [exact Eimage|].
  split; [exact Hchart|]. split; [exact Hnone|]. split; [exact Epdf|].
  unfold generate_report, loc_between.
  rewrite (date_leb_not_ltb _ _ Hle), Hj. fold keep. fold fd.
  rewrite He, Eimage, Epdf. reflexivity.
Qed.

(** With the chart box ticked and no reason among the rows in range, the
    chart function raises and the run ends there. *)
Lemma generate_report_no_reason (df : DataFrame) (j k : nat) (s e : date) :
  index_of "Date" (columns df) = Some j ->
  index_of "Reason for Feedback" (columns df) = Some k ->
  date_leb s e = true ->
  (exists r, In r (rows df) /\ in_range s e (nth j r VNaN) = true) ->
  (forall r, In r (rows df) -> in_range s e (nth j r VNaN) = true ->
             isna (nth k r VNaN) = true) ->
  generate_report df s e true = [Uncaught].
Proof.
  intros Hj Hk Hle (r & Hr & Hin) Hall.
  set (keep := fun r : list cell => in_range s e (nth j r VNaN)).
  set (fd := mkDF (columns df) (filter keep (rows df))).
  assert (Hkept : In r (rows fd)) by (apply filter_In; auto).
  assert (Hne : rows fd <> []).
  { intros E. rewrite E in Hkept. destruct Hkept. }
  assert (Hcols : columns fd <> []).
  { cbn [fd columns]. intros E. rewrite E in Hj. discriminate. }
  pose proof (empty_false fd Hne Hcols) as He.
  unfold generate_report, loc_between.
  rewrite (date_leb_not_ltb _ _ Hle), Hj. fold keep. fold fd. rewrite He.
  rewrite (create_reason_chart_no_bars fd (map (fun r => nth k r VNaN) (rows fd)) He);
    [reflexivity | |].
  - unfold column. cbn [fd columns]. rewrite Hk. reflexivity.
  - intros v Hv. apply in_map_iff in Hv. destruct Hv as (r' & <- & Hr').
    apply filter_In in Hr'. destruct Hr' as [Hr1 Hr2]. apply Hall; assumption.
Qed.

(** With [start <= end], on a frame that has the columns of the report and
    at least one row dated within the range (one with a reason, if the chart
    box is ticked), the handler does not fail: it shows the confirmation with
    the number of rows in range and offers the document, named
    [Report_<start>_to_<end>.pdf], whose entry lines are those of the rows in
    range, in order.  The document is built with the chart of those rows when
    the box is ticked and without a chart when it is not. *)
Theorem report_is_offered_for_rows_in_range :
  forall (df : DataFrame) (j k : nat) (start_date end_date : date)
         (include_chart : bool),
    index_of "Date" (columns df) = Some j ->
    index_of "Reason for Feedback" (columns df) = Some k ->
    report_fields df ->
    date_leb start_date end_date = true ->
    (exists r, In r (rows df) /\
               in_range start_date end_date (nth j r VNaN) = true /\
               (include_chart = true -> isna (nth k r VNaN) = false)) ->
    exists data chart_image_buffer filtered_df,
      loc_between df "Date" start_date end_date = Some filtered_df /\
      rows filtered_df <> [] /\
      (if include_chart then create_reason_chart filtered_df else Some None)
        = Some chart_image_buffer /\
      (include_chart = true -> chart_image_buffer <> None) /\
      (include_chart = false -> chart_image_buffer = None) /\
      create_report_pdf filtered_df chart_image_buffer = Some data /\
      generate_report df start_date end_date include_chart =
        [StSuccess ("✅ PDF report generated with " ++
                    N_to_string (N.of_nat (List.length (rows filtered_df))) ++
                    " entries!");
         DownloadButton "Download PDF Report" data
           ("Report_" ++ strftime_ymd start_date ++ "_to_" ++
            strftime_ymd end_date ++ ".pdf")
           "application/pdf"] /\
      flat_map entry_texts (pages data) =
        flat_map (entry_lines (columns df)) (rows filtered_df).
Proof.
  intros df j k s e c Hj Hk Hf Hle Hin.
  destruct (generate_report_download df j k s e c Hj Hk Hf Hle Hin)
    as (data & image & fd & Efd & Hne & Eimage & Hchart & Hnone & Epdf & Egen).
  exists data, image, fd.
  split; [exact Efd|]. split; [exact Hne|]. split; [exact Eimage|].
  split.
  { intros Hc. destruct (Hchart Hc) as (chart & -> & _). discriminate. }
  split; [exact Hnone|]. split; [exact Epdf|].
  split; [exact Egen|].
  assert (Hfd : report_fields fd /\ columns fd = columns df).
  { unfold loc_between in Efd. rewrite Hj in Efd. injection Efd as <-.
    split; [apply report_fields_filter; exact Hf | reflexivity]. }
  destruct Hfd as [Hfd Ecols].
  rewrite <- Ecols. exact (report_texts fd _ data Hfd Epdf).
Qed.

Lemma report_is_offered_for_rows_in_range_witness :
  exists data,
    generate_report (mkDF COLUMNS [ann_row]) (mkDate 2024 1 1) (mkDate 2024 1 31)
      true =
      [StSuccess "✅ PDF report generated with 1 entries!";
       DownloadButton "Download PDF Report" data
         "Report_2024-01-01_to_2024-01-31.pdf" "application/pdf"] /\
    flat_map entry_texts (pages data) =
      ["Date: 2024-01-15 00:00:00 | Name: Ann | Contact: nan";
       "Product: Ring | Weight: 5.0g | Reason: VA Problem"].
Proof.
  destruct (report_is_offered_for_rows_in_range (mkDF COLUMNS [ann_row]) 0%nat 5%nat
              (mkDate 2024 1 1) (mkDate 2024 1 31) true eq_refl eq_refl)
    as (data & image & fd & Efd & _ & _ & _ & _ & _ & E & T).
  - split.
    + intros c Hc. simpl in Hc.
      repeat (destruct Hc as [<- | Hc]; [reflexivity|]). destruct Hc.
    + repeat constructor.
  - reflexivity.
  - exists ann_row. split; [now left|]. split; reflexivity.
  - exists data. rewrite E, T. injection Efd as <-. split; reflexivity.
Defined.

(** ** From the form to the report *)

Lemma strftime_ymd_injective (a b : date) :
  valid_date a = true -> valid_date b = true ->
  strftime_ymd a = strftime_ymd b -> a = b.
Proof.
  intros Ha Hb E. pose proof (parse_strftime a Ha) as Pa.
  rewrite E, (parse_strftime b Hb) in Pa. congruence.
Qed.


Lemma mapM_all {A B : Type} (g : A -> option B) (h : A -> B) (l : list A) :
  (forall x, In x l -> g x = Some (h x)) -> mapM g l = Some (map h l).
Proof.
  induction l as [|x l IH]; intros H; simpl; [reflexivity|].
  rewrite (H x (or_introl eq_refl)), IH; [reflexivity|].
  intros y Hy. apply H. now right.
Qed.




(** ** Entries without a date *)

Lemma mapM_nth_error {A B : Type} (g : A -> option B) (l : list A) :
  forall ys i x,
    mapM g l = Some ys -> nth_error l i = Some x ->
    exists y, nth_error ys i = Some y /\ g x = Some y.
Proof.
  induction l as [|a l IH]; intros ys i x E Hi; [destruct i; discriminate|].
  simpl in E. destruct (g a) as [b|] eqn:Ea; [|discriminate].
  destruct (mapM g l) as [bs|] eqn:El; [|discriminate].
  injection E as <-. destruct i as [|i]; simpl in *.
  - injection Hi as <-. exists b. auto.
  - apply (IH bs i x eq_refl Hi).
Qed.

(** A record whose Date field is empty (or another missing-value marker) is
    loaded with a missing date, converted to [NaT], and is in no report,
    whatever the range. *)
Theorem undated_entry_is_never_reported :
  forall (f : csv) (i : nat) (rec : list string) (df' fd : DataFrame)
         (start_date end_date : date),
    header f = COLUMNS ->
    nth_error (records f) i = Some rec ->
    is_na (nth 0 rec EmptyString) = true ->
    to_datetime_column (load_data (Some f)) "Date" = Some df' ->
    loc_between df' "Date" start_date end_date = Some fd ->
    exists row,
      nth_error (rows df') i = Some row /\
      nth 0 row VNaN = VDate None /\
      ~ In row (rows fd).
Proof.
  intros f i rec df' fd s e Hs Hi Hna Hconv Hloc.
  destruct (read_csv_schema_frame f Hs) as (d1 & d2 & d3 & d4 & d5 & E).
  unfold load_data in Hconv. rewrite E in Hconv.
  unfold to_datetime_column in Hconv. cbn [columns rows] in Hconv.
  change (index_of "Date" COLUMNS) with (Some 0%nat) in Hconv. cbv iota in Hconv.
  rewrite mapM_map in Hconv.
  destruct (mapM _ (records f)) as [ys|] eqn:Em; [|discriminate].
  injection Hconv as <-.
  destruct (mapM_nth_error _ _ ys i rec Em Hi) as (row & Hrow & Erow).
  cbn [nth] in Erow.
  assert (Ecv : convert DString (nth 0 rec EmptyString) = VNaN)
    by (unfold convert; now rewrite Hna).
  rewrite Ecv in Erow.
  cbn [to_datetime1 option_map replace_nth] in Erow. injection Erow as <-.
  eexists. split; [exact Hrow|]. split; [reflexivity|].
  unfold loc_between in Hloc. cbn [columns rows] in Hloc.
  change (index_of "Date" COLUMNS) with (Some 0%nat) in Hloc.
  injection Hloc as <-. cbn [rows]. intros Hin.
  apply filter_In in Hin. destruct Hin as [_ Hin]. discriminate.
Qed.

Lemma undated_entry_is_never_reported_witness :
  exists row,
    nth_error
      [[VDate None; VStr "Ann"; VInt 98765; VStr "Ring";
        VFloat (mkFloat false 5 0); VStr "VA Problem"]] 0 = Some row /\
    nth 0 row VNaN = VDate None.
Proof.
  destruct (undated_entry_is_never_reported
              (mkCsv COLUMNS [[""; "Ann"; "98765"; "Ring"; "5.000"; "VA Problem"]])
              0%nat [""; "Ann"; "98765"; "Ring"; "5.000"; "VA Problem"]
              (mkDF COLUMNS [[VDate None; VStr "Ann"; VInt 98765; VStr "Ring";
                              VFloat (mkFloat false 5 0); VStr "VA Problem"]])
              (mkDF COLUMNS [])
              (mkDate 2024 1 1) (mkDate 2024 12 31)
              eq_refl eq_refl eq_refl eq_refl eq_refl) as (row & Hrow & Hd & _).
  exists row. split; [exact Hrow | exact Hd].
Defined.

(** ** A file without a single date *)

Lemma min_date_undated (col : list cell) :
  Forall (fun v => dt_date v = None) col -> min_date col = None.
Proof.
  induction 1 as [|v col Hv _ IH]; [reflexivity|].
  simpl. rewrite IH. destruct v as [| | | |[d|]]; try reflexivity.
  discriminate.
Qed.

(** When no record of the file has a date, no run gets as far as the report
    button: the dates convert to [NaT], the earliest of them is [NaT], and
    taking its [date()] for the default of the start date widget raises.  A
    run that saves nothing shows just that (after the warning, if it was a
    rejected submission) and leaves the file as it was, so the report section
    is out of reach until an entry with a date is saved. *)
Theorem undated_store_stops_the_page :
  forall (f : csv) (a : action),
    header f = COLUMNS ->
    records f <> [] ->
    Forall (fun rec => is_na (nth 0 rec EmptyString) = true) (records f) ->
    saves a = false ->
    (exists df', to_datetime_column (load_data (Some f)) "Date" = Some df' /\
                 default_start_date df' = None) /\
    snd (script (Some f) a) =
      (match a with
       | SaveEntry _ => [StWarning "Please fill in Name, Product, and Reason."]
       | _ => []
       end ++ [Uncaught])%list /\
    fst (script (Some f) a) = Some f.
Proof.
  intros f a Hs Hne Hall Ha.
  assert (Hemp : empty (load_data (Some f)) = false).
  { apply empty_false.
    - intros E. pose proof (load_data_row_count (Some f)) as Hn.
      rewrite E in Hn. cbn [record_count List.length] in Hn.
      destruct (records f); [congruence | discriminate].
    - rewrite (load_data_columns (Some f) Hs). discriminate. }
  assert (Ec : to_datetime_column (load_data (Some f)) "Date" =
               Some (mkDF COLUMNS
                       (map (fun rec =>
                          [VDate None;
                           convert (infer_dtype (column_fields 1 (records f)))
                                   (nth 1 rec EmptyString);
                           convert (infer_dtype (column_fields 2 (records f)))
                                   (nth 2 rec EmptyString);
                           convert (infer_dtype (column_fields 3 (records f)))
                                   (nth 3 rec EmptyString);
                           convert (infer_dtype (column_fields 4 (records f)))
                                   (nth 4 rec EmptyString);
                           convert (infer_dtype (column_fields 5 (records f)))
                                   (nth 5 rec EmptyString)])
                          (records f)))).
  { unfold load_data. rewrite (read_csv_schema_exact f Hs).
    unfold to_datetime_column. cbn [columns rows].
    change (index_of "Date" COLUMNS) with (Some 0%nat). cbv iota.
    rewrite mapM_map. erewrite mapM_all; [reflexivity|].
    intros rec Hrec. rewrite Forall_forall in Hall.
    assert (Ecv : convert DString (nth 0 rec EmptyString) = VNaN)
      by (unfold convert; now rewrite (Hall rec Hrec)).
    cbn [nth]. rewrite Ecv. reflexivity. }
  assert (Em : default_start_date
                 (mkDF COLUMNS
                       (map (fun rec =>
                          [VDate None;
                           convert (infer_dtype (column_fields 1 (records f)))
                                   (nth 1 rec EmptyString);
                           convert (infer_dtype (column_fields 2 (records f)))
                                   (nth 2 rec EmptyString);
                           convert (infer_dtype (column_fields 3 (records f)))
                                   (nth 3 rec EmptyString);
                           convert (infer_dtype (column_fields 4 (records f)))
                                   (nth 4 rec EmptyString);
                           convert (infer_dtype (column_fields 5 (records f)))
                                   (nth 5 rec EmptyString)])
                          (records f))) = None).
  { unfold default_start_date, column. cbn [columns rows].
    change (index_of "Date" COLUMNS) with (Some 0%nat). cbv iota.
    apply min_date_undated. rewrite map_map. apply Forall_forall.
    intros v Hv. apply in_map_iff in Hv. destruct Hv as (rec & <- & _).
    reflexivity. }
  split; [eexists; split; [exact Ec | exact Em]|].
  split.
  - unfold script.
    destruct a as [|f0|s e c].
    + rewrite Hemp, Ec, Em. reflexivity.
    + unfold save_entry. unfold saves in Ha.
      apply Bool.negb_false_iff in Ha. rewrite Ha.
      rewrite Hemp, Ec, Em. reflexivity.
    + rewrite Hemp, Ec, Em. reflexivity.
  - rewrite script_store. destruct a as [|f0|s e c]; try reflexivity.
    unfold save_entry. unfold saves in Ha.
    apply Bool.negb_false_iff in Ha. rewrite Ha. reflexivity.
Qed.

Lemma undated_store_stops_the_page_witness :
  snd (script (Some (mkCsv COLUMNS
                       [[""; "Ann"; "98765"; "Ring"; "5.000"; "VA Problem"]]))
              (GenerateReport (mkDate 2024 1 1) (mkDate 2024 12 31) false)) =
    [Uncaught].
Proof.
  apply (undated_store_stops_the_page
           (mkCsv COLUMNS [[""; "Ann"; "98765"; "Ring"; "5.000"; "VA Problem"]])
           (GenerateReport (mkDate 2024 1 1) (mkDate 2024 12 31) false)).
  - reflexivity.
  - discriminate.
  - repeat constructor.
  - reflexivity.
Defined.

(** ** Saving into a file with other columns *)

Lemma mem_In (c : string) (l : list string) : mem c l = true <-> In c l.
Proof.
  unfold mem. rewrite existsb_exists. split.
  - intros (x & Hx & E). apply String.eqb_eq in E. now subst.
  - intros H. exists c. split; [exact H | apply String.eqb_refl].
Qed.

Lemma nth_map_index {A : Type} (g : string -> A) (cols : list string)
    (c : string) (j : nat) (d : A) :
  index_of c cols = Some j -> nth j (map g cols) d = g c.
Proof.
  intros H. apply index_of_nth_error in H.
  apply nth_error_nth. now rewrite nth_error_map, H.
Qed.

(** Whatever columns the file has (each name once), an accepted submission
    is saved under the six column names of the form: the file written has a header that keeps
    the columns it had and holds the six, one record more than before, and
    in its last record the submitted value under each of the six names. *)
Theorem entry_is_saved_under_its_columns :
  forall (fs : store) (f : Form),
    NoDup (columns (load_data fs)) ->
    required_filled f ->
    exists content,
      snd (fst (save_entry (load_data fs) fs f)) = Some content /\
      (forall k c, nth_error COLUMNS k = Some c ->
         exists j, index_of c (header content) = Some j /\
                   nth j (last (records content) []) EmptyString =
                   nth k (entry_fields f) EmptyString) /\
      List.length (records content) = S (record_count fs) /\
      (forall c, In c (columns (load_data fs)) -> In c (header content)).
Proof.
  intros fs f _ Hf. rewrite (save_entry_accepted _ fs f Hf). cbn [fst snd].
  eexists. split; [reflexivity|].
  unfold to_csv, concat. cbn [header records columns rows].
  set (old := columns (load_data fs)).
  set (cols := (old ++ filter (fun c => negb (mem c old)) (columns (new_entry f)))%list).
  split; [|split].
  - intros k c Hk.
    assert (Hc : In c COLUMNS) by (apply nth_error_In in Hk; exact Hk).
    assert (Hin : In c cols).
    { unfold cols. apply in_or_app.
      destruct (mem c old) eqn:Em; [left; now apply mem_In|].
      right. apply filter_In. split; [exact Hc | now rewrite Em]. }
    destruct (mem_index_of c cols (proj2 (mem_In c cols) Hin)) as (j & Hj).
    exists j. split; [exact Hj|].
    rewrite map_app, map_map. cbn [new_entry rows map].
    rewrite last_last. unfold reindex. rewrite map_map.
    rewrite (nth_map_index _ cols c j EmptyString Hj).
    do 6 (destruct k as [|k]; [injection Hk as <-; reflexivity|]).
    destruct k; discriminate.
  - rewrite length_map, length_app, !length_map. cbn [new_entry rows List.length].
    rewrite load_data_row_count. lia.
  - intros c Hc. unfold cols. apply in_or_app. now left.
Qed.

Lemma entry_is_saved_under_its_columns_witness :
  exists content,
    snd (fst (save_entry (load_data foreign_store) foreign_store ann_form)) =
      Some content /\
    header content =
      ["Customer Name"; "Notes"; "Date"; "Contact Number"; "Product";
       "Weight (grams)"; "Reason for Feedback"] /\
    records content =
      [["Zed"; "called twice"; ""; ""; ""; ""; ""];
       ["Ann"; ""; "2024-01-15"; ""; "Ring"; "5.000"; "VA Problem"]].
Proof.
  destruct (entry_is_saved_under_its_columns foreign_store ann_form)
    as (content & E & _).
  - repeat constructor; simpl; intuition discriminate.
  - unfold required_filled; simpl; repeat split; discriminate.
  - exists content. split; [exact E|].
    vm_compute in E. injection E as <-. split; reflexivity.
Defined.

(** ** Weights come back as numbers *)

Lemma digits_val_all_digits (s : string) :
  forall acc, all_digits s = true -> exists v, digits_val s acc = Some v.
Proof.
  induction s as [|c s IH]; intros acc H; simpl in *; [now exists acc|].
  destruct (digit_val c); [apply IH; exact H | discriminate].
Qed.

Lemma all_digits_app (a b : string) :
  all_digits (a ++ b) = all_digits a && all_digits b.
Proof.
  induction a as [|c a IH]; simpl; [reflexivity|].
  destruct (digit_val c); [exact IH | reflexivity].
Qed.

Lemma all_digits_pad (w : nat) (n : N) : all_digits (pad_digits w n) = true.
Proof.
  revert n. induction w as [|w IH]; intros n; simpl; [reflexivity|].
  rewrite all_digits_app, IH. simpl. now rewrite digit_val_digit.
Qed.

Lemma all_digits_N_to_string (n : N) : all_digits (N_to_string n) = true.
Proof.
  unfold N_to_string. generalize (N.to_uint n). intros d.
  induction d; simpl; auto.
Qed.

Lemma N_to_string_nonempty (n : N) : N_to_string n <> "".
Proof.
  unfold N_to_string.
  assert (H : N.to_uint n <> Decimal.Nil).
  { destruct n as [|p]; [discriminate|]. apply Unsigned.to_uint_nonnil. }
  destruct (N.to_uint n); [contradiction | discriminate ..].
Qed.

Lemma digit_not_dot (c : ascii) (v : N) :
  digit_val c = Some v -> Ascii.eqb c "." = false.
Proof.
  intros H. destruct (Ascii.eqb_spec c "."); [|reflexivity].
  subst. discriminate.
Qed.

Lemma split_at_digits_dot (a b : string) :
  all_digits a = true -> split_at "." (a ++ String "." b) = (a, Some b).
Proof.
  induction a as [|c a IH]; intros H; simpl in *; [reflexivity|].
  destruct (digit_val c) as [v|] eqn:Ec; [|discriminate].
  rewrite (digit_not_dot c v Ec), (IH H). reflexivity.
Qed.

Lemma digits_val_dot (a b : string) :
  forall acc, all_digits a = true -> digits_val (a ++ String "." b) acc = None.
Proof.
  induction a as [|c a IH]; intros acc H; simpl in *; [reflexivity|].
  destruct (digit_val c); [apply IH; exact H | discriminate].
Qed.

Lemma split_sign_digit (c : ascii) (s : string) (v : N) :
  digit_val c = Some v -> split_sign (String c s) = (false, String c s).
Proof.
  intros H.
  destruct (Ascii.eqb_spec c "-") as [->|Hm]; [discriminate|].
  destruct (Ascii.eqb_spec c "+") as [->|Hp]; [discriminate|].
  destruct c as [[] [] [] [] [] [] [] []]; try reflexivity; congruence.
Qed.

Lemma parse_float_not_na (tok : string) (x : float64) :
  parse_float tok = Some x -> is_na tok = false.
Proof.
  intros H. destruct (is_na tok) eqn:E; [|reflexivity].
  unfold is_na, mem in E. apply existsb_exists in E.
  destruct E as (t & Hin & Et). apply String.eqb_eq in Et. subst t.
  unfold na_values in Hin. simpl in Hin.
  repeat (destruct Hin as [<- | Hin]; [discriminate|]). destruct Hin.
Qed.

(** The text of a weight is a decimal numeral with a point: it parses as a
    float, not as an integer, and is no missing-value marker. *)
Lemma parse_weight (w : Q) :
  0 <= Qnum w ->
  (exists x, parse_float (format_3f w) = Some x) /\
  parse_int (format_3f w) = None /\
  is_na (format_3f w) = false.
Proof.
  intros Hw. unfold format_3f.
  destruct (Z.ltb_spec (Qnum w) 0) as [Hneg|_]; [lia|].
  set (n := Z.to_N _).
  change ("" ++ N_to_string (n / 1000) ++ "." ++ pad_digits 3 (n mod 1000))
    with (N_to_string (n / 1000) ++ String "." (pad_digits 3 (n mod 1000))).
  pose proof (all_digits_N_to_string (n / 1000)) as Hd.
  pose proof (N_to_string_nonempty (n / 1000)) as Hne.
  pose proof (all_digits_pad 3 (n mod 1000)) as Hp.
  set (ip := N_to_string (n / 1000)) in *.
  set (fp := pad_digits 3 (n mod 1000)) in *.
  assert (Hsign : split_sign (ip ++ String "." fp) = (false, ip ++ String "." fp)).
  { destruct ip as [|c ip']; [congruence|]. simpl in Hd.
    destruct (digit_val c) as [v|] eqn:Ec; [|discriminate].
    apply (split_sign_digit c _ v Ec). }
  assert (Hf : exists x, parse_float (ip ++ String "." fp) = Some x).
  { unfold parse_float. rewrite Hsign, (split_at_digits_dot ip fp Hd).
    destruct (digits_val_all_digits (ip ++ fp) 0) as (v & Ev).
    { rewrite all_digits_app, Hd, Hp. reflexivity. }
    rewrite Ev. destruct (ip ++ fp) eqn:Eip.
    - destruct ip; [congruence | discriminate].
    - eexists. reflexivity. }
  split; [exact Hf|]. split.
  - unfold parse_int. rewrite Hsign, (digits_val_dot ip fp 0 Hd).
    destruct (ip ++ String "." fp); reflexivity.
  - destruct Hf as (x & Hx). apply (parse_float_not_na _ x Hx).
Qed.

Lemma read_csv_schema_weight (f : csv) :
  header f = COLUMNS ->
  forall row, In row (rows (read_csv f [("Date", DString)])) ->
    exists rec, In rec (records f) /\
      nth 4 row VNaN =
        convert (infer_dtype (column_fields 4 (records f))) (nth 4 rec EmptyString).
Proof.
  intros H row Hin. unfold read_csv in Hin. rewrite H in Hin. cbn [rows] in Hin.
  apply in_map_iff in Hin. destruct Hin as (rec & <- & Hrec).
  exists rec. split; [exact Hrec | reflexivity].
Qed.

(** In a file whose weights the form wrote, the weight column is read as
    numbers: every row loaded has a float for its weight, and none has the
    three-decimal text that was written. *)
Theorem form_weights_load_as_numbers :
  forall (f : csv),
    header f = COLUMNS ->
    form_weights f ->
    forall row, In row (rows (load_data (Some f))) ->
      (exists x, nth 4 row VNaN = VFloat x) /\
      (forall s, nth 4 row VNaN <> VStr s).
Proof.
  intros f Hs Hw row Hin.
  destruct (read_csv_schema_weight f Hs row Hin) as (rec & Hrec & E).
  assert (Hx : exists x, nth 4 row VNaN = VFloat x).
  { rewrite E. unfold form_weights in Hw. rewrite Forall_forall in Hw.
    assert (Hdt : infer_dtype (column_fields 4 (records f)) = DFloat).
    { unfold infer_dtype, column_fields.
      destruct (records f) as [|rec0 recs] eqn:Er; [destruct Hrec|].
      cbn [map].
      destruct (Hw rec0 (or_introl eq_refl)) as (w0 & Hw0 & E0).
      destruct (parse_weight w0 Hw0) as (_ & Hint & _).
      cbn [forallb]. rewrite E0, Hint. rewrite Bool.andb_false_r. cbn [andb].
      assert (Hall : forallb
                (fun t => is_na t ||
                          match parse_float t with Some _ => true | None => false end)
                (map (fun r => nth 4 r EmptyString) (rec0 :: recs)) = true).
      { apply forallb_forall. intros t Ht. apply in_map_iff in Ht.
        destruct Ht as (r & <- & Hr).
        destruct (Hw r Hr) as (w & Hwn & Ew).
        destruct (parse_weight w Hwn) as ((x & Hx) & _ & _).
        rewrite Ew, Hx. apply Bool.orb_true_r. }
      cbn [map forallb] in Hall. rewrite E0 in Hall. rewrite Hall. reflexivity. }
    rewrite Hdt.
    destruct (Hw rec Hrec) as (w & Hwn & Ew).
    destruct (parse_weight w Hwn) as ((x & Hx) & _ & Hna).
    unfold convert. rewrite Ew, Hna, Hx. now exists x. }
  split; [exact Hx|]. destruct Hx as (x & ->). discriminate.
Qed.

Lemma form_weights_load_as_numbers_witness :
  exists x,
    nth 4 (nth 0 (rows (load_data one_entry_store)) []) VNaN = VFloat x.
Proof.
  destruct (form_weights_load_as_numbers
              (mkCsv COLUMNS
                 [["2024-01-15"; "Ann"; "98765"; "Ring"; "5.000"; "VA Problem"]])
              eq_refl) with
    (row := nth 0 (rows (load_data one_entry_store)) []) as [Hx _].
  - repeat constructor. exists (5 # 1). split; [simpl; lia | reflexivity].
  - left. reflexivity.
  - exact Hx.
Defined.

(** ** The weight as written *)

Ltac eval_digit :=
  match goal with
  | |- context [digit_val ?c] =>
      let v := eval vm_compute in (digit_val c) in change (digit_val c) with v
  end; cbv iota beta.

Lemma digits_val_uint_acc (d : Decimal.uint) :
  forall acc : positive,
    digits_val (NilEmpty.string_of_uint d) (Npos acc) =
      Some (Npos (Pos.of_uint_acc d acc)).
Proof.
  induction d; intros acc;
    cbn [NilEmpty.string_of_uint digits_val Pos.of_uint_acc];
    [reflexivity | eval_digit; rewrite <- IHd; f_equal; lia ..].
Qed.

Lemma digits_val_uint (d : Decimal.uint) :
  digits_val (NilEmpty.string_of_uint d) 0 = Some (N.of_uint d).
Proof.
  unfold N.of_uint.
  induction d; cbn [NilEmpty.string_of_uint digits_val Pos.of_uint];
    [reflexivity | eval_digit; first [exact IHd | apply digits_val_uint_acc] ..].
Qed.

(** The digits [str] writes for a number read back as that number. *)
Lemma digits_val_N_to_string (n : N) : digits_val (N_to_string n) 0 = Some n.
Proof.
  unfold N_to_string. rewrite digits_val_uint. f_equal.
  apply DecimalN.Unsigned.of_to.
Qed.

Lemma digits_val_app (a b : string) :
  forall acc v, digits_val a acc = Some v ->
                digits_val (a ++ b) acc = digits_val b v.
Proof.
  induction a as [|c a IH]; intros acc v H; simpl in *; [now injection H as <-|].
  destruct (digit_val c); [apply IH; exact H | discriminate].
Qed.

Lemma digits_val_pad3 (m acc : N) :
  digits_val (pad_digits 3 m) acc = Some (acc * 1000 + m mod 1000)%N.
Proof.
  cbn [pad_digits append digits_val]. rewrite !digit_val_digit. f_equal.
  zify; Z.to_euclidean_division_equations; lia.
Qed.

(** [round] gives a nearest integer, the even one of two. *)
Lemma round_half_even_nearest (a b : Z) :
  0 <= a -> 0 < b ->
  Z.abs (2 * (a - round_half_even a b * b)) <= b /\
  (Z.abs (2 * (a - round_half_even a b * b)) = b ->
   Z.even (round_half_even a b) = true) /\
  0 <= round_half_even a b.
Proof.
  intros Ha Hb. unfold round_half_even.
  pose proof (Z.div_mod a b ltac:(lia)) as Hdm.
  pose proof (Z.mod_pos_bound a b Hb) as Hr.
  assert (Hq : 0 <= a / b) by (apply Z.div_pos; lia).
  set (q := a / b) in *. set (r := a mod b) in *.
  destruct (Z.ltb_spec (2 * r) b); [|destruct (Z.ltb_spec b (2 * r))].
  - repeat split; try lia.
  - repeat split; try lia.
  - destruct (Z.even q) eqn:Eq.
    + repeat split; try lia. intros _. exact Eq.
    + repeat split; try lia. intros _.
      rewrite Z.even_add, Eq. reflexivity.
Qed.

(** The weight is written rounded to the nearest thousandth of a gram, an
    exact half going to the even neighbour: the text [f"{w:.3f}"] writes for
    a weight [w >= 0] is the numeral, with a point and three decimals, of the
    number [n] of thousandths nearest to [w]; read as a number it is
    [n / 1000] (for a weight of up to fifteen digits, which a double holds).
    A whole number of grams is written with ".000". *)
Theorem weight_is_rounded_to_thousandths :
  (forall w : Q,
      0 <= Qnum w ->
      exists n : N,
        format_3f w = N_to_string (n / 1000) ++ "." ++ pad_digits 3 (n mod 1000) /\
        ((n < 10 ^ 15)%N ->
         parse_float (format_3f w) = Some (normal_float false n 3)) /\
        Z.abs (2 * (1000 * Qnum w - Z.of_N n * Zpos (Qden w))) <= Zpos (Qden w) /\
        (Z.abs (2 * (1000 * Qnum w - Z.of_N n * Zpos (Qden w))) = Zpos (Qden w) ->
         Z.even (Z.of_N n) = true)) /\
  (forall k : N, format_3f (Z.of_N k # 1) = N_to_string k ++ ".000").
Proof.
  split.
  - intros w Hw.
    destruct (round_half_even_nearest (1000 * Z.abs (Qnum w)) (Zpos (Qden w)))
      as (Hnear & Htie & Hpos); [lia | lia |].
    exists (Z.to_N (round_half_even (1000 * Z.abs (Qnum w)) (Zpos (Qden w)))).
    set (n := Z.to_N _) in *.
    assert (En : Z.of_N n =
                 round_half_even (1000 * Z.abs (Qnum w)) (Zpos (Qden w)))
      by (unfold n; lia).
    assert (Eabs : Z.abs (Qnum w) = Qnum w) by lia.
    assert (Etext : format_3f w =
                    N_to_string (n / 1000) ++ "." ++ pad_digits 3 (n mod 1000)).
    { unfold format_3f. fold n.
      destruct (Z.ltb_spec (Qnum w) 0) as [Hneg|_]; [lia | reflexivity]. }
    rewrite Eabs in Hnear, Htie, En.
    split; [exact Etext|]. split; [|rewrite En; split; assumption].
    intros _. rewrite Etext.
    change (N_to_string (n / 1000) ++ "." ++ pad_digits 3 (n mod 1000))
      with (N_to_string (n / 1000) ++ String "." (pad_digits 3 (n mod 1000))).
    pose proof (all_digits_N_to_string (n / 1000)) as Hd.
    pose proof (N_to_string_nonempty (n / 1000)) as Hne.
    pose proof (digits_val_N_to_string (n / 1000)) as Hip.
    set (ip := N_to_string (n / 1000)) in *.
    set (fp := pad_digits 3 (n mod 1000)).
    assert (Hsign : split_sign (ip ++ String "." fp) = (false, ip ++ String "." fp)).
    { destruct ip as [|c ip']; [congruence|]. simpl in Hd.
      destruct (digit_val c) as [v|] eqn:Ec; [|discriminate].
      apply (split_sign_digit c _ v Ec). }
    unfold parse_float. rewrite Hsign, (split_at_digits_dot ip fp Hd).
    rewrite (digits_val_app ip fp 0 (n / 1000)%N Hip).
    unfold fp at 2. rewrite digits_val_pad3.
    assert (Elen : String.length fp = 3%nat) by apply pad_digits_length.
    rewrite Elen.
    replace (n / 1000 * 1000 + (n mod 1000) mod 1000)%N with n
      by (zify; Z.to_euclidean_division_equations; lia).
    destruct (ip ++ fp) eqn:Eip; [|reflexivity].
    destruct ip; [congruence | discriminate].
  - intros k. unfold format_3f. cbn [Qnum Qden].
    assert (E : round_half_even (1000 * Z.abs (Z.of_N k)) 1 = 1000 * Z.of_N k).
    { unfold round_half_even. rewrite Z.mod_1_r, Z.div_1_r.
      change (2 * 0 <? 1) with true. cbv iota. lia. }
    rewrite E.
    replace (Z.to_N (1000 * Z.of_N k)) with (k * 1000)%N by lia.
    rewrite N.div_mul by discriminate. rewrite N.Div0.mod_mul.
    destruct (Z.ltb_spec (Z.of_N k) 0); [lia|]. reflexivity.
Qed.

Lemma weight_is_rounded_to_thousandths_witness :
  format_3f (1234567 # 1000000) = "1.235" /\
  format_3f (12345 # 10000) = "1.234" /\
  exists n : N,
    format_3f (1234567 # 1000000) =
      N_to_string (n / 1000) ++ "." ++ pad_digits 3 (n mod 1000) /\
    parse_float (format_3f (1234567 # 1000000)) = Some (normal_float false n 3) /\
    Z.abs (2 * (1000 * 1234567 - Z.of_N n * 1000000)) <= 1000000.
Proof.
  split; [reflexivity|]. split; [reflexivity|].
  destruct (proj1 weight_is_rounded_to_thousandths (1234567 # 1000000))
    as (n & E & P & Hnear & _).
  - simpl. lia.
  - exists n. split; [exact E|]. split; [|exact Hnear].
    apply P. change (10 ^ 15)%N with 1000000000000000%N.
    change (Z.pos (Qden (1234567 # 1000000))) with 1000000 in Hnear.
    change (Qnum (1234567 # 1000000)) with 1234567 in Hnear. lia.
Defined.

(** ** A blank contact *)

(** A contact left blank is written as an empty field, and an empty field is
    loaded as a missing value whatever the type of its column: the row has
    [NaN] for its contact, which an entry line prints as "nan". *)
Theorem blank_contact_loads_as_missing :
  forall (f : csv) (i : nat) (rec : list string),
    header f = COLUMNS ->
    nth_error (records f) i = Some rec ->
    nth 2 rec EmptyString = EmptyString ->
    exists row,
      nth_error (rows (load_data (Some f))) i = Some row /\
      get (columns (load_data (Some f))) row "Contact Number" = Some VNaN /\
      str (get_default (columns (load_data (Some f))) row "Contact Number"
                       (VStr "N/A")) = "nan".
Proof.
  intros f i rec Hs Hi Hblank.
  destruct (read_csv_schema_frame f Hs) as (d1 & d2 & d3 & d4 & d5 & E).
  unfold load_data. rewrite E. cbn [rows columns].
  rewrite nth_error_map, Hi. cbn [option_map].
  eexists. split; [reflexivity|].
  assert (Ec : convert d2 (nth 2 rec EmptyString) = VNaN).
  { rewrite Hblank. unfold convert. reflexivity. }
  unfold get_default, get. cbn [index_of String.eqb Ascii.eqb Bool.eqb option_map].
  change (index_of "Contact Number" COLUMNS) with (Some 2%nat).
  cbn [nth_error]. rewrite Ec. split; reflexivity.
Qed.

Lemma blank_contact_loads_as_missing_witness :
  exists row,
    nth_error (rows (load_data (Some (mkCsv COLUMNS
      [["2024-01-15"; "Ann"; ""; "Ring"; "5.000"; "VA Problem"]])))) 0 = Some row /\
    get COLUMNS row "Contact Number" = Some VNaN.
Proof.
  destruct (blank_contact_loads_as_missing
              (mkCsv COLUMNS [["2024-01-15"; "Ann"; ""; "Ring"; "5.000"; "VA Problem"]])
              0%nat ["2024-01-15"; "Ann"; ""; "Ring"; "5.000"; "VA Problem"]
              eq_refl eq_refl eq_refl) as (row & Hrow & Hget & _).
  exists row. split; [exact Hrow | exact Hget].
Defined.

(** ** The report with the chart box ticked *)

(** With the chart box ticked, on a frame that has the columns of the report
    and a row dated within the range: if one of the rows in range has a
    reason, the document offered carries one chart, on its first page, the
    chart of the reasons of the rows in range with its bars in ascending
    order of count; if none has, the chart function raises and nothing is
    offered. *)
Theorem ticked_report_carries_the_chart :
  forall (df : DataFrame) (j k : nat) (start_date end_date : date),
    index_of "Date" (columns df) = Some j ->
    index_of "Reason for Feedback" (columns df) = Some k ->
    report_fields df ->
    date_leb start_date end_date = true ->
    (exists r, In r (rows df) /\
               in_range start_date end_date (nth j r VNaN) = true) ->
    ((forall r, In r (rows df) ->
                in_range start_date end_date (nth j r VNaN) = true ->
                isna (nth k r VNaN) = true) ->
     generate_report df start_date end_date true = [Uncaught]) /\
    ((exists r, In r (rows df) /\
                in_range start_date end_date (nth j r VNaN) = true /\
                isna (nth k r VNaN) = false) ->
     exists msg data name chart filtered_df,
       generate_report df start_date end_date true =
         [StSuccess msg; DownloadButton "Download PDF Report" data name
                                        "application/pdf"] /\
       loc_between df "Date" start_date end_date = Some filtered_df /\
       create_reason_chart filtered_df = Some (Some chart) /\
       StronglySorted by_count (bars chart) /\
       (0 < total (bars chart) <= List.length (rows filtered_df))%nat /\
       images (pages data) =
         [DrawInlineImage chart (inches 100) (height - inches 100 - inches 350)
                          (inches 650) (inches 325)] /\
       exists more rest,
         pages data = (chart_page_head chart ++ more)%list :: rest /\
         images rest = []).
Proof.
  intros df j k s e Hj Hk Hf Hle Hin.
  split; [apply (generate_report_no_reason df j k s e Hj Hk Hle Hin)|].
  intros (r & Hr & Hrange & Hreason).
  destruct (generate_report_download df j k s e true Hj Hk Hf Hle)
    as (data & image & fd & Efd & Hne & Eimage & Hchart & _ & Epdf & Egen).
  { exists r. auto. }
  destruct (Hchart eq_refl) as (chart & -> & Ebars).
  assert (Hfd : report_fields fd).
  { unfold loc_between in Efd. rewrite Hj in Efd. injection Efd as <-.
    apply report_fields_filter. exact Hf. }
  assert (Hkept : In (nth k r VNaN)
                     (filter (fun v => negb (isna v))
                             (map (fun r => nth k r VNaN) (rows fd)))).
  { apply filter_In. split; [|now rewrite Hreason].
    apply in_map_iff. exists r. split; [reflexivity|].
    unfold loc_between in Efd. rewrite Hj in Efd. injection Efd as <-.
    apply filter_In. auto. }
  destruct (report_with_chart_pages fd chart Hfd)
    as (p & more & rest & Ep & Epages & Eimg & Erest).
  rewrite Ep in Epdf. injection Epdf as <-.
  eexists. exists p. eexists. exists chart, fd.
  split; [exact Egen|]. split; [exact Efd|]. split; [exact Eimage|].
  split; [rewrite Ebars; apply sort_values_sorted|].
  split.
  - rewrite Ebars. unfold sort_values, value_counts. rewrite !total_sort_by.
    rewrite (total_counts _ _ (Nat.le_refl _)).
    pose proof (filter_length (fun v => negb (isna v))
                  (map (fun r => nth k r VNaN) (rows fd))) as Hlen.
    rewrite length_map in Hlen.
    destruct (filter (fun v => negb (isna v)) (map (fun r => nth k r VNaN) (rows fd)));
      [destruct Hkept | simpl in *; lia].
  - split; [exact Eimg|]. exists more, rest. split; [exact Epages | exact Erest].
Qed.

Lemma ticked_report_carries_the_chart_witness :
  exists msg data name,
    generate_report (mkDF COLUMNS [ann_row]) (mkDate 2024 1 1) (mkDate 2024 1 31)
      true =
      [StSuccess msg; DownloadButton "Download PDF Report" data name
                                     "application/pdf"] /\
    List.length (images (pages data)) = 1%nat.
Proof.
  destruct (ticked_report_carries_the_chart (mkDF COLUMNS [ann_row]) 0%nat 5%nat
              (mkDate 2024 1 1) (mkDate 2024 1 31) eq_refl eq_refl)
    as (_ & H).
  - split.
    + intros c Hc. simpl in Hc.
      repeat (destruct Hc as [<- | Hc]; [reflexivity|]). destruct Hc.
    + repeat constructor.
  - reflexivity.
  - exists ann_row. split; [now left | reflexivity].
  - destruct H as (msg & data & name & chart & fd & E & _ & _ & _ & _ & Him & _).
    + exists ann_row. split; [now left|]. split; reflexivity.
    + exists msg, data, name. split; [exact E|]. rewrite Him. reflexivity.
Defined.
